(** * pymarc.field: a shallow embedding of [Field] and [RawField]

    The development follows [src/pymarc/field.py].  A field object is a record
    of optional attributes (an attribute that was never assigned is [None],
    so [hasattr] is [is_some]); methods are computations in a state and
    exception monad whose state is the object [self]; a Python exception is
    a [Raise] outcome that keeps the state reached when it was raised.

    Text ([str]) is modelled as [string], whose characters are the code
    points 0 to 255; byte strings ([bytes]) are [list byte].

    The module is Python 3 code, and the built-in functions behave as in
    CPython 3.11: [map] returns an iterator, a byte string and a text do not
    add up, and the conversions between an [int] and a decimal text raise
    [ValueError] beyond 4300 digits. *)

From Stdlib Require Import String Ascii List ZArith Lia Bool Arith PeanoNat.
From Stdlib Require Import Strings.Byte.
From Stdlib Require Import Sorting.Permutation Sorting.Sorted.
From Stdlib Require Import Structures.OrderedTypeEx.
Import ListNotations.

Set Implicit Arguments.
Local Open Scope string_scope.
Local Open Scope list_scope.
Local Open Scope nat_scope.

(** ** Exceptions and outcomes *)

(** The Python exceptions the module can raise.  [OutOfFuel] is not a Python
    exception: it marks a loop of the model that exhausted its fuel.  The
    lemmas on the loops below show that they end within their fuel on a
    control field and on a data field whose subfield list has even length. *)
Inductive exn : Type :=
| StopIteration
| KeyError (msg : string)
| IndexError
| ValueError
| AttributeError (attr : string)
| UnicodeEncodeError
| TypeError
| OutOfFuel.

Inductive result (A : Type) : Type :=
| Ok (a : A)
| Raise (e : exn).
Arguments Ok {A} a.
Arguments Raise {A} e.

(** ** The state and exception monad *)

Module PyMonad.

Definition M (S A : Type) : Type := S -> result A * S.

Definition ret {S A} (a : A) : M S A := fun s => (Ok a, s).

Definition bind {S A B} (m : M S A) (k : A -> M S B) : M S B :=
  fun s => match m s with
           | (Ok a, s') => k a s'
           | (Raise e, s') => (Raise e, s')
           end.

Definition raise {S A} (e : exn) : M S A := fun s => (Raise e, s).

Definition get {S} : M S S := fun s => (Ok s, s).

Definition put {S} (s : S) : M S unit := fun _ => (Ok tt, s).

(** A pure computation that may raise. *)
Definition lift {S A} (r : result A) : M S A := fun s => (r, s).

Definition bind_result {A B} (r : result A) (k : A -> result B) : result B :=
  match r with
  | Ok a => k a
  | Raise e => Raise e
  end.

End PyMonad.
Import PyMonad.

Declare Scope py_scope.
Delimit Scope py_scope with py.
Notation "x <- m ;; k" := (bind m (fun x => k))
  (at level 61, m at next level, right associativity) : py_scope.
Notation "m ;;; k" := (bind m (fun _ => k))
  (at level 61, right associativity) : py_scope.
Local Open Scope py_scope.

(** ** Python values stored in a field *)

Definition text : Type := string.
Definition bytes : Type := list byte.

(** What the methods need of a stored value: [==] and truthiness.  A text or
  a byte string is false in a boolean context exactly when it is empty. *)
Class PyValue (V : Type) : Type := {
  py_eqb : V -> V -> bool;
  py_eqb_eq : forall x y, py_eqb x y = true <-> x = y;
  py_truthy : V -> bool
}.

Definition bytes_eqb (a b : bytes) : bool :=
  if list_eq_dec Byte.byte_eq_dec a b then true else false.

Lemma bytes_eqb_eq (a b : bytes) : bytes_eqb a b = true <-> a = b.
Proof.
  unfold bytes_eqb. destruct (list_eq_dec Byte.byte_eq_dec a b); split; congruence.
Qed.

#[export] Instance PyValue_text : PyValue text := {
  py_eqb := String.eqb;
  py_eqb_eq := String.eqb_eq;
  py_truthy := fun s => negb (String.eqb s "")
}.

#[export] Instance PyValue_bytes : PyValue bytes := {
  py_eqb := bytes_eqb;
  py_eqb_eq := bytes_eqb_eq;
  py_truthy := fun b => match b with [] => false | _ => true end
}.

(** [<] on the keys handed to [sorted]. *)
Class PyOrd (K : Type) : Type := {
  py_lt : K -> K -> bool
}.

#[export] Instance PyOrd_text : PyOrd text := {
  py_lt := String.ltb
}.

(** Tuples compare lexicographically: the first components decide unless
  they are equal. *)
#[export] Instance PyOrd_pair {A B} `{PyValue A} `{PyOrd A} `{PyOrd B} : PyOrd (A * B) := {
  py_lt := fun p q =>
    if py_eqb (fst p) (fst q) then py_lt (snd p) (snd q) else py_lt (fst p) (fst q)
}.

(** ** Python lists *)

Module PyList.
Section Defs.
Context {A : Type}.

(** Index normalisation: a negative index counts from the end. *)
Definition norm_index (l : list A) (i : Z) : option nat :=
  let n := Z.of_nat (length l) in
  let j := if (i <? 0)%Z then (i + n)%Z else i in
  if ((0 <=? j) && (j <? n))%Z then Some (Z.to_nat j) else None.

(** [l[i]] *)
Definition getitem (l : list A) (i : Z) : result A :=
  match norm_index l i with
  | Some k => match nth_error l k with
              | Some x => Ok x
              | None => Raise IndexError
              end
  | None => Raise IndexError
  end.

Fixpoint update (l : list A) (k : nat) (x : A) : list A :=
  match l, k with
  | [], _ => []
  | _ :: t, O => x :: t
  | h :: t, S k' => h :: update t k' x
  end.

(** [l[i] = x] *)
Definition setitem (l : list A) (i : Z) (x : A) : result (list A) :=
  match norm_index l i with
  | Some k => Ok (update l k x)
  | None => Raise IndexError
  end.

(** [l.pop(i)]: the removed element and the list that remains. *)
Definition pop (l : list A) (i : Z) : result (A * list A) :=
  match norm_index l i with
  | Some k => match nth_error l k with
              | Some x => Ok (x, firstn k l ++ skipn (S k) l)
              | None => Raise IndexError
              end
  | None => Raise IndexError
  end.

(** [l.append(x)] *)
Definition append (l : list A) (x : A) : list A := l ++ [x].

(** [enumerate(l)] *)
Definition enumerate (l : list A) : list (nat * A) :=
  combine (seq 0 (length l)) l.

(** [l[::2]] and [l[1::2]] *)
Fixpoint slice_even (l : list A) : list A :=
  match l with
  | [] => []
  | x :: t => x :: match t with [] => [] | _ :: t' => slice_even t' end
  end.

Definition slice_odd (l : list A) : list A :=
  match l with
  | [] => []
  | _ :: t => slice_even t
  end.

(** [zip(a, b)] stops at the shorter argument. *)
Definition zip {B} (a : list A) (b : list B) : list (A * B) := combine a b.

End Defs.

Section Sorted.
Context {A K : Type} `{PyOrd K}.
Variable key : A -> K.

(** [sorted(l, key=key)].  Python's sort is stable and compares keys with
    [<] only.  Where [<] is a strict weak order on the keys (asymmetric, and
    [a < c] implies [a < b] or [b < c]; the orders of texts and of tuples of
    texts are of this kind) the ordered, stable rearrangement of a list is
    unique, so that every stable sort returns it: lemma [stable_sort_unique]
    below.  It is computed here by a stable insertion: an element, met before
    the ones already placed, stops in front of the first of them whose key is
    not strictly below its own.  For a [<] that is not a strict weak order
    (keys that do not compare, like a NaN) the order that Python's own
    algorithm returns is not determined by these two properties, and [sorted]
    stands for it only up to a rearrangement of the list. *)
Fixpoint insert (x : A) (l : list A) : list A :=
  match l with
  | [] => [x]
  | y :: t => if py_lt (key y) (key x) then y :: insert x t else x :: y :: t
  end.

Fixpoint sorted (l : list A) : list A :=
  match l with
  | [] => []
  | x :: t => insert x (sorted t)
  end.

(** [a] may stand before [b]: the key of [b] is not strictly below the key
    of [a]. *)
Definition key_le (a b : A) : Prop := py_lt (key b) (key a) = false.

(** The elements whose key neither precedes nor follows [k]: the class of
    [k], inside which a stable sort keeps the order of the input. *)
Definition same_class (k : K) (x : A) : bool :=
  negb (py_lt (key x) k) && negb (py_lt k (key x)).
End Sorted.

(** [<] is a strict weak order on the keys. *)
Definition strict_weak_order (K : Type) `{PyOrd K} : Prop :=
  (forall a b : K, py_lt a b = true -> py_lt b a = false)
  /\ (forall a b c : K, py_lt a b = false -> py_lt b c = false -> py_lt a c = false).
Arguments strict_weak_order K {_}.
End PyList.

(** ** Text operations used by the module *)

Module PyStr.

Definition code_point (c : ascii) : nat := nat_of_ascii c.

(** [c.isdigit()] for one character: the decimal digits, and the superscript
    digits of the Latin-1 block, which Unicode classes as digits too. *)
Definition char_isdigit (c : ascii) : bool :=
  let n := code_point c in
  ((48 <=? n) && (n <=? 57)) || (n =? 178) || (n =? 179) || (n =? 185).

(** The characters [int()] accepts as decimal digits. *)
Definition char_isdecimal (c : ascii) : bool :=
  let n := code_point c in (48 <=? n) && (n <=? 57).

(** [c.isspace()] for one character. *)
Definition char_isspace (c : ascii) : bool :=
  let n := code_point c in
  ((9 <=? n) && (n <=? 13)) || ((28 <=? n) && (n <=? 32)) || (n =? 133) || (n =? 160).

Fixpoint all_chars (p : ascii -> bool) (s : string) : bool :=
  match s with
  | EmptyString => true
  | String c s' => p c && all_chars p s'
  end.

(** [s.isdigit()]: every character is a digit and there is at least one. *)
Definition isdigit (s : string) : bool :=
  match s with
  | EmptyString => false
  | _ => all_chars char_isdigit s
  end.

(** [a < b] on text: lexicographic on code points. *)
Definition lt (a b : string) : bool := String.ltb a b.

(** [s.replace(old, new)] for a one-character [old]. *)
Fixpoint replace (s : string) (old : ascii) (new : string) : string :=
  match s with
  | EmptyString => EmptyString
  | String c s' =>
      if Ascii.eqb c old then (new ++ replace s' old new)%string
      else String c (replace s' old new)
  end.

(** Left padding to a width, as the formats [%03s] and [%03i] do. *)
Fixpoint repeat_char (c : ascii) (n : nat) : string :=
  match n with
  | O => EmptyString
  | S n' => String c (repeat_char c n')
  end.

Definition lpad (c : ascii) (width : nat) (s : string) : string :=
  (repeat_char c (width - String.length s) ++ s)%string.

(** ['%03s' % s]: the flag [0] has no effect on a text argument, which is
    right-justified with spaces and never truncated. *)
Definition format_03s (s : string) : string := lpad " "%char 3 s.

Definition digit_char (d : nat) : ascii := ascii_of_nat (48 + d).

Fixpoint decimal_aux (fuel n : nat) (acc : string) : string :=
  match fuel with
  | O => acc
  | S fuel' =>
      let acc' := String (digit_char (n mod 10)) acc in
      if n / 10 =? 0 then acc' else decimal_aux fuel' (n / 10) acc'
  end.

(** The decimal numeral of a natural number. *)
Definition decimal (n : nat) : string := decimal_aux (S n) n EmptyString.

(** ['%03i' % z]: zero padding to width three, the sign counting in the
    width. *)
Definition format_03i (z : Z) : string :=
  if (z <? 0)%Z then ("-" ++ lpad "0"%char 2 (decimal (Z.abs_nat z)))%string
  else lpad "0"%char 3 (decimal (Z.abs_nat z)).

(** [s.strip()] of white space. *)
Fixpoint lstrip (s : string) : string :=
  match s with
  | EmptyString => EmptyString
  | String c s' => if char_isspace c then lstrip s' else s
  end.

Fixpoint rstrip (s : string) : string :=
  match s with
  | EmptyString => EmptyString
  | String c s' =>
      match rstrip s' with
      | EmptyString => if char_isspace c then EmptyString else String c EmptyString
      | r => String c r
      end
  end.

Definition strip (s : string) : string := rstrip (lstrip s).

(** The digits of an integer literal: decimal digits, where one underscore
    may stand between two digits.  [prev] tells whether the previous
    character was a digit; [acc] is the value read so far. *)
Fixpoint parse_digits (s : string) (prev : bool) (acc : nat) : option nat :=
  match s with
  | EmptyString => if prev then Some acc else None
  | String c s' =>
      if char_isdecimal c then parse_digits s' true (10 * acc + (code_point c - 48))
      else if Ascii.eqb c "_"%char then
        if prev then parse_digits s' false acc else None
      else None
  end.

(** The white space that [int()] skips at both ends of a text: the white
    space of ASCII as C has it (the tab, the line feed, the vertical tab, the
    form feed, the carriage return and the space) and, beyond ASCII, the
    Unicode white space, which is U+0085 and U+00A0 among the code points at
    hand.  The separators U+001C to U+001F, which [str.strip] removes, are
    not skipped: [int] raises [ValueError] on a text that begins or ends
    with one of them. *)
Definition char_isspace_int (c : ascii) : bool :=
  let n := code_point c in
  ((9 <=? n) && (n <=? 13)) || (n =? 32) || (n =? 133) || (n =? 160).

Fixpoint lstrip_int (s : string) : string :=
  match s with
  | EmptyString => EmptyString
  | String c s' => if char_isspace_int c then lstrip_int s' else s
  end.

Fixpoint rstrip_int (s : string) : string :=
  match s with
  | EmptyString => EmptyString
  | String c s' =>
      match rstrip_int s' with
      | EmptyString => if char_isspace_int c then EmptyString else String c EmptyString
      | r => String c r
      end
  end.

Definition strip_int (s : string) : string := rstrip_int (lstrip_int s).

(** [sys.int_max_str_digits] at its default value: a conversion between an
    [int] and a decimal text raises [ValueError] when more digits than this
    are involved (CPython 3.11). *)
Definition int_max_str_digits : nat := 4300.

Fixpoint count_chars (p : ascii -> bool) (s : string) : nat :=
  match s with
  | EmptyString => 0
  | String c s' => (if p c then 1 else 0) + count_chars p s'
  end.

(** The value of the digits that follow the sign: the digits are counted,
    the underscores are not, and the count is held against the limit. *)
Definition int_of_digits (d : string) : option nat :=
  if count_chars char_isdecimal d <=? int_max_str_digits
  then parse_digits d false 0
  else None.

(** [int(s)] for a text [s]: [None] stands for [ValueError]. *)
Definition int_of_str (s : string) : option Z :=
  match strip_int s with
  | String "-" d => option_map (fun n => (- Z.of_nat n)%Z) (int_of_digits d)
  | String "+" d => option_map Z.of_nat (int_of_digits d)
  | d => option_map Z.of_nat (int_of_digits d)
  end.

(** The number of decimal digits of an integer. *)
Definition digits_of (z : Z) : nat := String.length (decimal (Z.abs_nat z)).

(** [str(z)] *)
Definition str_of_int (z : Z) : result string :=
  if digits_of z <=? int_max_str_digits then
    Ok ((if (z <? 0)%Z then "-" else "") ++ decimal (Z.abs_nat z))%string
  else Raise ValueError.

(** ['%03i' % z], which raises as [str(z)] does. *)
Definition percent_03i (z : Z) : result string :=
  if digits_of z <=? int_max_str_digits then Ok (format_03i z)
  else Raise ValueError.

(** [s.encode('ascii')]: every code point must be below 128. *)
Fixpoint encode_ascii (s : string) : result bytes :=
  match s with
  | EmptyString => Ok []
  | String c s' =>
      if code_point c <? 128 then
        bind_result (encode_ascii s') (fun b => Ok (byte_of_ascii c :: b))
      else Raise UnicodeEncodeError
  end.

End PyStr.
Import PyStr PyList.

(** ** The field object *)

(** The attributes of a [Field] instance.  [tag] is assigned first by
    [__init__]; every other attribute exists only once it was assigned.
    [__pos] is the iteration cursor [_Field__pos].  The stored values are
    texts in a [Field] and byte strings in a [RawField]; the indicators are
    texts in both, since [__init__] passes them through [text_type]. *)
Record Field (V : Type) : Type := mkField {
  tag : text;
  data : option V;
  indicators : option (list text);
  indicator1 : option text;
  indicator2 : option text;
  subfields : option (list V);
  __pos : option nat
}.
Arguments mkField {V}.

(** [class RawField(Field)] *)
Definition RawField : Type := Field bytes.

Definition set_subfields {V} (l : list V) (self : Field V) : Field V :=
  mkField (tag self) (data self) (indicators self) (indicator1 self)
          (indicator2 self) (Some l) (__pos self).

Definition set_pos {V} (p : nat) (self : Field V) : Field V :=
  mkField (tag self) (data self) (indicators self) (indicator1 self)
          (indicator2 self) (subfields self) (Some p).

(** The tag argument of the constructor: an integer or a text. *)
Inductive tag_arg : Type :=
| TagInt (z : Z)
| TagStr (s : text).

(** The object that [map(function, source)] returns.  The module is written
    for Python 3 (the header of [get_subfields] has an argument after
    [*codes]), where [map] returns an iterator that applies [function] to
    the elements of [source] as they are asked for; it is not a list. *)
Record map_object (V : Type) : Type := mkMap {
  map_function : V -> V;
  map_source : list V
}.
Arguments mkMap {V}.

(** What the attribute [subfields] holds in the object that
    [map_marc8_field] returns: the list it held before, or a [map] object. *)
Inductive subfields_attr (V : Type) : Type :=
| SubfieldList (l : list V)
| SubfieldMap (m : map_object V).
Arguments SubfieldList {V} l.
Arguments SubfieldMap {V} m.

(** The object that [map_marc8_field] returns: the attributes of a [Field],
    the attribute [subfields] with the values it can hold then. *)
Record MappedField (V : Type) : Type := mkMapped {
  m_tag : text;
  m_data : option V;
  m_indicators : option (list text);
  m_indicator1 : option text;
  m_indicator2 : option text;
  m_subfields : option (subfields_attr V);
  m_pos : option nat
}.
Arguments mkMapped {V}.

(** [len(x)] for the value of the attribute: a [map] object has no length. *)
Definition len_subfields {V} (x : subfields_attr V) : result nat :=
  match x with
  | SubfieldList l => Ok (length l)
  | SubfieldMap _ => Raise TypeError
  end.

(** [list(x)]: the elements that the value yields when it is iterated; a
    [map] object yields them once and is exhausted then. *)
Definition list_subfields {V} (x : subfields_attr V) : list V :=
  match x with
  | SubfieldList l => l
  | SubfieldMap m => map (map_function m) (map_source m)
  end.

(** The view of a flat subfield list as (code, value) pairs. *)
Fixpoint pairs {V} (l : list V) : list (V * V) :=
  match l with
  | c :: v :: t => (c, v) :: pairs t
  | _ => []
  end.

Definition flatten {V} (ps : list (V * V)) : list V :=
  flat_map (fun p => [fst p; snd p]) ps.

Definition codes_of {V} (l : list V) : list V := map fst (pairs l).

Definition even_length {V} (l : list V) : Prop := Nat.even (length l) = true.

Section Methods.
Context {V : Type} `{PyValue V}.

Abbreviation FieldM := (M (Field V)).

(** [self.name], which raises when the attribute does not exist. *)
Definition attr {A} (name : string) (proj : Field V -> option A) : FieldM A :=
  fun self => match proj self with
              | Some a => (Ok a, self)
              | None => (Raise (AttributeError name), self)
              end.

(** [Field.is_control_field] *)
Definition is_control_field (self : Field V) : bool :=
  PyStr.lt (tag self) "010" && isdigit (tag self).

(** [int(tag)] *)
Definition int_of_tag (t : tag_arg) : result Z :=
  match t with
  | TagInt z => Ok z
  | TagStr s => match int_of_str s with
                | Some z => Ok z
                | None => Raise ValueError
                end
  end.

(** ['%03s' % tag]: a text is padded as it is, an integer goes through
    [str] first. *)
Definition percent_03s (t : tag_arg) : result text :=
  match t with
  | TagInt z => bind_result (str_of_int z) (fun s => Ok (format_03s s))
  | TagStr s => Ok (format_03s s)
  end.

(** [try: body except ValueError: handler] *)
Definition try_except_ValueError {A} (body handler : result A) : result A :=
  match body with
  | Raise ValueError => handler
  | r => r
  end.

(** The tag normalisation at the head of [__init__]: [int(tag)] formatted
    with [%03i], or the tag itself formatted with [%03s] when that raises
    [ValueError].  A [ValueError] of the handler leaves [__init__]. *)
Definition normalize_tag (t : tag_arg) : result text :=
  try_except_ValueError (bind_result (int_of_tag t) percent_03i) (percent_03s t).

(** [Field.__init__(tag, indicators=None, subfields=None, data=u'')]: the
    outcome is the constructed object, or the exception that makes the
    construction fail.  The unpacking of [indicators] into two targets
    raises [ValueError] unless there are exactly two. *)
Definition __init__ (tag0 : tag_arg) (indicators0 : option (list text))
    (subfields0 : option (list V)) (data0 : V) : result (Field V) :=
  let indicators1 := match indicators0 with None => [] | Some l => l end in
  let subfields1 := match subfields0 with None => [] | Some l => l end in
  bind_result (normalize_tag tag0) (fun tag1 =>
  let self := mkField tag1 None None None None None None in
  if is_control_field self then
    Ok (mkField (tag self) (Some data0) None None None None None)
  else
    match indicators1 with
    | [i1; i2] =>
        Ok (mkField (tag self) None (Some indicators1) (Some i1) (Some i2)
                    (Some subfields1) None)
    | _ => Raise ValueError
    end).

(** [Field.__iter__] *)
Definition __iter__ : FieldM unit :=
  fun self => (Ok tt, set_pos 0 self).

(** [Field.__next__]: the loop [while ... : ... return subfield] runs its
    body at most once. *)
Definition __next__ : FieldM (V * V) :=
  fun self =>
    match subfields self with
    | None => (Raise StopIteration, self)
    | Some _ =>
        (pos <- attr "__pos" (@__pos V);;
         sf <- attr "subfields" (@subfields V);;
         if pos <? length sf then
           c <- lift (getitem sf (Z.of_nat pos));;
           v <- lift (getitem sf (Z.of_nat pos + 1));;
           (fun self' => (Ok tt, set_pos (pos + 2) self'));;;
           ret (c, v)
         else raise StopIteration) self
    end.

(** [for subfield in self: acc = body(acc, subfield)]: [__next__] is called
    until it raises [StopIteration]. *)
Fixpoint for_next {A} (fuel : nat) (body : A -> V * V -> FieldM A) (acc : A)
    : FieldM A :=
  match fuel with
  | O => raise OutOfFuel
  | S fuel' =>
      fun self =>
        match __next__ self with
        | (Ok p, self') => bind (body acc p) (for_next fuel' body) self'
        | (Raise StopIteration, self') => (Ok acc, self')
        | (Raise e, self') => (Raise e, self')
        end
  end.

Definition iter_fuel (self : Field V) : nat :=
  match subfields self with
  | None => 1
  | Some l => S (length l)
  end.

Definition for_self {A} (body : A -> V * V -> FieldM A) (acc : A) : FieldM A :=
  __iter__;;;
  self <- get;;
  for_next (iter_fuel self) body acc.

(** [list(self)]: the pairs an iteration yields. *)
Definition iterate : FieldM (list (V * V)) :=
  for_self (fun acc p => ret (acc ++ [p])) [].

(** [Field.get_subfields] on the codes given, [with_codes] left at [False];
    with no code at all every subfield is returned. *)
Definition get_subfields (codes : list V) : FieldM (list V) :=
  for_self (fun values subfield =>
              if existsb (py_eqb (fst subfield)) codes
                 || match codes with [] => true | _ => false end
              then ret (values ++ [snd subfield])
              else ret values) [].

(** [Field.get_subfields] with [with_codes=True]. *)
Definition get_subfields_with_codes (codes : list V) : FieldM (list (V * V)) :=
  for_self (fun values subfield =>
              if existsb (py_eqb (fst subfield)) codes
                 || match codes with [] => true | _ => false end
              then ret (values ++ [subfield])
              else ret values) [].

(** [Field.__getitem__]: [None] is Python's [None]. *)
Definition __getitem__ (subfield : V) : FieldM (option V) :=
  sfs <- get_subfields [subfield];;
  if 0 <? length sfs then
    x <- lift (getitem sfs 0);; ret (Some x)
  else ret None.

(** [Field.__contains__] *)
Definition __contains__ (subfield : V) : FieldM bool :=
  sfs <- get_subfields [subfield];;
  ret (0 <? length sfs).

(** [Field.count] *)
Definition count (code : V) : FieldM nat :=
  l <- for_self (fun acc subf =>
                   if py_eqb (fst subf) code then ret (acc ++ [subf]) else ret acc) [];;
  ret (length l).

(** [Field.add_subfield] *)
Definition add_subfield (code value : V) : FieldM unit :=
  sf <- attr "subfields" (@subfields V);;
  (fun self => (Ok tt, set_subfields (append sf code) self));;;
  sf' <- attr "subfields" (@subfields V);;
  fun self => (Ok tt, set_subfields (append sf' value) self).

(** [self.subfields.pop(i)] *)
Definition pop_subfield (i : Z) : FieldM V :=
  sf <- attr "subfields" (@subfields V);;
  r <- lift (pop sf i);;
  (fun self => (Ok tt, set_subfields (snd r) self));;;
  ret (fst r).

(** The loop of [delete_subfield] over [enumerate(self.subfields)]; [rest]
    is what the enumeration has still to yield, [i] the index of its head.
    The list is only changed on the path that returns. *)
Fixpoint delete_scan (code : V) (match_value : option V) (i : nat) (rest : list V)
    : FieldM (option V) :=
  match rest with
  | [] => ret None
  | subf_code :: rest' =>
      if (i mod 2 =? 0) && py_eqb code subf_code then
        hit <- match match_value with
               | None => ret true
               | Some mv =>
                   sf <- attr "subfields" (@subfields V);;
                   x <- lift (getitem sf (Z.of_nat i + 1));;
                   ret (py_eqb x mv)
               end;;
        if hit : bool then
          pop_subfield (Z.of_nat i);;;
          v <- pop_subfield (Z.of_nat i);;
          ret (Some v)
        else delete_scan code match_value (S i) rest'
      else delete_scan code match_value (S i) rest'
  end.

(** [Field.delete_subfield(code, match_value=None)] *)
Definition delete_subfield (code : V) (match_value : option V) : FieldM (option V) :=
  sf <- attr "subfields" (@subfields V);;
  delete_scan code match_value 0 sf.

(** The truth value of what [delete_subfield] returns: [None] is false, and
    so is an empty value. *)
Definition truthy_opt (r : option V) : bool :=
  match r with
  | None => false
  | Some v => py_truthy v
  end.

(** [while self.delete_subfield(code): continue] *)
Fixpoint delete_all_loop (fuel : nat) (code : V) : FieldM unit :=
  match fuel with
  | O => raise OutOfFuel
  | S fuel' =>
      r <- delete_subfield code None;;
      if truthy_opt r then delete_all_loop fuel' code else ret tt
  end.

(** [Field.delete_all_subfields] *)
Definition delete_all_subfields (code : V) : FieldM unit :=
  self <- get;;
  delete_all_loop (iter_fuel self) code.

(** [Field.change_code]: [{from_code: to_code}.get(val, val)] at the even
    indices. *)
Definition change_code (from_code to_code : V) : FieldM unit :=
  sf <- attr "subfields" (@subfields V);;
  fun self =>
    (Ok tt,
     set_subfields
       (map (fun iv : nat * V =>
               let (i, val) := iv in
               if negb (i mod 2 =? 0) then val
               else if py_eqb val from_code then to_code else val)
            (enumerate sf))
       self).

(** [Field.sort(key)]: [key] is called by [sorted] on the elements of the
    zipped list, which are the (code, value) tuples. *)
Definition sort {K} `{PyOrd K} (key : V * V -> K) : FieldM unit :=
  sf <- attr "subfields" (@subfields V);;
  sf2 <- attr "subfields" (@subfields V);;
  fun self =>
    (Ok tt,
     set_subfields
       (flat_map (fun tuple : V * V => [fst tuple; snd tuple])
                 (sorted key (zip (slice_even sf) (slice_odd sf2))))
       self).

(** The loop of [__setitem__]: [while num_code >= 0], counting down. *)
Fixpoint setitem_loop (num_code : nat) (code value : V) : FieldM unit :=
  sf <- attr "subfields" (@subfields V);;
  c <- lift (getitem sf (Z.of_nat num_code * 2 - 2));;
  if py_eqb c code then
    sf' <- attr "subfields" (@subfields V);;
    l <- lift (setitem sf' (Z.of_nat num_code * 2 - 1) value);;
    fun self => (Ok tt, set_subfields l self)
  else
    match num_code with
    | O => ret tt
    | S k => setitem_loop k code value
    end.

(** [Field.__setitem__]; [show] renders the code in the error message. *)
Definition __setitem__ (show : V -> string) (code value : V) : FieldM unit :=
  sfs <- get_subfields [code];;
  if 1 <? length sfs then
    raise (KeyError ("more than one code '" ++ show code ++ "'")%string)
  else if length sfs =? 0 then
    add_subfield code value
  else
    sf <- attr "subfields" (@subfields V);;
    setitem_loop (length sf / 2) code value.

(** [map_marc8_field(f)] with the decoder [marc8_to_unicode], a function of
    [pymarc.marc8] taken as a parameter.  The function changes [f] and
    returns it; the outcome is the object returned.  On a data field the
    attribute [subfields] is assigned what [map(...)] returns, which is a
    [map] object and not a list. *)
Definition map_marc8_field (marc8_to_unicode : V -> V) (f : Field V)
    : result (MappedField V) :=
  if is_control_field f then
    match data f with
    | Some d =>
        Ok (mkMapped (tag f) (Some (marc8_to_unicode d)) (indicators f)
                     (indicator1 f) (indicator2 f)
                     (option_map SubfieldList (subfields f)) (__pos f))
    | None => Raise (AttributeError "data")
    end
  else
    match subfields f with
    | Some sf =>
        Ok (mkMapped (tag f) (data f) (indicators f) (indicator1 f) (indicator2 f)
                     (Some (SubfieldMap (mkMap marc8_to_unicode sf))) (__pos f))
    | None => Raise (AttributeError "subfields")
    end.

End Methods.

(** [Field.__str__], on a field of texts. *)
Definition __str__ : M (Field text) text :=
  self <- get;;
  if is_control_field self then
    d <- attr "data" (@data text);;
    ret ("=" ++ tag self ++ "  " ++ replace d " "%char "\")%string
  else
    inds <- attr "indicators" (@indicators text);;
    let text1 :=
      fold_left (fun (text0 : text) (indicator : text) =>
                   if String.eqb indicator " " || String.eqb indicator "\"
                   then (text0 ++ "\")%string
                   else (text0 ++ indicator)%string)
                inds ("=" ++ tag self ++ "  ")%string in
    for_self (fun (text0 : text) (subfield : text * text) =>
                ret (text0 ++ "$" ++ fst subfield ++ snd subfield)%string)
             text1.

(** ** RawField *)

(** A record handed to the logging sink. *)
Record log_record : Type := mkLog {
  levelname : string;
  message : string
}.

(** [logging.warn(msg)]: the record is added to what the sink received. *)
Definition logging_warn {S} (msg : string) : M (S * list log_record) unit :=
  fun st => (Ok tt, (fst st, snd st ++ [mkLog "WARNING" msg])).

(** A method of [self] run in a state that also holds the logging sink. *)
Definition on_self {S L A} (m : M S A) : M (S * L) A :=
  fun st => let (r, s') := m (fst st) in (r, (s', snd st)).

Section RawFieldMethods.

(** The constants of [pymarc.constants], a module that is not part of the
    sources at hand.  Both are texts: [Field.as_marc] adds each of them to a
    text and encodes the sum, and [RawField.as_marc] encodes
    [SUBFIELD_INDICATOR]. *)
Variable SUBFIELD_INDICATOR : text.
Variable END_OF_FIELD : text.

(** [s.encode(encoding)], by the codec that the name [encoding] selects. *)
Variable str_encode : text -> text -> result bytes.

(** [Field.as_marc(encoding)], on a field of texts. *)
Definition Field_as_marc (encoding : text) : M (Field text) bytes :=
  self <- get;;
  if is_control_field self then
    d <- attr "data" (@data text);;
    lift (str_encode (d ++ END_OF_FIELD)%string encoding)
  else
    i1 <- attr "indicator1" (@indicator1 text);;
    i2 <- attr "indicator2" (@indicator2 text);;
    marc <- for_self (fun (marc : text) (subfield : text * text) =>
                        ret (marc ++ ((SUBFIELD_INDICATOR ++ fst subfield)
                                      ++ snd subfield))%string)
                     (i1 ++ i2)%string;;
    lift (str_encode (marc ++ END_OF_FIELD)%string encoding).

(** [b + t] for a byte string [b] and a text [t]: [bytes.__add__] takes a
    byte string only, and the sum raises [TypeError]. *)
Definition bytes_add_text (b : bytes) (t : text) : result bytes :=
  Raise TypeError.

(** [RawField.as_marc(encoding=None)] *)
Definition RawField_as_marc (encoding : option text)
    : M (RawField * list log_record) bytes :=
  match encoding with
  | Some e => logging_warn ("Attempt to force a RawField into encoding " ++ e)%string
  | None => ret tt
  end;;;
  on_self
    (self <- get;;
     if is_control_field self then
       d <- attr "data" (@data bytes);;
       lift (bytes_add_text d END_OF_FIELD)
     else
       i1 <- attr "indicator1" (@indicator1 bytes);;
       b1 <- lift (encode_ascii i1);;
       i2 <- attr "indicator2" (@indicator2 bytes);;
       b2 <- lift (encode_ascii i2);;
       marc <- for_self (fun (marc : bytes) (subfield : bytes * bytes) =>
                           d <- lift (encode_ascii SUBFIELD_INDICATOR);;
                           ret (marc ++ ((d ++ fst subfield) ++ snd subfield)))
                        (b1 ++ b2);;
       lift (bytes_add_text marc END_OF_FIELD)).

End RawFieldMethods.

(** ** Functions the statements are written with *)

Section Reference.
Context {V : Type} `{PyValue V}.

(** A subfield carries the code [code]. *)
Definition has_code (code : V) (p : V * V) : bool := py_eqb (fst p) code.

(** A subfield is asked for by [get_subfields]: its code is among [codes],
    or no code was given. *)
Definition requested (codes : list V) (p : V * V) : bool :=
  existsb (py_eqb (fst p)) codes || match codes with [] => true | _ => false end.

(** The number of subfields of a flat list that carry [code]. *)
Definition count_code (code : V) (l : list V) : nat :=
  length (filter (has_code code) (pairs l)).

(** The subfields of a flat list that do not carry [code], in order. *)
Definition without_code (code : V) (l : list V) : list (V * V) :=
  filter (fun p => negb (has_code code p)) (pairs l).

(** The test of [delete_subfield] on one subfield. *)
Definition delete_test (code : V) (match_value : option V) (p : V * V) : bool :=
  py_eqb code (fst p)
  && match match_value with
     | None => true
     | Some mv => py_eqb (snd p) mv
     end.

(** The first subfield that passes [test], taken out of a flat list: its
    value and the list that remains. *)
Fixpoint remove_first (test : V * V -> bool) (l : list V) : option (V * list V) :=
  match l with
  | c :: v :: t =>
      if test (c, v) then Some (v, t)
      else match remove_first test t with
           | Some (x, t') => Some (x, c :: v :: t')
           | None => None
           end
  | _ => None
  end.

(** What the loop of [delete_all_subfields] leaves of a flat list: the
    subfields that carry [code] go, up to and with the first of them whose
    value is false in a boolean context; whatever follows that one stays. *)
Fixpoint drop_until_falsy (code : V) (l : list V) : list V :=
  match l with
  | c :: v :: t =>
      if py_eqb code c then
        if py_truthy v then drop_until_falsy code t else t
      else c :: v :: drop_until_falsy code t
  | _ => l
  end.

(** Every subfield that carries [code] has a value that is true in a
    boolean context. *)
Definition code_values_truthy (code : V) (l : list V) : Prop :=
  forall p, In p (pairs l) -> has_code code p = true -> py_truthy (snd p) = true.

(** The field has a subfield list, of even length. *)
Definition even_subfields (f : Field V) : Prop :=
  exists l, subfields f = Some l /\ even_length l.

(** The object as [__init__] has it when only the tag is assigned. *)
Definition tag_only (t : text) : Field V :=
  mkField t None None None None None None.

End Reference.

(** The classes of tags as the specification words them. *)
Module TagSpec.

Definition one_of (cs : list ascii) (c : ascii) : bool :=
  existsb (Ascii.eqb c) cs.

(** The ten decimal digits. *)
Definition decimal_digits : list ascii :=
  ["0"; "1"; "2"; "3"; "4"; "5"; "6"; "7"; "8"; "9"]%char.

(** The digits outside ASCII among the code points at hand: the superscripts
    two, three and one (U+00B2, U+00B3, U+00B9). *)
Definition superscript_digits : list ascii :=
  [ascii_of_nat 178; ascii_of_nat 179; ascii_of_nat 185].

(** A purely numeric tag: decimal digits only, and at least one. *)
Definition purely_numeric (s : string) : bool :=
  match s with
  | EmptyString => false
  | _ => all_chars (one_of decimal_digits) s
  end.

(** A tag of digit characters, the superscripts among them. *)
Definition digit_characters (s : string) : bool :=
  match s with
  | EmptyString => false
  | _ => all_chars (one_of (decimal_digits ++ superscript_digits)) s
  end.

(** Every character is an ASCII character. *)
Definition ascii_only (s : string) : bool :=
  all_chars (fun c => code_point c <? 128) s.

(** The tags ["000"] to ["009"]. *)
Definition control_tags : list text :=
  ["000"; "001"; "002"; "003"; "004"; "005"; "006"; "007"; "008"; "009"].

End TagSpec.

(** The MARCMaker rendering as the specification words it. *)
Module MarcMaker.

Fixpoint concat (l : list string) : string :=
  match l with
  | [] => EmptyString
  | x :: t => (x ++ concat t)%string
  end.

(** Every space character replaced by a backslash. *)
Fixpoint escape_spaces (s : string) : string :=
  match s with
  | EmptyString => EmptyString
  | String c s' =>
      String (if Ascii.eqb c " "%char then "\"%char else c) (escape_spaces s')
  end.

(** An indicator is rendered literally, except that a space or a backslash
    is rendered as one backslash. *)
Definition render_indicator (i : text) : string :=
  if String.eqb i " " then "\"
  else if String.eqb i "\" then "\"
  else i.

Definition render_subfield (p : text * text) : string :=
  ("$" ++ fst p ++ snd p)%string.

Definition render_control (tag0 data0 : text) : string :=
  ("=" ++ tag0 ++ "  " ++ escape_spaces data0)%string.

Definition render_data (tag0 : text) (inds : list text) (l : list text) : string :=
  ("=" ++ tag0 ++ "  " ++ concat (map render_indicator inds)
       ++ concat (map render_subfield (pairs l)))%string.

End MarcMaker.

(** The binary form as the specification words it. *)
Module MarcBinary.

Definition control_bytes (data0 terminator : bytes) : bytes :=
  data0 ++ terminator.

Definition data_bytes (ind1 ind2 delim terminator : bytes) (l : list bytes) : bytes :=
  ind1 ++ ind2
  ++ List.concat (map (fun p : bytes * bytes => delim ++ fst p ++ snd p) (pairs l))
  ++ terminator.

End MarcBinary.

(** ** Fields used as examples *)

Module Examples.

Definition data_field (sf : list text) : Field text :=
  mkField "245" None (Some ["0"; "1"]) (Some "0") (Some "1") (Some sf) None.

(** Two subfields with code [a], the first with an empty value. *)
Definition f_empty_value : Field text := data_field ["a"; ""; "a"; "x"].

(** Two subfields with code [a], their values in descending order. *)
Definition f_same_code : Field text := data_field ["a"; "2"; "a"; "1"].

Definition f_three : Field text := data_field ["a"; "1"; "b"; "2"; "a"; "3"].

Definition f_title : Field text := data_field ["a"; "Foo"; "b"; "Bar"].

Definition f_control : Field text :=
  mkField "001" (Some "fol 05731351") None None None None None.

(** The default key of [sort]: [lambda code: code]. *)
Definition default_key (code : text * text) : text * text := code.

(** The separators of the binary form: the characters U+001F and U+001E. *)
Definition SUBFIELD_INDICATOR : text := String (ascii_of_nat 31) EmptyString.
Definition END_OF_FIELD : text := String (ascii_of_nat 30) EmptyString.

(** A raw control field. *)
Definition raw_control_field : RawField :=
  mkField "001" (Some [x66; x6f; x6c]) None None None None None.

Definition raw_data_field : RawField :=
  mkField "245" None (Some ["0"; "1"]) (Some "0") (Some "1")
          (Some [[x61]; [x58]]) None.

(** A tag that ends with the superscript two, U+00B2. *)
Definition tag_superscript : text :=
  String "0" (String "0" (String (ascii_of_nat 178) EmptyString)).

End Examples.

(** ** The other methods of [Field] *)

(** The right-hand side of [==]: a field, or an object of another class. *)
Inductive py_object (V : Type) : Type :=
| ObjField (f : Field V)
| ObjOther.
Arguments ObjField {V} f.
Arguments ObjOther {V}.

(** A [dict] with its insertion order: a new key goes to the end, an
    assignment to a key that exists keeps its place. *)
Module PyDict.
Section Defs.
Context {K A : Type}.
Variable eqb : K -> K -> bool.

Fixpoint get (d : list (K * A)) (k : K) : option A :=
  match d with
  | [] => None
  | (k', a) :: d' => if eqb k' k then Some a else get d' k
  end.

Definition contains (d : list (K * A)) (k : K) : bool :=
  match get d k with Some _ => true | None => false end.

Fixpoint set (d : list (K * A)) (k : K) (a : A) : list (K * A) :=
  match d with
  | [] => [(k, a)]
  | (k', a') :: d' => if eqb k' k then (k', a) :: d' else (k', a') :: set d' k a
  end.

End Defs.
End PyDict.

Section MoreMethods.
Context {V : Type} `{PyValue V}.

(** [a == b] on lists: the same length and equal elements, in order. *)
Fixpoint list_eqb {A} (eqb : A -> A -> bool) (a b : list A) : bool :=
  match a, b with
  | [], [] => true
  | x :: a', y :: b' => eqb x y && list_eqb eqb a' b'
  | _, _ => false
  end.

(** [other.name], read without a state of its own. *)
Definition attr_of {A} (name : string) (o : option A) : result A :=
  match o with
  | Some a => Ok a
  | None => Raise (AttributeError name)
  end.

(** [Field.__eq__]; [and] reads the subfields only when the indicators are
    equal. *)
Definition __eq__ (other : py_object V) : M (Field V) bool :=
  self <- get;;
  match other with
  | ObjOther => ret false
  | ObjField o =>
      if negb (String.eqb (tag o) (tag self)) then ret false
      else if is_control_field self then
        od <- lift (attr_of "data" (data o));;
        sd <- attr "data" (@data V);;
        ret (py_eqb od sd)
      else
        oi <- lift (attr_of "indicators" (indicators o));;
        si <- attr "indicators" (@indicators V);;
        if list_eqb String.eqb oi si then
          os <- lift (attr_of "subfields" (subfields o));;
          ss <- attr "subfields" (@subfields V);;
          ret (list_eqb py_eqb os ss)
        else ret false
  end.

(** [Field.subfields_as_dict] *)
Definition subfields_as_dict : M (Field V) (list (V * list V)) :=
  for_self (fun (subfields_dict : list (V * list V)) (cv : V * V) =>
              let (code, val) := cv in
              let d1 := if negb (PyDict.contains py_eqb subfields_dict code)
                        then PyDict.set py_eqb subfields_dict code []
                        else subfields_dict in
              match PyDict.get py_eqb d1 code with
              | Some vals => ret (PyDict.set py_eqb d1 code (vals ++ [val]))
              | None => raise (KeyError "code")
              end) [].

(** [Field.is_subject_field]: [self.tag.startswith('6')]. *)
Definition is_subject_field (self : Field V) : bool :=
  String.prefix "6" (tag self).

End MoreMethods.

(** [Field.value], on a field of texts. *)
Definition value : M (Field text) text :=
  self <- get;;
  if is_control_field self then attr "data" (@data text)
  else
    value_list <- for_self (fun (value_list : list text) (subfield : text * text) =>
                              ret (value_list ++ [strip (snd subfield)])) [];;
    ret (String.concat " " value_list).

(** [Field.format_field], on a field of texts. *)
Definition format_field : M (Field text) text :=
  self <- get;;
  if is_control_field self then attr "data" (@data text)
  else
    fielddata <-
      for_self (fun (fielddata : text) (subfield : text * text) =>
                  if String.eqb (fst subfield) "6" then ret fielddata
                  else
                    self' <- get;;
                    if negb (is_subject_field self') then
                      ret (fielddata ++ " " ++ snd subfield)%string
                    else if negb (existsb (String.eqb (fst subfield))
                                          ["v"; "x"; "y"; "z"]) then
                      ret (fielddata ++ " " ++ snd subfield)%string
                    else ret (fielddata ++ " -- " ++ snd subfield)%string)
               "";;
    ret (strip fielddata).

(** ** More functions the statements are written with *)

Section MoreReference.
Context {V : Type} `{PyValue V}.

(** The values stored under [code], in the order of the field. *)
Definition values_of (code : V) (l : list V) : list V :=
  map snd (filter (has_code code) (pairs l)).

(** A subfield with the code [from_code] rewritten to [to_code]. *)
Definition recode_pair (from_code to_code : V) (p : V * V) : V * V :=
  (if py_eqb (fst p) from_code then to_code else fst p, snd p).

(** The subfields of a flat list with the code [from_code] rewritten to
    [to_code]. *)
Definition recode (from_code to_code : V) (l : list V) : list (V * V) :=
  map (recode_pair from_code to_code) (pairs l).

(** The field was built as a data field: it has indicators and a subfield
    list of even length. *)
Definition data_field_ok (f : Field V) : Prop :=
  is_control_field f = false
  /\ (exists inds, indicators f = Some inds)
  /\ even_subfields f.

(** The field was built as a control field: it has data. *)
Definition control_field_ok (f : Field V) : Prop :=
  is_control_field f = true /\ exists d, data f = Some d.

End MoreReference.

(** [s'] has the tag, the data and the indicators of [s]: the two can
    differ in the subfield list and in the cursor only. *)
Definition same_frame {V : Type} (s s' : Field V) : Prop :=
  tag s' = tag s /\ data s' = data s /\ indicators s' = indicators s
  /\ indicator1 s' = indicator1 s /\ indicator2 s' = indicator2 s.

(** A method that keeps the frame, whatever state it runs in and whether it
    returns or raises. *)
Definition keeps_frame {V A : Type} (m : M (Field V) A) : Prop :=
  forall s, same_frame s (snd (m s)).

(** A character that [int()] does not skip as white space. *)
Definition not_space (c : ascii) : bool := negb (char_isspace_int c).

(** What one subfield adds to the text that [format_field] builds, on a
    subject field ([subject]) or on another one. *)
Definition format_step (subject : bool) (fielddata : text) (subfield : text * text)
    : text :=
  if String.eqb (fst subfield) "6" then fielddata
  else if subject && existsb (String.eqb (fst subfield)) ["v"; "x"; "y"; "z"]
       then (fielddata ++ " -- " ++ snd subfield)%string
       else (fielddata ++ " " ++ snd subfield)%string.

(** What one subfield adds to the dictionary of [subfields_as_dict]. *)
Definition group_add {V : Type} `{PyValue V} (d : list (V * list V)) (cv : V * V)
    : list (V * list V) :=
  PyDict.set py_eqb d (fst cv)
             (match PyDict.get py_eqb d (fst cv) with
              | Some vals => vals ++ [snd cv]
              | None => [snd cv]
              end).

(** * Properties *)

Unset Implicit Arguments.

(** ** Lists and indices *)

Section ListFacts.
Context {A : Type}.

Lemma pair_induction (P : list A -> Prop) :
  P [] -> (forall x, P [x]) -> (forall c v t, P t -> P (c :: v :: t)) ->
  forall l, P l.
Proof.
  intros H0 H1 H2 l.
  assert (HH : P l /\ forall x, P (x :: l)).
  { induction l as [|a l [IHa IHb]]; split; auto. }
  apply HH.
Qed.

Lemma even_length_cons2 (c v : A) (t : list A) :
  even_length (c :: v :: t) <-> even_length t.
Proof. unfold even_length. simpl. tauto. Qed.

Lemma even_length_app (l1 l2 : list A) :
  even_length l1 -> even_length l2 -> even_length (l1 ++ l2).
Proof.
  unfold even_length. intros E1 E2.
  rewrite length_app, Nat.even_add, E1, E2. reflexivity.
Qed.

Lemma even_length_single (x : A) : ~ even_length [x].
Proof. unfold even_length. simpl. discriminate. Qed.

Lemma even_length_mod (l : list A) : even_length l -> length l mod 2 = 0.
Proof.
  unfold even_length. intros E. apply Nat.even_spec in E.
  destruct E as [k Hk]. rewrite Hk, Nat.mul_comm. apply Nat.Div0.mod_mul.
Qed.

Lemma norm_index_nat (l : list A) (k : nat) :
  k < length l -> norm_index l (Z.of_nat k) = Some k.
Proof.
  intros Hk. unfold norm_index.
  destruct (Z.ltb_spec (Z.of_nat k) 0); [lia|].
  destruct (Z.leb_spec 0 (Z.of_nat k)); [|lia].
  destruct (Z.ltb_spec (Z.of_nat k) (Z.of_nat (length l))); [|lia].
  simpl. rewrite Nat2Z.id. reflexivity.
Qed.

Lemma getitem_nat (l : list A) (k : nat) (x : A) :
  nth_error l k = Some x -> getitem l (Z.of_nat k) = Ok x.
Proof.
  intros Hx. unfold getitem.
  rewrite norm_index_nat, Hx; [reflexivity|].
  apply nth_error_Some. congruence.
Qed.

Lemma nth_error_mid (pre post : list A) (x : A) :
  nth_error (pre ++ x :: post) (length pre) = Some x.
Proof. rewrite nth_error_app2, Nat.sub_diag by lia. reflexivity. Qed.

Lemma getitem_mid (pre post : list A) (x : A) :
  getitem (pre ++ x :: post) (Z.of_nat (length pre)) = Ok x.
Proof. apply getitem_nat, nth_error_mid. Qed.

Lemma getitem_mid1 (pre post : list A) (c x : A) :
  getitem (pre ++ c :: x :: post) (Z.of_nat (length pre) + 1) = Ok x.
Proof.
  replace (Z.of_nat (length pre) + 1)%Z with (Z.of_nat (length (pre ++ [c]))).
  - replace (pre ++ c :: x :: post) with ((pre ++ [c]) ++ x :: post).
    + apply getitem_mid.
    + rewrite <- app_assoc. reflexivity.
  - rewrite length_app. simpl. lia.
Qed.

Lemma pop_mid (pre post : list A) (x : A) :
  pop (pre ++ x :: post) (Z.of_nat (length pre)) = Ok (x, pre ++ post).
Proof.
  unfold pop. rewrite norm_index_nat by (rewrite length_app; simpl; lia).
  rewrite nth_error_mid.
  rewrite firstn_app, Nat.sub_diag, firstn_all, firstn_O, app_nil_r.
  rewrite skipn_app, skipn_all2 by lia.
  replace (S (length pre) - length pre) with 1 by lia. reflexivity.
Qed.

Lemma update_mid (pre post : list A) (x y : A) :
  update (pre ++ x :: post) (length pre) y = pre ++ y :: post.
Proof. induction pre as [|a pre IH]; simpl; [reflexivity|]. rewrite IH. reflexivity. Qed.

Lemma setitem_mid1 (pre post : list A) (c x y : A) :
  setitem (pre ++ c :: x :: post) (Z.of_nat (length pre) + 1) y
  = Ok (pre ++ c :: y :: post).
Proof.
  replace (Z.of_nat (length pre) + 1)%Z with (Z.of_nat (length (pre ++ [c])))
    by (rewrite length_app; simpl; lia).
  unfold setitem. rewrite norm_index_nat.
  - replace (pre ++ c :: x :: post) with ((pre ++ [c]) ++ x :: post)
      by (rewrite <- app_assoc; reflexivity).
    rewrite update_mid, <- app_assoc. reflexivity.
  - rewrite !length_app. simpl. lia.
Qed.

Lemma zip_slices (l : list A) : zip (slice_even l) (slice_odd l) = pairs l.
Proof.
  induction l as [| x | c v t IH] using pair_induction; try reflexivity.
  unfold zip in *. simpl. f_equal.
  destruct t as [|a t]; [reflexivity|]. exact IH.
Qed.

Lemma flatten_pairs (l : list A) : even_length l -> flatten (pairs l) = l.
Proof.
  induction l as [| x | c v t IH] using pair_induction; intros E.
  - reflexivity.
  - destruct (even_length_single _ E).
  - apply even_length_cons2 in E. simpl. rewrite (IH E). reflexivity.
Qed.

Lemma length_flatten (ps : list (A * A)) : length (flatten ps) = 2 * length ps.
Proof.
  induction ps as [|p ps IH]; [reflexivity|].
  change (flatten (p :: ps)) with (fst p :: snd p :: flatten ps).
  simpl length. rewrite IH. lia.
Qed.

Lemma even_length_flatten (ps : list (A * A)) : even_length (flatten ps).
Proof.
  unfold even_length. rewrite length_flatten.
  apply Nat.even_spec. exists (length ps). reflexivity.
Qed.

Lemma length_pairs (l : list A) : even_length l -> 2 * length (pairs l) = length l.
Proof.
  intros E. rewrite <- length_flatten, flatten_pairs by assumption. reflexivity.
Qed.

Lemma pairs_app (l1 l2 : list A) :
  even_length l1 -> pairs (l1 ++ l2) = pairs l1 ++ pairs l2.
Proof.
  induction l1 as [| x | c v t IH] using pair_induction; intros E.
  - reflexivity.
  - destruct (even_length_single _ E).
  - apply even_length_cons2 in E. simpl. rewrite (IH E). reflexivity.
Qed.

End ListFacts.

(** ** Iteration *)

(** Running a method on a state whose attributes are known: the reads of
    the attributes are replaced by their values, one after the other. *)
Ltac read_attrs :=
  cbv beta iota;
  repeat match goal with
         | Hattr : ?proj ?self = _ |- context [?proj ?self] =>
             rewrite Hattr; cbv beta iota
         end.

Section IterationFacts.
Context {V : Type} `{PyValue V}.

Lemma set_pos_same (self : Field V) (p : nat) :
  __pos self = Some p -> set_pos p self = self.
Proof. destruct self; simpl; intros ->; reflexivity. Qed.

Lemma set_subfields_same (self : Field V) (l : list V) :
  subfields self = Some l -> set_subfields l self = self.
Proof. destruct self; simpl; intros ->; reflexivity. Qed.

Lemma next_control (self : Field V) :
  subfields self = None -> __next__ self = (Raise StopIteration, self).
Proof. intros Hs. unfold __next__. rewrite Hs. reflexivity. Qed.

Lemma next_pair (self : Field V) (pre t : list V) (c v : V) :
  subfields self = Some (pre ++ c :: v :: t) ->
  __pos self = Some (length pre) ->
  __next__ self = (Ok (c, v), set_pos (length pre + 2) self).
Proof.
  intros Hs Hp. unfold __next__, attr, bind, lift, ret. read_attrs.
  destruct (Nat.ltb_spec (length pre) (length (pre ++ c :: v :: t))) as [_|Hge].
  - rewrite getitem_mid, getitem_mid1. reflexivity.
  - rewrite length_app in Hge. simpl in Hge. lia.
Qed.

Lemma next_end (self : Field V) (l : list V) :
  subfields self = Some l -> __pos self = Some (length l) ->
  __next__ self = (Raise StopIteration, self).
Proof.
  intros Hs Hp. unfold __next__, attr, bind, raise. read_attrs.
  rewrite Nat.ltb_irrefl. reflexivity.
Qed.

Section PureBody.
Context {A : Type}.
Variable g : A -> V * V -> A.
Variable body : A -> V * V -> M (Field V) A.
Hypothesis body_pure : forall acc p s, body acc p s = (Ok (g acc p), s).

Lemma for_next_pure (rest : list V) :
  forall (pre : list V) (acc : A) (fuel : nat) (self : Field V),
    even_length rest -> length rest < fuel ->
    subfields self = Some (pre ++ rest) ->
    __pos self = Some (length pre) ->
    for_next fuel body acc self
    = (Ok (fold_left g (pairs rest) acc), set_pos (length (pre ++ rest)) self).
Proof.
  induction rest as [| x | c v t IH] using pair_induction;
    intros pre acc fuel self E Hfuel Hs Hp.
  - rewrite app_nil_r in *. destruct fuel as [|fuel]; [simpl in Hfuel; lia|].
    simpl. rewrite (next_end _ _ Hs Hp), (set_pos_same _ _ Hp). reflexivity.
  - destruct (even_length_single _ E).
  - apply even_length_cons2 in E.
    destruct fuel as [|fuel]; [simpl in Hfuel; lia|].
    simpl for_next. rewrite (next_pair _ _ _ _ _ Hs Hp).
    unfold bind. rewrite body_pure.
    assert (Happ : pre ++ c :: v :: t = (pre ++ [c; v]) ++ t)
      by (rewrite <- app_assoc; reflexivity).
    rewrite (IH (pre ++ [c; v]) (g acc (c, v)) fuel (set_pos (length pre + 2) self)).
    + simpl. rewrite <- Happ. destruct self; reflexivity.
    + exact E.
    + simpl in Hfuel. lia.
    + rewrite <- Happ. destruct self; exact Hs.
    + rewrite length_app. destruct self; reflexivity.
Qed.

Lemma for_self_pure (l : list V) (acc : A) (self : Field V) :
  subfields self = Some l -> even_length l ->
  for_self body acc self
  = (Ok (fold_left g (pairs l) acc), set_pos (length l) self).
Proof.
  intros Hs E. unfold for_self, bind, __iter__, get.
  rewrite (for_next_pure l [] acc (iter_fuel (set_pos 0 self)) (set_pos 0 self)).
  - destruct self; reflexivity.
  - exact E.
  - unfold iter_fuel. destruct self; simpl in *; rewrite Hs. lia.
  - destruct self; exact Hs.
  - destruct self; reflexivity.
Qed.

Lemma for_self_control (acc : A) (self : Field V) :
  subfields self = None ->
  for_self body acc self = (Ok acc, set_pos 0 self).
Proof.
  intros Hs. unfold for_self, bind, __iter__, get, iter_fuel.
  replace (subfields (set_pos 0 self)) with (@None (list V))
    by (destruct self; simpl in *; congruence).
  simpl. rewrite next_control by (destruct self; simpl in *; congruence).
  reflexivity.
Qed.

End PureBody.

(** An iteration over a list of odd length raises [IndexError] when it
    reaches the last element, whatever the loop body. *)
Lemma for_next_odd {A} (body : A -> V * V -> M (Field V) A) (x : V)
    (pre : list V) (acc : A) (fuel : nat) (self : Field V) :
  subfields self = Some (pre ++ [x]) ->
  __pos self = Some (length pre) ->
  for_next (S fuel) body acc self = (Raise IndexError, self).
Proof.
  intros Hs Hp. simpl. unfold __next__, attr, bind, lift. read_attrs.
  destruct (Nat.ltb_spec (length pre) (length (pre ++ [x]))) as [_|Hge].
  - rewrite getitem_mid.
    unfold getitem, norm_index. rewrite length_app. simpl.
    destruct (Z.ltb_spec (Z.of_nat (length pre) + 1) 0); [lia|].
    destruct (Z.leb_spec 0 (Z.of_nat (length pre) + 1)); [|lia].
    destruct (Z.ltb_spec (Z.of_nat (length pre) + 1) (Z.of_nat (length pre + 1))); [lia|].
    reflexivity.
  - rewrite length_app in Hge. simpl in Hge. lia.
Qed.

End IterationFacts.

(** ** Queries *)

Section QueryFacts.
Context {V : Type} `{PyValue V}.

Lemma fold_left_select {A B} (test : A -> bool) (proj : A -> B) (ps : list A) :
  forall acc,
    fold_left (fun acc p => if test p then acc ++ [proj p] else acc) ps acc
    = acc ++ map proj (filter test ps).
Proof.
  induction ps as [|p ps IH]; intros acc; simpl.
  - rewrite app_nil_r. reflexivity.
  - rewrite IH. destruct (test p); simpl; [rewrite <- app_assoc|]; reflexivity.
Qed.

Lemma requested_single (code : V) (p : V * V) :
  requested [code] p = has_code code p.
Proof. unfold requested, has_code. simpl. rewrite !orb_false_r. reflexivity. Qed.

Lemma iterate_spec (self : Field V) (l : list V) :
  subfields self = Some l -> even_length l ->
  iterate self = (Ok (pairs l), set_pos (length l) self).
Proof.
  intros Hs E. unfold iterate.
  rewrite (for_self_pure (fun acc p => acc ++ [p]) (fun acc p => ret (acc ++ [p]))
             (fun _ _ _ => eq_refl) l [] self Hs E).
  rewrite (fold_left_select (fun _ => true) (fun p => p)).
  simpl. rewrite map_id. f_equal. f_equal.
  induction (pairs l) as [|p ps IH]; simpl; congruence.
Qed.

Lemma get_subfields_body_pure (codes : list V) (acc : list V) (p : V * V)
    (s : Field V) :
  (if existsb (py_eqb (fst p)) codes || match codes with [] => true | _ => false end
   then ret (acc ++ [snd p]) else ret acc) s
  = (Ok (if requested codes p then acc ++ [snd p] else acc), s).
Proof. unfold requested. destruct (_ || _); reflexivity. Qed.

Lemma count_body_pure (code : V) (acc : list (V * V)) (p : V * V) (s : Field V) :
  (if py_eqb (fst p) code then ret (acc ++ [p]) else ret acc) s
  = (Ok (if has_code code p then acc ++ [p] else acc), s).
Proof. unfold has_code. destruct (py_eqb _ _); reflexivity. Qed.

Lemma get_subfields_spec (codes : list V) (self : Field V) (l : list V) :
  subfields self = Some l -> even_length l ->
  get_subfields codes self
  = (Ok (map snd (filter (requested codes) (pairs l))), set_pos (length l) self).
Proof.
  intros Hs E. unfold get_subfields.
  rewrite (for_self_pure _
            (fun values subfield =>
              if existsb (py_eqb (fst subfield)) codes
                 || match codes with [] => true | _ => false end
              then ret (values ++ [snd subfield])
              else ret values)
            (get_subfields_body_pure codes) l [] self Hs E).
  rewrite fold_left_select. reflexivity.
Qed.

Lemma count_spec (code : V) (self : Field V) (l : list V) :
  subfields self = Some l -> even_length l ->
  count code self = (Ok (count_code code l), set_pos (length l) self).
Proof.
  intros Hs E. unfold count, bind.
  rewrite (for_self_pure _
            (fun acc subf =>
              if py_eqb (fst subf) code then ret (acc ++ [subf]) else ret acc)
            (count_body_pure code) l [] self Hs E).
  rewrite (fold_left_select (has_code code) (fun p => p)).
  simpl. rewrite map_id. reflexivity.
Qed.

Lemma length_requested_single (code : V) (l : list V) :
  length (map snd (filter (requested [code]) (pairs l))) = count_code code l.
Proof.
  rewrite length_map. unfold count_code. f_equal.
  apply filter_ext. intros p. apply requested_single.
Qed.

Lemma contains_spec (code : V) (self : Field V) (l : list V) :
  subfields self = Some l -> even_length l ->
  __contains__ code self = (Ok (0 <? count_code code l), set_pos (length l) self).
Proof.
  intros Hs E. unfold __contains__, bind.
  rewrite (get_subfields_spec _ _ _ Hs E), length_requested_single. reflexivity.
Qed.

(** On a control field, which has no subfield list, the loop over [self]
    ends at once. *)
Lemma get_subfields_control (codes : list V) (self : Field V) :
  subfields self = None -> get_subfields codes self = (Ok [], set_pos 0 self).
Proof.
  intros Hs. unfold get_subfields.
  apply (for_self_control _ [] _ Hs).
Qed.

Lemma iterate_control (self : Field V) :
  subfields self = None -> iterate self = (Ok [], set_pos 0 self).
Proof.
  intros Hs. unfold iterate.
  apply (for_self_control _ [] _ Hs).
Qed.

Lemma count_control (code : V) (self : Field V) :
  subfields self = None -> count code self = (Ok 0, set_pos 0 self).
Proof.
  intros Hs. unfold count, bind.
  rewrite (for_self_control _ [] _ Hs). reflexivity.
Qed.

Lemma init_control (t : tag_arg) (inds : option (list text))
    (subs : option (list V)) (d : V) (f : Field V) :
  __init__ t inds subs d = Ok f -> is_control_field f = true ->
  exists tg, normalize_tag t = Ok tg
             /\ f = mkField tg (Some d) None None None None None.
Proof.
  unfold __init__. intros Hinit Hc.
  destruct (normalize_tag t) as [tg|e]; [|discriminate Hinit].
  exists tg. split; [reflexivity|]. cbn [bind_result] in Hinit.
  destruct (is_control_field (mkField tg None None None None None None))
    eqn:Hctl.
  - inversion Hinit. reflexivity.
  - destruct (match inds with Some l => l | None => [] end) as [|i1 [|i2 [|i3 r]]];
      try discriminate.
    inversion Hinit; subst f.
    unfold is_control_field in *. simpl in *. congruence.
Qed.

End QueryFacts.

(** ** Deletion *)

Section DeleteFacts.
Context {V : Type} `{PyValue V}.

Lemma py_eqb_sym (a b : V) : py_eqb a b = py_eqb b a.
Proof.
  destruct (py_eqb a b) eqn:Hab, (py_eqb b a) eqn:Hba; try reflexivity.
  - apply py_eqb_eq in Hab. subst b.
    assert (Haa : py_eqb a a = true) by (apply py_eqb_eq; reflexivity). congruence.
  - apply py_eqb_eq in Hba. subst b.
    assert (Haa : py_eqb a a = true) by (apply py_eqb_eq; reflexivity). congruence.
Qed.

Lemma py_eqb_refl (a : V) : py_eqb a a = true.
Proof. apply py_eqb_eq. reflexivity. Qed.

Lemma odd_index_mod (n : nat) : Nat.even n = true -> (S n mod 2 =? 0) = false.
Proof.
  intros E. apply Nat.even_spec in E. destruct E as [k ->].
  replace (S (2 * k)) with (1 + k * 2) by lia.
  rewrite Nat.Div0.mod_add. reflexivity.
Qed.

Lemma even_index_mod (n : nat) : Nat.even n = true -> (n mod 2 =? 0) = true.
Proof.
  intros E. apply Nat.even_spec in E. destruct E as [k ->].
  rewrite Nat.mul_comm, Nat.Div0.mod_mul. reflexivity.
Qed.

Lemma delete_scan_cons (code : V) (mv : option V) (i : nat) (c : V) (rest : list V) :
  delete_scan code mv i (c :: rest)
  = if (i mod 2 =? 0) && py_eqb code c then
      hit <- match mv with
             | None => ret true
             | Some mv0 =>
                 sf <- attr "subfields" (@subfields V);;
                 x <- lift (getitem sf (Z.of_nat i + 1));;
                 ret (py_eqb x mv0)
             end;;
      if hit : bool then
        pop_subfield (Z.of_nat i);;; v <- pop_subfield (Z.of_nat i);; ret (Some v)
      else delete_scan code mv (S i) rest
    else delete_scan code mv (S i) rest.
Proof. reflexivity. Qed.

Lemma delete_scan_odd (code : V) (mv : option V) (i : nat) (v : V) (rest : list V) :
  Nat.even i = true ->
  delete_scan code mv (S i) (v :: rest) = delete_scan code mv (S (S i)) rest.
Proof.
  intros E. rewrite delete_scan_cons, (odd_index_mod i E). reflexivity.
Qed.

(** A subfield that does not pass the test is stepped over: its code at an
    even index, its value at an odd one. *)
Lemma delete_scan_skip (code : V) (mv : option V) (pre t : list V) (c v : V)
    (self : Field V) :
  even_length pre ->
  subfields self = Some (pre ++ c :: v :: t) ->
  delete_test code mv (c, v) = false ->
  delete_scan code mv (length pre) (c :: v :: t) self
  = delete_scan code mv (S (S (length pre))) t self.
Proof.
  intros E Hs Htest. unfold delete_test in Htest. simpl in Htest.
  rewrite delete_scan_cons, (even_index_mod (length pre) E).
  rewrite delete_scan_odd by exact E.
  cbn [andb]. destruct (py_eqb code c) eqn:Hc; [|reflexivity].
  destruct mv as [mv|]; [|discriminate].
  unfold bind, attr, lift, ret. read_attrs.
  rewrite getitem_mid1. simpl in Htest. rewrite Htest. reflexivity.
Qed.

Lemma delete_scan_hit (code : V) (mv : option V) (pre t : list V) (c v : V)
    (self : Field V) :
  even_length pre ->
  subfields self = Some (pre ++ c :: v :: t) ->
  delete_test code mv (c, v) = true ->
  delete_scan code mv (length pre) (c :: v :: t) self
  = (Ok (Some v), set_subfields (pre ++ t) self).
Proof.
  intros E Hs Htest. unfold delete_test in Htest. simpl in Htest.
  apply andb_true_iff in Htest. destruct Htest as [Hc Hv].
  rewrite delete_scan_cons, (even_index_mod (length pre) E), Hc. cbn [andb].
  assert (Hpops :
    (pop_subfield (Z.of_nat (length pre));;;
     v0 <- pop_subfield (Z.of_nat (length pre));; ret (Some v0)) self
    = (Ok (Some v), set_subfields (pre ++ t) self)).
  { unfold pop_subfield, bind, attr, lift, ret. read_attrs.
    rewrite pop_mid. cbv beta iota. simpl fst. simpl snd.
    replace (subfields (set_subfields (pre ++ v :: t) self))
      with (Some (pre ++ v :: t)) by reflexivity.
    cbv beta iota. rewrite pop_mid. reflexivity. }
  destruct mv as [mv|].
  - unfold bind at 1. unfold bind at 1. unfold attr at 1. rewrite Hs.
    unfold bind at 1. unfold lift at 1. rewrite getitem_mid1.
    unfold ret at 1. rewrite Hv. exact Hpops.
  - unfold bind at 1. unfold ret at 1. exact Hpops.
Qed.

Lemma delete_scan_spec (code : V) (mv : option V) (rest : list V) :
  forall (pre : list V) (self : Field V),
    even_length pre -> even_length rest ->
    subfields self = Some (pre ++ rest) ->
    delete_scan code mv (length pre) rest self
    = match remove_first (delete_test code mv) rest with
      | Some (v, rest') => (Ok (Some v), set_subfields (pre ++ rest') self)
      | None => (Ok None, self)
      end.
Proof.
  induction rest as [| x | c v t IH] using pair_induction; intros pre self Ep Er Hs.
  - reflexivity.
  - destruct (even_length_single _ Er).
  - apply even_length_cons2 in Er. simpl remove_first.
    destruct (delete_test code mv (c, v)) eqn:Htest.
    + apply delete_scan_hit; assumption.
    + rewrite delete_scan_skip by assumption.
      assert (Happ : pre ++ c :: v :: t = (pre ++ [c; v]) ++ t)
        by (rewrite <- app_assoc; reflexivity).
      replace (S (S (length pre))) with (length (pre ++ [c; v]))
        by (rewrite length_app; simpl; lia).
      rewrite IH.
      * destruct (remove_first (delete_test code mv) t) as [[x t']|]; [|reflexivity].
        rewrite <- app_assoc. reflexivity.
      * apply even_length_app; [exact Ep|reflexivity].
      * exact Er.
      * rewrite <- Happ. exact Hs.
Qed.

Lemma delete_subfield_spec (code : V) (mv : option V) (self : Field V) (l : list V) :
  subfields self = Some l -> even_length l ->
  delete_subfield code mv self
  = match remove_first (delete_test code mv) l with
    | Some (v, l') => (Ok (Some v), set_subfields l' self)
    | None => (Ok None, self)
    end.
Proof.
  intros Hs E. unfold delete_subfield, bind, attr. rewrite Hs.
  apply (delete_scan_spec code mv l [] self); [reflexivity|exact E|exact Hs].
Qed.

Lemma remove_first_length (test : V * V -> bool) (l : list V) :
  forall v l', remove_first test l = Some (v, l') -> length l = S (S (length l')).
Proof.
  induction l as [| x | c w t IH] using pair_induction; intros v l' Hr;
    try discriminate.
  simpl in Hr. destruct (test (c, w)).
  - inversion Hr; subst. reflexivity.
  - destruct (remove_first test t) as [[x t']|]; [|discriminate].
    inversion Hr; subst. simpl. rewrite (IH _ _ eq_refl). reflexivity.
Qed.

Lemma remove_first_even (test : V * V -> bool) (l l' : list V) (v : V) :
  remove_first test l = Some (v, l') -> even_length l -> even_length l'.
Proof.
  intros Hr E. apply remove_first_length in Hr.
  unfold even_length in *. rewrite Hr in E. exact E.
Qed.

(** The subfield taken out is the first that passes the test. *)
Lemma remove_first_split (test : V * V -> bool) (l : list V) :
  forall v l', remove_first test l = Some (v, l') ->
    exists pre c post,
      l = pre ++ c :: v :: post /\ l' = pre ++ post /\ even_length pre
      /\ test (c, v) = true
      /\ forall p, In p (pairs pre) -> test p = false.
Proof.
  induction l as [| x | c w t IH] using pair_induction; intros v l' Hr;
    try discriminate.
  simpl in Hr. destruct (test (c, w)) eqn:Ht.
  - inversion Hr; subst. exists [], c, l'.
    split; [reflexivity|]. split; [reflexivity|]. split; [reflexivity|].
    split; [exact Ht|]. intros p [].
  - destruct (remove_first test t) as [[x t']|] eqn:Hrt; [|discriminate].
    inversion Hr; subst.
    destruct (IH _ _ eq_refl) as (pre & c0 & post & -> & -> & Ep & Hc0 & Hpre).
    exists (c :: w :: pre), c0, post.
    split; [reflexivity|]. split; [reflexivity|].
    split; [apply even_length_cons2; exact Ep|].
    split; [exact Hc0|]. intros p [<-|Hin]; auto.
Qed.

Lemma remove_first_none (test : V * V -> bool) (l : list V) :
  remove_first test l = None -> forall p, In p (pairs l) -> test p = false.
Proof.
  induction l as [| x | c w t IH] using pair_induction; intros Hr p Hin;
    try (destruct Hin; fail).
  simpl in Hr, Hin. destruct (test (c, w)) eqn:Ht; [discriminate|].
  destruct (remove_first test t) as [[x t']|] eqn:Hrt; [discriminate|].
  destruct Hin as [<-|Hin]; auto.
Qed.

Lemma delete_test_none (code : V) (p : V * V) :
  delete_test code None p = py_eqb code (fst p).
Proof. unfold delete_test. apply andb_true_r. Qed.

Lemma drop_no_match (code : V) (l : list V) :
  remove_first (delete_test code None) l = None -> drop_until_falsy code l = l.
Proof.
  induction l as [| x | c w t IH] using pair_induction; intros Hr; try reflexivity.
  simpl in Hr. rewrite delete_test_none in Hr. simpl in Hr. simpl.
  destruct (py_eqb code c); [discriminate|].
  destruct (remove_first (delete_test code None) t) as [[x t']|]; [discriminate|].
  rewrite IH; reflexivity.
Qed.

Lemma drop_after_truthy (code : V) (l : list V) :
  forall v l', remove_first (delete_test code None) l = Some (v, l') ->
    py_truthy v = true -> drop_until_falsy code l = drop_until_falsy code l'.
Proof.
  induction l as [| x | c w t IH] using pair_induction; intros v l' Hr Hv;
    try discriminate.
  simpl in Hr. rewrite delete_test_none in Hr. simpl in Hr. simpl.
  destruct (py_eqb code c) eqn:Hc.
  - inversion Hr; subst. rewrite Hv. reflexivity.
  - destruct (remove_first (delete_test code None) t) as [[x t']|]; [|discriminate].
    inversion Hr; subst. simpl. rewrite Hc. rewrite (IH _ _ eq_refl Hv). reflexivity.
Qed.

Lemma drop_after_falsy (code : V) (l : list V) :
  forall v l', remove_first (delete_test code None) l = Some (v, l') ->
    py_truthy v = false -> drop_until_falsy code l = l'.
Proof.
  induction l as [| x | c w t IH] using pair_induction; intros v l' Hr Hv;
    try discriminate.
  simpl in Hr. rewrite delete_test_none in Hr. simpl in Hr. simpl.
  destruct (py_eqb code c) eqn:Hc.
  - inversion Hr; subst. rewrite Hv. reflexivity.
  - destruct (remove_first (delete_test code None) t) as [[x t']|]; [|discriminate].
    inversion Hr; subst. rewrite (IH _ _ eq_refl Hv). reflexivity.
Qed.

Lemma set_subfields_twice (l1 l2 : list V) (self : Field V) :
  set_subfields l2 (set_subfields l1 self) = set_subfields l2 self.
Proof. reflexivity. Qed.

(** The loop of [delete_all_subfields] ends within its fuel, and leaves what
    [drop_until_falsy] says. *)
Lemma delete_all_loop_spec (code : V) (n : nat) :
  forall (l : list V) (fuel : nat) (self : Field V),
    length l <= n -> even_length l -> length l < fuel ->
    subfields self = Some l ->
    delete_all_loop fuel code self
    = (Ok tt, set_subfields (drop_until_falsy code l) self).
Proof.
  induction n as [|n IH]; intros l fuel self Hn E Hfuel Hs;
    (destruct fuel as [|fuel]; [lia|]);
    simpl delete_all_loop; unfold bind at 1;
    rewrite (delete_subfield_spec code None self l Hs E);
    destruct (remove_first (delete_test code None) l) as [[v l']|] eqn:Hr.
  - apply remove_first_length in Hr. lia.
  - simpl. rewrite (drop_no_match code l Hr), (set_subfields_same self l Hs). reflexivity.
  - change (truthy_opt (Some v)) with (py_truthy v).
    destruct (py_truthy v) eqn:Hv.
    + rewrite (IH l' fuel (set_subfields l' self)).
      * rewrite set_subfields_twice, (drop_after_truthy code l v l' Hr Hv). reflexivity.
      * apply remove_first_length in Hr. lia.
      * exact (remove_first_even _ l l' v Hr E).
      * apply remove_first_length in Hr. lia.
      * reflexivity.
    + rewrite (drop_after_falsy code l v l' Hr Hv). reflexivity.
  - simpl. rewrite (drop_no_match code l Hr), (set_subfields_same self l Hs). reflexivity.
Qed.

Lemma delete_all_subfields_spec (code : V) (self : Field V) (l : list V) :
  subfields self = Some l -> even_length l ->
  delete_all_subfields code self
  = (Ok tt, set_subfields (drop_until_falsy code l) self).
Proof.
  intros Hs E. unfold delete_all_subfields, bind, get, iter_fuel. rewrite Hs.
  apply (delete_all_loop_spec code (length l)); auto.
Qed.

Lemma even_length_drop (code : V) (l : list V) :
  even_length l -> even_length (drop_until_falsy code l).
Proof.
  induction l as [| x | c w t IH] using pair_induction; intros E; auto.
  apply even_length_cons2 in E. simpl.
  destruct (py_eqb code c); [destruct (py_truthy w); auto|].
  apply even_length_cons2. auto.
Qed.

(** When every value under [code] is true in a boolean context, the loop
    removes every subfield with that code and nothing else. *)
Lemma drop_truthy_pairs (code : V) (l : list V) :
  even_length l -> code_values_truthy code l ->
  pairs (drop_until_falsy code l) = without_code code l.
Proof.
  unfold code_values_truthy, without_code.
  induction l as [| x | c w t IH] using pair_induction; intros E Ht.
  - reflexivity.
  - destruct (even_length_single _ E).
  - apply even_length_cons2 in E. simpl.
    unfold has_code at 1. simpl fst. rewrite (py_eqb_sym c code).
    destruct (py_eqb code c) eqn:Hc; simpl.
    + assert (Hw : py_truthy w = true).
      { apply (Ht (c, w)); [left; reflexivity|].
        unfold has_code. simpl. rewrite py_eqb_sym. exact Hc. }
      rewrite Hw. apply IH; [exact E|]. intros p Hin. apply Ht. right. exact Hin.
    + f_equal. apply IH; [exact E|]. intros p Hin. apply Ht. right. exact Hin.
Qed.

End DeleteFacts.

(** ** Item-style write *)

Section SetItemFacts.
Context {V : Type} `{PyValue V}.

Lemma add_subfield_spec (code value : V) (self : Field V) (l : list V) :
  subfields self = Some l ->
  add_subfield code value self = (Ok tt, set_subfields (l ++ [code; value]) self).
Proof.
  intros Hs. unfold add_subfield, bind, attr, append. read_attrs.
  replace (subfields (set_subfields (l ++ [code]) self))
    with (Some (l ++ [code])) by reflexivity.
  cbv beta iota. rewrite set_subfields_twice, <- app_assoc. reflexivity.
Qed.

Lemma setitem_loop_unfold (k : nat) (code value : V) :
  setitem_loop k code value
  = (sf <- attr "subfields" (@subfields V);;
     c <- lift (getitem sf (Z.of_nat k * 2 - 2));;
     if py_eqb c code then
       sf' <- attr "subfields" (@subfields V);;
       l <- lift (setitem sf' (Z.of_nat k * 2 - 1) value);;
       fun self => (Ok tt, set_subfields l self)
     else
       match k with
       | O => ret tt
       | S k' => setitem_loop k' code value
       end).
Proof. destruct k; reflexivity. Qed.

(** The loop counts down from the last subfield: it steps over the
    subfields of [post], none of which carries the code, and writes the
    value of the subfield it stops at. *)
Lemma setitem_loop_spec (code value c v0 : V) (pre post : list V) (self : Field V) :
  py_eqb c code = true ->
  (forall j x, nth_error post (2 * j) = Some x -> py_eqb x code = false) ->
  subfields self = Some (pre ++ c :: v0 :: post) ->
  forall d k,
    2 * k = length pre + 2 + 2 * d -> 2 * d <= length post ->
    setitem_loop k code value self
    = (Ok tt, set_subfields (pre ++ c :: value :: post) self).
Proof.
  intros Hc Hpost Hs. induction d as [|d IH]; intros k Hk Hd.
  - rewrite setitem_loop_unfold. unfold bind, attr, lift. read_attrs.
    replace (Z.of_nat k * 2 - 2)%Z with (Z.of_nat (length pre)) by lia.
    rewrite getitem_mid, Hc. read_attrs.
    replace (Z.of_nat k * 2 - 1)%Z with (Z.of_nat (length pre) + 1)%Z by lia.
    rewrite setitem_mid1. reflexivity.
  - destruct (nth_error post (2 * d)) as [x|] eqn:Hx.
    + rewrite setitem_loop_unfold. unfold bind at 1. unfold attr at 1. rewrite Hs.
      unfold bind at 1. unfold lift at 1.
      replace (Z.of_nat k * 2 - 2)%Z
        with (Z.of_nat (length (pre ++ [c; v0]) + 2 * d))
        by (rewrite length_app; simpl length; lia).
      rewrite (getitem_nat (pre ++ c :: v0 :: post) _ x).
      * rewrite (Hpost d x Hx).
        destruct k as [|k]; [lia|]. apply IH; lia.
      * replace (pre ++ c :: v0 :: post) with ((pre ++ [c; v0]) ++ post)
          by (rewrite <- app_assoc; reflexivity).
        rewrite nth_error_app2 by lia.
        replace (length (pre ++ [c; v0]) + 2 * d - length (pre ++ [c; v0]))
          with (2 * d) by lia.
        exact Hx.
    + apply nth_error_None in Hx. lia.
Qed.

Lemma pairs_nth_code (l : list V) :
  even_length l ->
  forall j x, nth_error l (2 * j) = Some x -> exists v, In (x, v) (pairs l).
Proof.
  induction l as [| y | c v t IH] using pair_induction; intros E j x Hx.
  - destruct j; discriminate.
  - destruct (even_length_single _ E).
  - apply even_length_cons2 in E. destruct j as [|j].
    + simpl in Hx. inversion Hx; subst. exists v. left. reflexivity.
    + replace (2 * S j) with (S (S (2 * j))) in Hx by lia. simpl in Hx.
      destruct (IH E j x Hx) as [v' Hin]. exists v'. right. exact Hin.
Qed.

Lemma count_code_cons (code c v : V) (t : list V) :
  count_code code (c :: v :: t)
  = (if py_eqb c code then 1 else 0) + count_code code t.
Proof.
  unfold count_code. simpl. unfold has_code at 1. simpl.
  destruct (py_eqb c code); reflexivity.
Qed.

Lemma count_code_app (code : V) (l1 l2 : list V) :
  even_length l1 ->
  count_code code (l1 ++ l2) = count_code code l1 + count_code code l2.
Proof.
  intros E. unfold count_code.
  rewrite pairs_app, filter_app, length_app by exact E. reflexivity.
Qed.

Lemma count_code_zero (code : V) (l : list V) :
  count_code code l = 0 ->
  forall p, In p (pairs l) -> has_code code p = false.
Proof.
  unfold count_code. intros Hz p Hin.
  destruct (has_code code p) eqn:Hp; [|reflexivity].
  assert (Hf : In p (filter (has_code code) (pairs l)))
    by (apply filter_In; split; assumption).
  destruct (filter (has_code code) (pairs l)); [destruct Hf|discriminate].
Qed.

(** A list with exactly one subfield under [code] splits around it. *)
Lemma count_one_split (code : V) (l : list V) :
  even_length l -> count_code code l = 1 ->
  exists pre v0 post,
    l = pre ++ code :: v0 :: post /\ even_length pre /\ even_length post
    /\ count_code code pre = 0 /\ count_code code post = 0.
Proof.
  induction l as [| y | c v t IH] using pair_induction; intros E H1.
  - discriminate.
  - destruct (even_length_single _ E).
  - apply even_length_cons2 in E. rewrite count_code_cons in H1.
    destruct (py_eqb c code) eqn:Hc.
    + apply py_eqb_eq in Hc. subst c.
      exists [], v, t. repeat (split; [reflexivity || assumption|]). lia.
    + destruct (IH E H1) as (pre & v0 & post & -> & Ep & Eq & Hp & Hq).
      exists (c :: v :: pre), v0, post.
      split; [reflexivity|]. split; [apply even_length_cons2; exact Ep|].
      split; [exact Eq|]. split; [|exact Hq].
      rewrite count_code_cons, Hc, Hp. reflexivity.
Qed.

Lemma half_double (n : nat) : Nat.even n = true -> 2 * (n / 2) = n.
Proof.
  intros E. apply Nat.even_spec in E. destruct E as [k ->].
  rewrite (Nat.mul_comm 2 k), Nat.div_mul by discriminate. lia.
Qed.

Lemma setitem_spec (show : V -> string) (code value : V) (self : Field V)
    (l : list V) :
  subfields self = Some l -> even_length l ->
  __setitem__ show code value self
  = if 1 <? count_code code l then
      (Raise (KeyError ("more than one code '" ++ show code ++ "'")%string),
       set_pos (length l) self)
    else if count_code code l =? 0 then
      (Ok tt, set_subfields (l ++ [code; value]) (set_pos (length l) self))
    else
      setitem_loop (length l / 2) code value (set_pos (length l) self).
Proof.
  intros Hs E. unfold __setitem__. unfold bind at 1.
  rewrite (get_subfields_spec _ _ _ Hs E), length_requested_single.
  destruct (1 <? count_code code l); [reflexivity|].
  destruct (count_code code l =? 0).
  - apply add_subfield_spec. destruct self; exact Hs.
  - unfold bind, attr.
    replace (subfields (set_pos (length l) self)) with (Some l)
      by (destruct self; simpl in *; congruence).
    reflexivity.
Qed.

Lemma setitem_one (show : V -> string) (code value v0 : V) (pre post : list V)
    (self : Field V) :
  subfields self = Some (pre ++ code :: v0 :: post) ->
  even_length pre -> even_length post ->
  count_code code pre = 0 -> count_code code post = 0 ->
  __setitem__ show code value self
  = (Ok tt,
     set_subfields (pre ++ code :: value :: post)
                   (set_pos (length (pre ++ code :: v0 :: post)) self)).
Proof.
  intros Hs Ep Eq Hp Hq.
  assert (E : even_length (pre ++ code :: v0 :: post)).
  { apply even_length_app; [exact Ep|]. apply even_length_cons2. exact Eq. }
  assert (Hcount : count_code code (pre ++ code :: v0 :: post) = 1).
  { rewrite count_code_app, count_code_cons, py_eqb_refl, Hp, Hq by exact Ep.
    reflexivity. }
  rewrite (setitem_spec show code value self _ Hs E), Hcount.
  simpl (1 <? 1). simpl (1 =? 0). cbv iota.
  apply (setitem_loop_spec code value code v0 pre post _ (py_eqb_refl code))
    with (d := length post / 2).
  - intros j x Hx. destruct (pairs_nth_code post Eq j x Hx) as [v Hin].
    apply (count_code_zero code post Hq (x, v) Hin).
  - destruct self; exact Hs.
  - rewrite !half_double; [|exact Eq|exact E].
    rewrite length_app. simpl. lia.
  - rewrite half_double by exact Eq. lia.
Qed.

End SetItemFacts.

(** ** Sorting *)

Section SortFacts.
Context {A K : Type} `{PyOrd K}.
Variable key : A -> K.

Lemma insert_Permutation (x : A) (l : list A) :
  Permutation (insert key x l) (x :: l).
Proof.
  induction l as [|y t IH]; simpl; [reflexivity|].
  destruct (py_lt (key y) (key x)); [|reflexivity].
  rewrite IH. apply perm_swap.
Qed.

Lemma sorted_Permutation (l : list A) : Permutation (sorted key l) l.
Proof.
  induction l as [|x t IH]; simpl; [reflexivity|].
  rewrite insert_Permutation. apply perm_skip. exact IH.
Qed.

Lemma length_sorted (l : list A) : length (sorted key l) = length l.
Proof. apply Permutation_length, sorted_Permutation. Qed.

Hypothesis lt_asym : forall a b : K, py_lt a b = true -> py_lt b a = false.

Lemma insert_HdRel (a x : A) (l : list A) :
  key_le key a x -> HdRel (key_le key) a l -> HdRel (key_le key) a (insert key x l).
Proof.
  intros Hax Hal. destruct l as [|y t]; simpl.
  - constructor. exact Hax.
  - destruct (py_lt (key y) (key x)); constructor.
    + inversion Hal; assumption.
    + exact Hax.
Qed.

Lemma insert_Sorted (x : A) (l : list A) :
  Sorted (key_le key) l -> Sorted (key_le key) (insert key x l).
Proof.
  induction l as [|y t IH]; intros Hl; simpl.
  - repeat constructor.
  - inversion Hl as [|? ? Ht Hy]; subst.
    destruct (py_lt (key y) (key x)) eqn:Hyx.
    + constructor; [apply IH; exact Ht|].
      apply insert_HdRel; [|exact Hy]. unfold key_le. apply lt_asym. exact Hyx.
    + constructor; [exact Hl|]. constructor. exact Hyx.
Qed.

(** With an asymmetric [<], neighbours in the result are in key order. *)
Lemma sorted_Sorted (l : list A) : Sorted (key_le key) (sorted key l).
Proof.
  induction l as [|x t IH]; simpl; [constructor|].
  apply insert_Sorted. exact IH.
Qed.

Hypothesis lt_irrefl : forall a : K, py_lt a a = false.

(** Stability: the elements that share a key keep their order. *)
Lemma insert_same_key (same : K -> bool) (x : A) (l : list A) :
  (forall a b, same a = true -> same b = true -> py_lt a b = false) ->
  filter (fun y => same (key y)) (insert key x l)
  = filter (fun y => same (key y)) (x :: l).
Proof.
  intros Hsame. induction l as [|y t IH]; [reflexivity|].
  simpl insert. destruct (py_lt (key y) (key x)) eqn:Hyx; [|reflexivity].
  simpl filter in *. rewrite IH.
  destruct (same (key x)) eqn:Hx, (same (key y)) eqn:Hy; try reflexivity.
  rewrite (Hsame _ _ Hy Hx) in Hyx. discriminate.
Qed.

Lemma sorted_stable (same : K -> bool) (l : list A) :
  (forall a b, same a = true -> same b = true -> py_lt a b = false) ->
  filter (fun y => same (key y)) (sorted key l) = filter (fun y => same (key y)) l.
Proof.
  intros Hsame. induction l as [|x t IH]; [reflexivity|].
  simpl sorted. rewrite insert_same_key by exact Hsame.
  simpl. rewrite IH. reflexivity.
Qed.

End SortFacts.

(** Where [<] is a strict weak order, the ordered and stable arrangement of
    a list is unique, and [sorted] computes it: whatever algorithm a stable
    sort runs, this is the list it returns. *)
Section StableSort.
Context {A K : Type} `{PyOrd K}.
Variable key : A -> K.
Hypothesis lt_swo : strict_weak_order K.

Lemma swo_irrefl (a : K) : py_lt a a = false.
Proof.
  destruct (py_lt a a) eqn:Ha; [|reflexivity].
  rewrite (proj1 lt_swo a a Ha) in Ha. discriminate Ha.
Qed.

Lemma key_le_trans (a b c : A) :
  key_le key a b -> key_le key b c -> key_le key a c.
Proof. unfold key_le. intros Hab Hbc. exact (proj2 lt_swo _ _ _ Hbc Hab). Qed.

Lemma same_class_refl (x : A) : same_class key (key x) x = true.
Proof. unfold same_class. rewrite swo_irrefl. reflexivity. Qed.

Lemma Sorted_head_least (x : A) (t : list A) :
  Sorted (key_le key) (x :: t) -> forall y, In y t -> key_le key x y.
Proof.
  intros Hs. apply Sorted_StronglySorted in Hs.
  - inversion Hs as [|? ? _ Hall]; subst. apply Forall_forall. exact Hall.
  - intros a b c. apply key_le_trans.
Qed.

Lemma filter_head (P : A -> bool) (x : A) (t : list A) :
  P x = true -> filter P (x :: t) = x :: filter P t.
Proof. intros Hx. cbn [filter]. rewrite Hx. reflexivity. Qed.

Lemma filter_head_in (P : A -> bool) (x : A) (r l : list A) :
  x :: r = filter P l -> In x l.
Proof.
  intros Heq. assert (Hin : In x (filter P l)) by (rewrite <- Heq; left; reflexivity).
  apply filter_In in Hin. tauto.
Qed.

Lemma stable_sort_unique (l1 : list A) :
  forall l2,
    Sorted (key_le key) l1 -> Sorted (key_le key) l2 ->
    (forall k, filter (same_class key k) l1 = filter (same_class key k) l2) ->
    l1 = l2.
Proof.
  induction l1 as [|x t1 IH]; intros [|y t2] S1 S2 Hcl.
  - reflexivity.
  - specialize (Hcl (key y)). cbn [filter] in Hcl.
    rewrite same_class_refl in Hcl. discriminate Hcl.
  - specialize (Hcl (key x)). cbn [filter] in Hcl.
    rewrite same_class_refl in Hcl. discriminate Hcl.
  - assert (Hxy : py_lt (key x) (key y) = false).
    { pose proof (Hcl (key x)) as Hx.
      rewrite (filter_head _ x t1 (same_class_refl x)) in Hx.
      apply filter_head_in in Hx.
      destruct Hx as [<-|Hx]; [apply swo_irrefl|].
      exact (Sorted_head_least y t2 S2 x Hx). }
    assert (Hyx : py_lt (key y) (key x) = false).
    { pose proof (Hcl (key y)) as Hy. symmetry in Hy.
      rewrite (filter_head _ y t2 (same_class_refl y)) in Hy.
      apply filter_head_in in Hy.
      destruct Hy as [<-|Hy]; [apply swo_irrefl|].
      exact (Sorted_head_least x t1 S1 y Hy). }
    assert (Heq : x = y).
    { pose proof (Hcl (key x)) as Hx. cbn [filter] in Hx.
      rewrite same_class_refl in Hx. unfold same_class at 2 in Hx.
      rewrite Hxy, Hyx in Hx. cbn [negb andb] in Hx. congruence. }
    subst y. f_equal. apply IH.
    + inversion S1; assumption.
    + inversion S2; assumption.
    + intros k. specialize (Hcl k). cbn [filter] in Hcl.
      destruct (same_class key k x); congruence.
Qed.

(** No key of a class is below another key of the class. *)
Lemma same_class_unordered (k : K) (a b : A) :
  same_class key k a = true -> same_class key k b = true ->
  py_lt (key a) (key b) = false.
Proof.
  unfold same_class. intros Ha Hb.
  apply andb_true_iff in Ha as [Ha _]. apply andb_true_iff in Hb as [_ Hb].
  apply negb_true_iff in Ha, Hb. exact (proj2 lt_swo _ _ _ Ha Hb).
Qed.

Lemma insert_class (k : K) (x : A) (l : list A) :
  filter (same_class key k) (insert key x l) = filter (same_class key k) (x :: l).
Proof.
  induction l as [|y t IH]; [reflexivity|].
  cbn [insert]. destruct (py_lt (key y) (key x)) eqn:Hyx; [|reflexivity].
  cbn [filter] in *. rewrite IH.
  destruct (same_class key k x) eqn:Hx, (same_class key k y) eqn:Hy; try reflexivity.
  rewrite (same_class_unordered k y x Hy Hx) in Hyx. discriminate Hyx.
Qed.

Lemma sorted_class (k : K) (l : list A) :
  filter (same_class key k) (sorted key l) = filter (same_class key k) l.
Proof.
  induction l as [|x t IH]; [reflexivity|].
  cbn [sorted]. rewrite insert_class. cbn [filter]. rewrite IH. reflexivity.
Qed.

(** A list that is an ordered and stable arrangement of [l] is [sorted l]. *)
Lemma sorted_is_the_stable_sort (l l' : list A) :
  Sorted (key_le key) l' ->
  (forall k, filter (same_class key k) l' = filter (same_class key k) l) ->
  l' = sorted key l.
Proof.
  intros Hs Hcl. apply stable_sort_unique.
  - exact Hs.
  - apply sorted_Sorted. exact (proj1 lt_swo).
  - intros k. rewrite sorted_class. apply Hcl.
Qed.

End StableSort.

(** ** The other mutations *)

Section MutationFacts.
Context {V : Type} `{PyValue V}.

Lemma sort_spec {K} `{PyOrd K} (key : V * V -> K) (self : Field V) (l : list V) :
  subfields self = Some l ->
  sort key self = (Ok tt, set_subfields (flatten (sorted key (pairs l))) self).
Proof.
  intros Hs. unfold sort, bind, attr. read_attrs.
  rewrite zip_slices. reflexivity.
Qed.

Lemma change_code_spec (from_code to_code : V) (self : Field V) (l : list V) :
  subfields self = Some l ->
  change_code from_code to_code self
  = (Ok tt,
     set_subfields
       (map (fun iv : nat * V =>
               let (i, val) := iv in
               if negb (i mod 2 =? 0) then val
               else if py_eqb val from_code then to_code else val)
            (enumerate l))
       self).
Proof. intros Hs. unfold change_code, bind, attr. read_attrs. reflexivity. Qed.

Lemma length_enumerate_map {B} (f : nat * V -> B) (l : list V) :
  length (map f (enumerate l)) = length l.
Proof.
  unfold enumerate. rewrite length_map, length_combine, length_seq.
  apply Nat.min_id.
Qed.

(** On the pairs, [change_code] rewrites the code and nothing else. *)
Lemma change_code_pairs (from_code to_code : V) (l : list V) :
  forall k, Nat.even k = true ->
    pairs (map (fun iv : nat * V =>
                  let (i, val) := iv in
                  if negb (i mod 2 =? 0) then val
                  else if py_eqb val from_code then to_code else val)
               (combine (seq k (length l)) l))
    = map (fun p => (if py_eqb (fst p) from_code then to_code else fst p, snd p))
          (pairs l).
Proof.
  induction l as [| x | c v t IH] using pair_induction; intros k E; try reflexivity.
  cbn [length seq combine map pairs fst snd].
  rewrite (even_index_mod k E), (odd_index_mod k E). cbn [negb].
  f_equal. apply (IH (S (S k))). exact E.
Qed.

End MutationFacts.

(** ** delete_all_subfields *)

Section DeleteAllClaims.
Context {V : Type} `{PyValue V}.

Lemma count_code_without (code : V) (ps : list (V * V)) :
  length (filter (has_code code) (filter (fun p => negb (has_code code p)) ps)) = 0.
Proof.
  induction ps as [|p ps IH]; [reflexivity|]. simpl.
  destruct (has_code code p) eqn:Hp; simpl; [exact IH|].
  rewrite Hp. exact IH.
Qed.

(** Where every value stored under [code] is true in a boolean context,
    [delete_all_subfields] returns, no subfield with [code] remains, and the
    other subfields are all there in their order. *)
Lemma delete_all_subfields_truthy (code : V) (self : Field V) (l : list V) :
  subfields self = Some l -> even_length l -> code_values_truthy code l ->
  exists l',
    delete_all_subfields code self = (Ok tt, set_subfields l' self)
    /\ even_length l'
    /\ count_code code l' = 0
    /\ pairs l' = without_code code l.
Proof.
  intros Hs E Ht. exists (drop_until_falsy code l).
  split; [apply delete_all_subfields_spec; assumption|].
  split; [apply even_length_drop; exact E|].
  split.
  - unfold count_code. rewrite (drop_truthy_pairs code l E Ht).
    apply count_code_without.
  - apply drop_truthy_pairs; assumption.
Qed.

End DeleteAllClaims.

(** C1, where the code departs from the claim.  The field holds the two
    subfields a="" and a="x".  [delete_all_subfields("a")] deletes the first
    of them, whose value is empty and therefore false in the loop condition,
    and stops: the subfield a="x" is still there, so that [count("a")] is 1
    afterwards and not 0. *)
Theorem delete_all_subfields_stops_at_empty_value :
  delete_all_subfields "a" Examples.f_empty_value
  = (Ok tt, Examples.data_field ["a"; "x"])
  /\ fst (count "a" (Examples.data_field ["a"; "x"])) = Ok 1.
Proof. split; reflexivity. Qed.

(** ** Item-style write *)

(** C3.  On a data field whose subfield list [l] has even length, let [n]
    be the number of subfields with code [code], which is what [count]
    returns.  If [n > 1], [field[code] = value] raises the [KeyError] for a
    duplicate code and the field is as it was, the iteration cursor apart; if
    [n = 0] it returns with [code, value] appended to the list; if [n = 1]
    it returns with the value of that one subfield replaced, every other
    element of the list in its place. *)
Theorem setitem_by_count {V : Type} `{PyValue V} (show : V -> string)
    (code value : V) (self : Field V) (l : list V) :
  subfields self = Some l -> even_length l ->
  fst (count code self) = Ok (count_code code l)
  /\ (1 < count_code code l ->
      __setitem__ show code value self
      = (Raise (KeyError ("more than one code '" ++ show code ++ "'")%string),
         set_pos (length l) self)
      /\ subfields (snd (__setitem__ show code value self)) = Some l)
  /\ (count_code code l = 0 ->
      fst (__setitem__ show code value self) = Ok tt
      /\ subfields (snd (__setitem__ show code value self))
         = Some (l ++ [code; value]))
  /\ (count_code code l = 1 ->
      exists pre v0 post,
        l = pre ++ code :: v0 :: post
        /\ even_length pre
        /\ count_code code pre = 0 /\ count_code code post = 0
        /\ fst (__setitem__ show code value self) = Ok tt
        /\ subfields (snd (__setitem__ show code value self))
           = Some (pre ++ code :: value :: post)).
Proof.
  intros Hs E.
  split; [rewrite (count_spec code self l Hs E); reflexivity|].
  split; [|split].
  - intros Hn. rewrite (setitem_spec show code value self l Hs E).
    destruct (Nat.ltb_spec 1 (count_code code l)) as [_|Hle]; [|lia].
    split; [reflexivity|]. destruct self; exact Hs.
  - intros Hn. rewrite (setitem_spec show code value self l Hs E), Hn.
    split; reflexivity.
  - intros Hn.
    destruct (count_one_split code l E Hn) as (pre & v0 & post & Hl & Ep & Eq & Hp & Hq).
    exists pre, v0, post. subst l.
    rewrite (setitem_one show code value v0 pre post self Hs Ep Eq Hp Hq).
    repeat (split; [reflexivity || assumption|]). reflexivity.
Qed.

Lemma setitem_by_count_witness :
  fst (__setitem__ (fun c : text => c) "a" "new" Examples.f_three)
  = Raise (KeyError "more than one code 'a'")
  /\ subfields (snd (__setitem__ (fun c : text => c) "a" "new" Examples.f_three))
     = Some ["a"; "1"; "b"; "2"; "a"; "3"]
  /\ subfields (snd (__setitem__ (fun c : text => c) "b" "new" Examples.f_three))
     = Some ["a"; "1"; "b"; "new"; "a"; "3"]
  /\ subfields (snd (__setitem__ (fun c : text => c) "c" "new" Examples.f_three))
     = Some ["a"; "1"; "b"; "2"; "a"; "3"; "c"; "new"].
Proof.
  pose proof (setitem_by_count (fun c : text => c) "a" "new" Examples.f_three
                ["a"; "1"; "b"; "2"; "a"; "3"] eq_refl eq_refl) as Ha.
  destruct Ha as (_ & Hdup & _ & _).
  destruct (Hdup ltac:(vm_compute; lia)) as [Hraise Hsame].
  split; [rewrite Hraise; reflexivity|].
  split; [exact Hsame|].
  split; reflexivity.
Defined.

(** ** The even length of the subfield list *)

(** C6.  On a data field whose subfield list has even length, the list has
    even length again after [add_subfield], after [delete_subfield] with or
    without [match_value], after [delete_all_subfields], after [change_code],
    after [sort] with any key, and after an item-style write, whether the
    write returns or raises. *)
Theorem mutations_keep_even_length {V : Type} `{PyValue V} (self : Field V) :
  even_subfields self ->
  (forall code value, even_subfields (snd (add_subfield code value self)))
  /\ (forall code match_value,
        even_subfields (snd (delete_subfield code match_value self)))
  /\ (forall code, even_subfields (snd (delete_all_subfields code self)))
  /\ (forall from_code to_code,
        even_subfields (snd (change_code from_code to_code self)))
  /\ (forall (K : Type) (ord : PyOrd K) (key : V * V -> K),
        even_subfields (snd (sort key self)))
  /\ (forall show code value,
        even_subfields (snd (__setitem__ show code value self))).
Proof.
  intros (l & Hs & E). repeat split.
  - intros code value. rewrite (add_subfield_spec code value self l Hs).
    exists (l ++ [code; value]). split; [reflexivity|].
    apply even_length_app; [exact E|reflexivity].
  - intros code mv. rewrite (delete_subfield_spec code mv self l Hs E).
    destruct (remove_first (delete_test code mv) l) as [[v l']|] eqn:Hr.
    + exists l'. split; [reflexivity|]. exact (remove_first_even _ l l' v Hr E).
    + exists l. split; assumption.
  - intros code. rewrite (delete_all_subfields_spec code self l Hs E).
    exists (drop_until_falsy code l). split; [reflexivity|].
    apply even_length_drop. exact E.
  - intros from_code to_code. rewrite (change_code_spec from_code to_code self l Hs).
    eexists. split; [reflexivity|].
    unfold even_length. rewrite length_enumerate_map. exact E.
  - intros K ord key. rewrite (sort_spec key self l Hs).
    eexists. split; [reflexivity|]. apply even_length_flatten.
  - intros show code value.
    destruct (count_code code l) as [|[|n]] eqn:Hn.
    + rewrite (setitem_spec show code value self l Hs E), Hn.
      exists (l ++ [code; value]). split; [reflexivity|].
      apply even_length_app; [exact E|reflexivity].
    + destruct (count_one_split code l E Hn)
        as (pre & v0 & post & Hl & Ep & Eq & Hp & Hq).
      subst l. rewrite (setitem_one show code value v0 pre post self Hs Ep Eq Hp Hq).
      exists (pre ++ code :: value :: post). split; [reflexivity|].
      apply even_length_app; [exact Ep|]. apply even_length_cons2. exact Eq.
    + rewrite (setitem_spec show code value self l Hs E), Hn.
      exists l. split; [destruct self; exact Hs|exact E].
Qed.

Lemma mutations_keep_even_length_witness :
  even_subfields Examples.f_three
  /\ even_subfields (snd (delete_all_subfields "a" Examples.f_three))
  /\ even_subfields (snd (sort Examples.default_key Examples.f_three))
  /\ even_subfields
       (snd (__setitem__ (fun c : text => c) "a" "new" Examples.f_three)).
Proof.
  assert (He : even_subfields Examples.f_three).
  { exists ["a"; "1"; "b"; "2"; "a"; "3"]. split; reflexivity. }
  destruct (mutations_keep_even_length Examples.f_three He)
    as (_ & _ & Hall & _ & Hsort & Hset).
  split; [exact He|]. split; [apply Hall|].
  split; [apply Hsort|apply Hset].
Defined.

(** ** Control fields *)

Section ControlFieldClaims.
Context {V : Type} `{PyValue V}.

Lemma getitem_control (code : V) (self : Field V) :
  subfields self = None -> __getitem__ code self = (Ok None, set_pos 0 self).
Proof.
  intros Hs. unfold __getitem__, bind.
  rewrite (get_subfields_control [code] self Hs). reflexivity.
Qed.

Lemma contains_control (code : V) (self : Field V) :
  subfields self = None -> __contains__ code self = (Ok false, set_pos 0 self).
Proof.
  intros Hs. unfold __contains__, bind.
  rewrite (get_subfields_control [code] self Hs). reflexivity.
Qed.

Lemma get_subfields_with_codes_control (codes : list V) (self : Field V) :
  subfields self = None ->
  get_subfields_with_codes codes self = (Ok [], set_pos 0 self).
Proof.
  intros Hs. unfold get_subfields_with_codes.
  apply (for_self_control _ [] _ Hs).
Qed.

Lemma ltb_compare (a b : string) :
  PyStr.lt a b = match String.compare a b with Lt => true | _ => false end.
Proof. reflexivity. Qed.

Lemma control_tags_by_number :
  forallb (fun n =>
             Bool.eqb (PyStr.lt (format_03i (Z.of_nat n)) "010"
                       && isdigit (format_03i (Z.of_nat n)))
                      (n <? 10))
          (seq 0 1000) = true.
Proof. vm_compute. reflexivity. Qed.

End ControlFieldClaims.

(** C10.  A field that [__init__] built as a control field has no subfield
    list, and the subfield queries on it return without an exception and
    report absence: iterating yields no pair, [__next__] raises
    [StopIteration] at once, [get_subfields] returns the empty list for any
    codes, [count] returns 0, the membership test is false, and the item-style
    read returns [None]. *)
Theorem control_field_queries {V : Type} `{PyValue V} (t : tag_arg)
    (inds : option (list text)) (subs : option (list V)) (d : V) (f : Field V) :
  __init__ t inds subs d = Ok f -> is_control_field f = true ->
  subfields f = None
  /\ fst (iterate f) = Ok []
  /\ __next__ f = (Raise StopIteration, f)
  /\ (forall codes, fst (get_subfields codes f) = Ok [])
  /\ (forall codes, fst (get_subfields_with_codes codes f) = Ok [])
  /\ (forall code, fst (count code f) = Ok 0)
  /\ (forall code, fst (__contains__ code f) = Ok false)
  /\ (forall code, fst (__getitem__ code f) = Ok None).
Proof.
  intros Hinit Hc.
  assert (Hs : subfields f = None).
  { destruct (init_control t inds subs d f Hinit Hc) as (tg & _ & ->). reflexivity. }
  split; [exact Hs|].
  split; [rewrite (iterate_control f Hs); reflexivity|].
  split; [apply next_control; exact Hs|].
  split; [intros codes; rewrite (get_subfields_control codes f Hs); reflexivity|].
  split; [intros codes; rewrite (get_subfields_with_codes_control codes f Hs);
          reflexivity|].
  split; [intros code; rewrite (count_control code f Hs); reflexivity|].
  split; [intros code; rewrite (contains_control code f Hs); reflexivity|].
  intros code. rewrite (getitem_control code f Hs). reflexivity.
Qed.

Lemma control_field_queries_witness :
  __init__ (TagInt 1) None None "fol 05731351" = Ok Examples.f_control
  /\ fst (count "a" Examples.f_control) = Ok 0
  /\ fst (__getitem__ "a" Examples.f_control) = Ok None
  /\ fst (__contains__ "a" Examples.f_control) = Ok false
  /\ fst (get_subfields ["a"; "b"] Examples.f_control) = Ok [].
Proof.
  destruct (control_field_queries (TagInt 1) None None "fol 05731351"
              Examples.f_control eq_refl eq_refl)
    as (_ & _ & _ & Hget & _ & Hcount & Hin & Hitem).
  split; [reflexivity|]. split; [apply Hcount|]. split; [apply Hitem|].
  split; [apply Hin|apply Hget].
Defined.

(** ** The tags of control fields *)

Section TagClassFacts.
Import TagSpec.

Lemma char_isdigit_spec (c : ascii) :
  char_isdigit c = one_of (decimal_digits ++ superscript_digits) c.
Proof. destruct c as [[] [] [] [] [] [] [] []]; reflexivity. Qed.

Lemma char_isdigit_ascii (c : ascii) :
  (code_point c <? 128) = true -> char_isdigit c = one_of decimal_digits c.
Proof. destruct c as [[] [] [] [] [] [] [] []]; intros Hc; try reflexivity; discriminate Hc. Qed.

Lemma char_decimal_isdigit (c : ascii) :
  one_of decimal_digits c = true -> char_isdigit c = true.
Proof. destruct c as [[] [] [] [] [] [] [] []]; intros Hc; try reflexivity; discriminate Hc. Qed.

Lemma all_chars_ext (p q : ascii -> bool) (s : string) :
  (forall c, p c = q c) -> all_chars p s = all_chars q s.
Proof.
  intros Hpq. induction s as [|c s IH]; [reflexivity|].
  cbn [all_chars]. rewrite Hpq, IH. reflexivity.
Qed.

Lemma isdigit_spec (s : string) : isdigit s = digit_characters s.
Proof.
  destruct s as [|c s]; [reflexivity|]. unfold isdigit, digit_characters.
  apply all_chars_ext, char_isdigit_spec.
Qed.

Lemma all_chars_ascii (s : string) :
  ascii_only s = true ->
  all_chars char_isdigit s = all_chars (one_of decimal_digits) s.
Proof.
  unfold ascii_only. induction s as [|c s IH]; [reflexivity|].
  cbn [all_chars]. intros Hs. apply andb_true_iff in Hs as [Hc Hs].
  rewrite (char_isdigit_ascii c Hc), (IH Hs). reflexivity.
Qed.

Lemma isdigit_ascii (s : string) :
  ascii_only s = true -> isdigit s = purely_numeric s.
Proof.
  intros Hs. destruct s as [|c s]; [reflexivity|]. unfold isdigit, purely_numeric.
  apply all_chars_ascii, Hs.
Qed.

Lemma all_chars_decimal (s : string) :
  all_chars (one_of decimal_digits) s = true -> all_chars char_isdigit s = true.
Proof.
  induction s as [|c s IH]; [reflexivity|].
  cbn [all_chars]. intros Hs. apply andb_true_iff in Hs as [Hc Hs].
  rewrite (char_decimal_isdigit c Hc), (IH Hs). reflexivity.
Qed.

Lemma purely_numeric_isdigit (s : string) :
  purely_numeric s = true -> isdigit s = true.
Proof.
  destruct s as [|c s]; [discriminate|]. unfold isdigit, purely_numeric.
  apply all_chars_decimal.
Qed.

(** A tag of three characters is below "010" and all digits exactly when it
    is "00" and one more digit character. *)
Lemma control_three_chars (c1 c2 c3 : ascii) :
  PyStr.lt (String c1 (String c2 (String c3 ""))) "010"
  && isdigit (String c1 (String c2 (String c3 "")))
  = Ascii.eqb c1 "0" && Ascii.eqb c2 "0"
    && one_of (decimal_digits ++ superscript_digits) c3.
Proof.
  unfold isdigit. cbn [all_chars]. rewrite (char_isdigit_spec c3), andb_true_r.
  destruct c1 as [[] [] [] [] [] [] [] []]; try reflexivity.
  destruct c2 as [[] [] [] [] [] [] [] []]; try reflexivity.
  destruct c3 as [[] [] [] [] [] [] [] []]; reflexivity.
Qed.

Lemma decimal_digit_cases (c : ascii) :
  one_of decimal_digits c = true -> In c decimal_digits.
Proof.
  unfold one_of. intros Hc. apply existsb_exists in Hc as (x & Hin & Heq).
  apply Ascii.eqb_eq in Heq. subst x. exact Hin.
Qed.

End TagClassFacts.

(** C7, the counterexample.  The tag made of two zeros and the superscript
    two is a control field for [is_control_field], since [str.isdigit]
    accepts the superscript; it is not purely numeric and it is none of the
    tags "000" to "009". *)
Lemma superscript_tag_is_control_field :
  is_control_field (tag_only (V := text) Examples.tag_superscript) = true
  /\ TagSpec.purely_numeric Examples.tag_superscript = false
  /\ ~ In Examples.tag_superscript TagSpec.control_tags.
Proof.
  split; [reflexivity|]. split; [reflexivity|].
  intros Hin. simpl in Hin.
  repeat (destruct Hin as [Heq|Hin]; [discriminate Heq|]). exact Hin.
Qed.

(** C7, amended.  [is_control_field] is true exactly when the tag is made of
    digit characters, which are the decimal digits and the superscripts one,
    two and three, has at least one of them, and is lexicographically below
    "010".  A purely numeric tag below "010" is a control field, and for a
    tag of ASCII characters the control fields are exactly the purely numeric
    tags below "010".  Each of the tags "000" to "009" is a control field; a
    tag that is not below "010", and a tag with a character that is no digit
    character, is not.  A tag of three characters is a control field exactly
    when it is "00" and one more digit character, so that the purely numeric
    ones among them are "000" to "009"; and among the tags that [__init__]
    makes of the numbers 0 to 999 the control fields are those of the numbers
    below 10. *)
Theorem is_control_field_digit_characters {V : Type} `{PyValue V} (f : Field V) :
  (is_control_field f = true
   <-> TagSpec.digit_characters (tag f) = true /\ PyStr.lt (tag f) "010" = true)
  /\ (TagSpec.purely_numeric (tag f) = true -> PyStr.lt (tag f) "010" = true ->
      is_control_field f = true)
  /\ (TagSpec.ascii_only (tag f) = true ->
      (is_control_field f = true
       <-> TagSpec.purely_numeric (tag f) = true /\ PyStr.lt (tag f) "010" = true))
  /\ (In (tag f) TagSpec.control_tags -> is_control_field f = true)
  /\ (PyStr.lt (tag f) "010" = false -> is_control_field f = false)
  /\ (TagSpec.digit_characters (tag f) = false -> is_control_field f = false)
  /\ (forall c1 c2 c3, tag f = String c1 (String c2 (String c3 "")) ->
      is_control_field f
      = Ascii.eqb c1 "0" && Ascii.eqb c2 "0"
        && TagSpec.one_of (TagSpec.decimal_digits ++ TagSpec.superscript_digits) c3)
  /\ (String.length (tag f) = 3 -> TagSpec.purely_numeric (tag f) = true ->
      (is_control_field f = true <-> In (tag f) TagSpec.control_tags))
  /\ (forall n, n < 1000 -> normalize_tag (TagInt (Z.of_nat n)) = Ok (tag f) ->
      is_control_field f = (n <? 10)).
Proof.
  assert (Hten : In (tag f) TagSpec.control_tags -> is_control_field f = true).
  { unfold is_control_field. intros Hin. simpl in Hin.
    repeat (destruct Hin as [<-|Hin]; [reflexivity|]). destruct Hin. }
  assert (Hthree : forall c1 c2 c3, tag f = String c1 (String c2 (String c3 "")) ->
            is_control_field f
            = Ascii.eqb c1 "0" && Ascii.eqb c2 "0"
              && TagSpec.one_of (TagSpec.decimal_digits ++ TagSpec.superscript_digits) c3).
  { intros c1 c2 c3 Ht. unfold is_control_field. rewrite Ht.
    apply control_three_chars. }
  split; [|split; [|split; [|split; [|split; [|split; [|split; [|split]]]]]]].
  - unfold is_control_field. rewrite andb_true_iff, isdigit_spec. tauto.
  - intros Hnum Hlt. unfold is_control_field.
    rewrite Hlt, (purely_numeric_isdigit (tag f) Hnum). reflexivity.
  - intros Hascii. unfold is_control_field.
    rewrite andb_true_iff, (isdigit_ascii (tag f) Hascii). tauto.
  - exact Hten.
  - unfold is_control_field. intros ->. reflexivity.
  - unfold is_control_field. rewrite isdigit_spec. intros ->. apply andb_false_r.
  - exact Hthree.
  - intros Hlen Hnum. split; [|exact Hten].
    destruct (tag f) as [|c1 [|c2 [|c3 [|c4 r]]]] eqn:Ht; try discriminate Hlen.
    rewrite (Hthree c1 c2 c3 eq_refl). intros Hc.
    apply andb_true_iff in Hc as [Hc _]. apply andb_true_iff in Hc as [Hc1 Hc2].
    apply Ascii.eqb_eq in Hc1, Hc2. subst c1 c2.
    unfold TagSpec.purely_numeric in Hnum. cbn [all_chars] in Hnum.
    apply andb_true_iff in Hnum as [_ Hnum]. apply andb_true_iff in Hnum as [_ Hnum].
    apply andb_true_iff in Hnum as [Hc3 _].
    apply decimal_digit_cases in Hc3. simpl in Hc3.
    repeat (destruct Hc3 as [<-|Hc3]; [simpl; tauto|]). destruct Hc3.
  - intros n Hn Ht. unfold is_control_field.
    assert (Hf : tag f = format_03i (Z.of_nat n)).
    { unfold normalize_tag, int_of_tag, percent_03i in Ht. cbn [bind_result] in Ht.
      destruct (digits_of (Z.of_nat n) <=? int_max_str_digits) eqn:Hd.
      - cbn [try_except_ValueError] in Ht. congruence.
      - cbn [try_except_ValueError percent_03s] in Ht. unfold str_of_int in Ht.
        rewrite Hd in Ht. discriminate Ht. }
    rewrite Hf.
    pose proof control_tags_by_number as Hall.
    rewrite forallb_forall in Hall.
    apply Bool.eqb_prop, (Hall n), in_seq. lia.
Qed.

Lemma is_control_field_digit_characters_witness :
  is_control_field Examples.f_control = true
  /\ is_control_field Examples.f_title = false
  /\ is_control_field (tag_only (V := text) "00a") = false
  /\ is_control_field (tag_only (V := text) "0x7") = false
  /\ (is_control_field (tag_only (V := text) "007") = true
      <-> In "007" TagSpec.control_tags).
Proof.
  destruct (is_control_field_digit_characters Examples.f_control)
    as (_ & _ & _ & Hten & _).
  destruct (is_control_field_digit_characters Examples.f_title)
    as (_ & _ & _ & _ & Habove & _).
  destruct (is_control_field_digit_characters (tag_only (V := text) "00a"))
    as (_ & _ & _ & _ & _ & Hdigit & _).
  destruct (is_control_field_digit_characters (tag_only (V := text) "0x7"))
    as (_ & _ & Hascii & _).
  destruct (is_control_field_digit_characters (tag_only (V := text) "007"))
    as (_ & _ & _ & _ & _ & _ & _ & Hnum & _).
  split; [apply Hten; simpl; tauto|].
  split; [apply Habove; reflexivity|].
  split; [apply Hdigit; reflexivity|].
  split; [|apply Hnum; reflexivity].
  destruct (is_control_field (tag_only (V := text) "0x7")) eqn:Hc; [|reflexivity].
  destruct (proj1 (Hascii eq_refl) eq_refl) as [Hnumx _]. discriminate Hnumx.
Defined.

(** C9.  Where the tag normalises to a tag that is not the tag of a control
    field, [__init__] raises [ValueError] as soon as the indicators are not
    exactly two, which includes the call that passes no indicators and so
    gets the empty list; with exactly two indicators it returns the field,
    with the two stored as [indicator1] and [indicator2] and the pair as
    [indicators]. *)
Theorem init_indicator_arity {V : Type} `{PyValue V} (t : tag_arg)
    (inds : option (list text)) (subs : option (list V)) (d : V) (tg : text) :
  normalize_tag t = Ok tg ->
  is_control_field (tag_only (V := V) tg) = false ->
  (length (match inds with Some l => l | None => [] end) <> 2 ->
   __init__ t inds subs d = Raise ValueError)
  /\ __init__ t None subs d = Raise ValueError
  /\ (forall i1 i2, inds = Some [i1; i2] ->
      exists f,
        __init__ t inds subs d = Ok f
        /\ tag f = tg
        /\ indicator1 f = Some i1 /\ indicator2 f = Some i2
        /\ indicators f = Some [i1; i2]
        /\ subfields f = Some (match subs with Some l => l | None => [] end)
        /\ data f = None).
Proof.
  intros Htag Hctl. unfold __init__, tag_only in *. rewrite Htag.
  cbn [bind_result]. rewrite Hctl.
  split; [|split].
  - intros Hlen.
    destruct (match inds with Some l => l | None => [] end)
      as [|i1 [|i2 [|i3 r]]]; try reflexivity.
    simpl in Hlen. congruence.
  - reflexivity.
  - intros i1 i2 ->. eexists. repeat split.
Qed.

Lemma init_indicator_arity_witness :
  __init__ (TagStr "245") (Some ["0"; "1"]) (Some ["a"; "Foo"; "b"; "Bar"]) ""
  = Ok Examples.f_title
  /\ __init__ (TagStr "245") (Some ["0"]) (Some ["a"; "Foo"]) "" = Raise ValueError
  /\ __init__ (TagStr "245") None (Some ["a"; "Foo"]) "" = Raise ValueError.
Proof.
  assert (Htag : normalize_tag (TagStr "245") = Ok "245") by (vm_compute; reflexivity).
  destruct (init_indicator_arity (TagStr "245") (Some ["0"]) (Some ["a"; "Foo"]) ""
              "245" Htag eq_refl) as (Hone & Hnone & _).
  split; [vm_compute; reflexivity|]. split.
  - apply Hone. simpl. lia.
  - exact Hnone.
Defined.

(** ** Text rendering *)

Section StrFacts.

Lemma append_assoc (a b c : string) : ((a ++ b) ++ c = a ++ (b ++ c))%string.
Proof. induction a as [|x a IH]; simpl; [reflexivity|]. rewrite IH. reflexivity. Qed.

Lemma append_empty_r (a : string) : (a ++ "" = a)%string.
Proof. induction a as [|x a IH]; simpl; [reflexivity|]. rewrite IH. reflexivity. Qed.

Lemma replace_space (d : string) :
  replace d " "%char "\" = MarcMaker.escape_spaces d.
Proof.
  induction d as [|c d IH]; [reflexivity|]. simpl.
  destruct (Ascii.eqb c " "); rewrite IH; reflexivity.
Qed.

Lemma fold_left_render {A} (render : A -> string) (l : list A) :
  forall acc : string,
    fold_left (fun (t : string) (x : A) => (t ++ render x)%string) l acc
    = (acc ++ MarcMaker.concat (map render l))%string.
Proof.
  induction l as [|x l IH]; intros acc; simpl.
  - rewrite append_empty_r. reflexivity.
  - rewrite IH, append_assoc. reflexivity.
Qed.

Lemma fold_left_indicators (inds : list text) (acc : string) :
  fold_left (fun (text0 : text) (indicator : text) =>
               if String.eqb indicator " " || String.eqb indicator "\"
               then (text0 ++ "\")%string
               else (text0 ++ indicator)%string) inds acc
  = (acc ++ MarcMaker.concat (map MarcMaker.render_indicator inds))%string.
Proof.
  rewrite <- fold_left_render. revert acc.
  induction inds as [|i inds IH]; intros acc; [reflexivity|].
  simpl. rewrite IH. f_equal. unfold MarcMaker.render_indicator.
  destruct (String.eqb i " "); [reflexivity|].
  destruct (String.eqb i "\"); reflexivity.
Qed.

Lemma str_control (self : Field text) (d : text) :
  is_control_field self = true -> data self = Some d ->
  __str__ self = (Ok (MarcMaker.render_control (tag self) d), self).
Proof.
  intros Hc Hd. unfold __str__, bind, get, attr, ret. rewrite Hc. read_attrs.
  rewrite replace_space. reflexivity.
Qed.

Lemma str_data (self : Field text) (inds l : list text) :
  is_control_field self = false ->
  indicators self = Some inds -> subfields self = Some l -> even_length l ->
  __str__ self = (Ok (MarcMaker.render_data (tag self) inds l),
                  set_pos (length l) self).
Proof.
  intros Hc Hi Hs E. unfold __str__, bind at 1, get. rewrite Hc.
  unfold bind, attr. rewrite Hi.
  rewrite (for_self_pure
             (fun (t : text) (sf : text * text) =>
                (t ++ MarcMaker.render_subfield sf)%string)
             (fun (text0 : text) (subfield : text * text) =>
                ret (text0 ++ "$" ++ fst subfield ++ snd subfield)%string)
             (fun _ _ _ => eq_refl) l _ self Hs E).
  rewrite fold_left_render, fold_left_indicators.
  unfold MarcMaker.render_data. rewrite !append_assoc. reflexivity.
Qed.

End StrFacts.

(** C8.  The text rendering of a control field is "=", the tag, two spaces
    and the data with every space replaced by a backslash.  The rendering of
    a data field, its subfield list of even length, is "=", the tag, two
    spaces, each indicator as it is except that a space or a backslash is
    rendered as one backslash, and then "$", code and value of every
    subfield in the order of the field.  The field built from tag "245",
    indicators "0" and "1" and subfields a="Foo", b="Bar" is rendered as
    "=245  01$aFoo$bBar". *)
Theorem str_rendering (self : Field text) :
  (is_control_field self = true ->
   forall d, data self = Some d ->
     fst (__str__ self) = Ok (MarcMaker.render_control (tag self) d))
  /\ (is_control_field self = false ->
      forall inds l,
        indicators self = Some inds -> subfields self = Some l -> even_length l ->
        fst (__str__ self) = Ok (MarcMaker.render_data (tag self) inds l))
  /\ (forall f,
        __init__ (TagStr "245") (Some ["0"; "1"]) (Some ["a"; "Foo"; "b"; "Bar"]) ""
        = Ok f ->
        fst (__str__ f) = Ok "=245  01$aFoo$bBar").
Proof.
  split; [|split].
  - intros Hc d Hd. rewrite (str_control self d Hc Hd). reflexivity.
  - intros Hc inds l Hi Hs E. rewrite (str_data self inds l Hc Hi Hs E). reflexivity.
  - intros f Hf. vm_compute in Hf. inversion Hf; subst f. reflexivity.
Qed.

Lemma str_rendering_witness :
  fst (__str__ Examples.f_control) = Ok "=001  fol\05731351"
  /\ fst (__str__ (mkField "245" None (Some [" "; "\"]) (Some " ") (Some "\")
                           (Some ["a"; "Foo bar"]) None))
     = Ok "=245  \\$aFoo bar".
Proof.
  split.
  - destruct (str_rendering Examples.f_control) as (Hctl & _).
    rewrite (Hctl eq_refl "fol 05731351" eq_refl). reflexivity.
  - destruct (str_rendering (mkField "245" None (Some [" "; "\"]) (Some " ")
                                     (Some "\") (Some ["a"; "Foo bar"]) None))
      as (_ & Hdata & _).
    rewrite (Hdata eq_refl [" "; "\"] ["a"; "Foo bar"] eq_refl eq_refl eq_refl).
    reflexivity.
Defined.

(** ** RawField.as_marc *)

Section RawFieldFacts.
Variable SUBFIELD_INDICATOR : text.
Variable END_OF_FIELD : text.

Lemma on_self_run {S L A} (m : M S A) (s : S) (log : L) :
  on_self m (s, log) = (fst (m s), (snd (m s), log)).
Proof. unfold on_self. simpl. destruct (m s). reflexivity. Qed.

(** The encoding argument only decides whether the warning is logged. *)
Lemma raw_as_marc_encoding (e : text) (self : RawField) (log : list log_record) :
  RawField_as_marc SUBFIELD_INDICATOR END_OF_FIELD (Some e) (self, log)
  = (fst (RawField_as_marc SUBFIELD_INDICATOR END_OF_FIELD None (self, log)),
     (fst (snd (RawField_as_marc SUBFIELD_INDICATOR END_OF_FIELD None (self, log))),
      log ++ [mkLog "WARNING"
                    ("Attempt to force a RawField into encoding " ++ e)%string]))
  /\ snd (snd (RawField_as_marc SUBFIELD_INDICATOR END_OF_FIELD None (self, log)))
     = log.
Proof.
  unfold RawField_as_marc.
  match goal with |- context [on_self ?m] => set (body := m) end.
  unfold bind, logging_warn, ret. cbn [fst snd].
  rewrite !on_self_run. split; reflexivity.
Qed.

(** A computation whose last step never returns does not return. *)
Lemma bind_never_returns {S A B} (m : M S A) (k : A -> M S B) (s : S) :
  (forall a s' b, fst (k a s') <> Ok b) -> forall b, fst (bind m k s) <> Ok b.
Proof.
  intros Hk b. unfold bind. destruct (m s) as [[a|e] s'].
  - apply Hk.
  - discriminate.
Qed.

Lemma raw_as_marc_never_returns (encoding : option text) (self : RawField)
    (log : list log_record) (b : bytes) :
  fst (RawField_as_marc SUBFIELD_INDICATOR END_OF_FIELD encoding (self, log)) <> Ok b.
Proof.
  assert (Hnone : fst (RawField_as_marc SUBFIELD_INDICATOR END_OF_FIELD None (self, log))
                  <> Ok b).
  { unfold RawField_as_marc.
    match goal with |- context [on_self ?m] => set (body := m) end.
    unfold bind at 1, ret at 1. rewrite on_self_run. cbn [fst].
    unfold body. apply bind_never_returns. intros f s' b'.
    destruct (is_control_field f).
    - apply bind_never_returns. intros d s'' b''. discriminate.
    - apply bind_never_returns. intros i1 s1 b1.
      apply bind_never_returns. intros e1 s2 b2.
      apply bind_never_returns. intros i2 s3 b3.
      apply bind_never_returns. intros e2 s4 b4.
      apply bind_never_returns. intros marc s5 b5. discriminate. }
  destruct encoding as [e|]; [|exact Hnone].
  destruct (raw_as_marc_encoding e self log) as [Hsome _].
  rewrite Hsome. exact Hnone.
Qed.

Lemma raw_as_marc_control (self : RawField) (log : list log_record) (d : bytes) :
  is_control_field self = true -> data self = Some d ->
  RawField_as_marc SUBFIELD_INDICATOR END_OF_FIELD None (self, log)
  = (Raise TypeError, (self, log)).
Proof.
  intros Hc Hd. unfold RawField_as_marc.
  match goal with |- context [on_self ?m] => set (body := m) end.
  unfold bind, ret. rewrite on_self_run.
  assert (Hbody : body self = (Raise TypeError, self)).
  { unfold body, bind, get, attr, lift, bytes_add_text. rewrite Hc. read_attrs.
    reflexivity. }
  rewrite Hbody. reflexivity.
Qed.

Lemma raw_as_marc_data (self : RawField) (log : list log_record)
    (i1 i2 : text) (b1 b2 sd : bytes) (l : list bytes) :
  is_control_field self = false ->
  indicator1 self = Some i1 -> indicator2 self = Some i2 ->
  encode_ascii i1 = Ok b1 -> encode_ascii i2 = Ok b2 ->
  encode_ascii SUBFIELD_INDICATOR = Ok sd ->
  subfields self = Some l -> even_length l ->
  RawField_as_marc SUBFIELD_INDICATOR END_OF_FIELD None (self, log)
  = (Raise TypeError, (set_pos (length l) self, log)).
Proof.
  intros Hc H1 H2 He1 He2 Hsd Hs E. unfold RawField_as_marc.
  match goal with |- context [on_self ?m] => set (body := m) end.
  unfold bind at 1, ret at 1. rewrite on_self_run.
  enough (Hbody : body self = (Raise TypeError, set_pos (length l) self))
    by (rewrite Hbody; reflexivity).
  unfold body. unfold bind at 1, get. rewrite Hc.
  unfold bind at 1, attr at 1. rewrite H1.
  unfold bind at 1, lift at 1. rewrite He1.
  unfold bind at 1, attr at 1. rewrite H2.
  unfold bind at 1, lift at 1. rewrite He2.
  unfold bind at 1.
  rewrite (for_self_pure
             (fun (marc : bytes) (sf : bytes * bytes) =>
                marc ++ ((sd ++ fst sf) ++ snd sf))
             (fun (marc : bytes) (subfield : bytes * bytes) =>
                d <- lift (encode_ascii SUBFIELD_INDICATOR);;
                ret (marc ++ ((d ++ fst subfield) ++ snd subfield)))
             (fun acc p s => ltac:(unfold bind, lift, ret; rewrite Hsd; reflexivity))
             l (b1 ++ b2) self Hs E).
  reflexivity.
Qed.

End RawFieldFacts.

(** C5: the code raises where the claim has it return bytes.  [END_OF_FIELD]
    is a text, and [RawField.as_marc] adds it to a byte string without
    encoding it, unlike [SUBFIELD_INDICATOR] and the indicators: the sum
    raises [TypeError].  No call of [RawField.as_marc] returns, with an
    encoding or without one.  On a control field with data, and on a data
    field with an even subfield list whose indicators and subfield delimiter
    encode as ASCII, the exception is [TypeError], raised by the last step,
    once the warning for the encoding went to the logging sink; neither the
    raw control field nor the raw data field of the examples yields the bytes
    that the binary form asks for. *)
Theorem raw_as_marc_raises_type_error (SUBFIELD_INDICATOR END_OF_FIELD : text)
    (encoding : option text) (self : RawField) (log : list log_record) :
  (forall b,
     fst (RawField_as_marc SUBFIELD_INDICATOR END_OF_FIELD encoding (self, log))
     <> Ok b)
  /\ (forall e, encoding = Some e ->
      fst (RawField_as_marc SUBFIELD_INDICATOR END_OF_FIELD encoding (self, log))
      = fst (RawField_as_marc SUBFIELD_INDICATOR END_OF_FIELD None (self, log))
      /\ snd (snd (RawField_as_marc SUBFIELD_INDICATOR END_OF_FIELD encoding
                     (self, log)))
         = log ++ [mkLog "WARNING"
                         ("Attempt to force a RawField into encoding " ++ e)%string])
  /\ (is_control_field self = true ->
      forall d, data self = Some d ->
        fst (RawField_as_marc SUBFIELD_INDICATOR END_OF_FIELD encoding (self, log))
        = Raise TypeError)
  /\ (is_control_field self = false ->
      forall i1 i2 b1 b2 sd l,
        indicator1 self = Some i1 -> indicator2 self = Some i2 ->
        encode_ascii i1 = Ok b1 -> encode_ascii i2 = Ok b2 ->
        encode_ascii SUBFIELD_INDICATOR = Ok sd ->
        subfields self = Some l -> even_length l ->
        fst (RawField_as_marc SUBFIELD_INDICATOR END_OF_FIELD encoding (self, log))
        = Raise TypeError)
  /\ fst (RawField_as_marc Examples.SUBFIELD_INDICATOR Examples.END_OF_FIELD None
            (Examples.raw_control_field, []))
     = Raise TypeError
  /\ fst (RawField_as_marc Examples.SUBFIELD_INDICATOR Examples.END_OF_FIELD None
            (Examples.raw_control_field, []))
     <> Ok (MarcBinary.control_bytes [x66; x6f; x6c] [x1e])
  /\ fst (RawField_as_marc Examples.SUBFIELD_INDICATOR Examples.END_OF_FIELD
            (Some "utf-8") (Examples.raw_data_field, []))
     = Raise TypeError
  /\ fst (RawField_as_marc Examples.SUBFIELD_INDICATOR Examples.END_OF_FIELD
            (Some "utf-8") (Examples.raw_data_field, []))
     <> Ok (MarcBinary.data_bytes [x30] [x31] [x1f] [x1e] [[x61]; [x58]]).
Proof.
  assert (Henc : fst (RawField_as_marc SUBFIELD_INDICATOR END_OF_FIELD encoding
                        (self, log))
                 = fst (RawField_as_marc SUBFIELD_INDICATOR END_OF_FIELD None
                          (self, log))).
  { destruct encoding as [e|]; [|reflexivity].
    destruct (raw_as_marc_encoding SUBFIELD_INDICATOR END_OF_FIELD e self log)
      as [Hsome _].
    rewrite Hsome. reflexivity. }
  split; [|split; [|split; [|split; [|split; [|split; [|split]]]]]].
  - intros b. apply raw_as_marc_never_returns.
  - intros e ->.
    destruct (raw_as_marc_encoding SUBFIELD_INDICATOR END_OF_FIELD e self log)
      as [Hsome _].
    rewrite Hsome. split; reflexivity.
  - intros Hc d Hd. rewrite Henc.
    rewrite (raw_as_marc_control SUBFIELD_INDICATOR END_OF_FIELD self log d Hc Hd).
    reflexivity.
  - intros Hc i1 i2 b1 b2 sd l H1 H2 He1 He2 Hsd Hs E. rewrite Henc.
    rewrite (raw_as_marc_data SUBFIELD_INDICATOR END_OF_FIELD self log
               i1 i2 b1 b2 sd l Hc H1 H2 He1 He2 Hsd Hs E).
    reflexivity.
  - vm_compute. reflexivity.
  - vm_compute. discriminate.
  - vm_compute. reflexivity.
  - vm_compute. discriminate.
Qed.

Lemma raw_as_marc_raises_type_error_witness :
  fst (RawField_as_marc Examples.SUBFIELD_INDICATOR Examples.END_OF_FIELD
         (Some "utf-8") (Examples.raw_data_field, []))
  = Raise TypeError
  /\ snd (snd (RawField_as_marc Examples.SUBFIELD_INDICATOR Examples.END_OF_FIELD
                 (Some "utf-8") (Examples.raw_data_field, [])))
     = [mkLog "WARNING" "Attempt to force a RawField into encoding utf-8"]
  /\ fst (RawField_as_marc Examples.SUBFIELD_INDICATOR Examples.END_OF_FIELD
            (Some "utf-8") (Examples.raw_control_field, []))
     = Raise TypeError.
Proof.
  destruct (raw_as_marc_raises_type_error Examples.SUBFIELD_INDICATOR
              Examples.END_OF_FIELD (Some "utf-8") Examples.raw_data_field [])
    as (_ & Hlog & _ & Hdata & _).
  destruct (raw_as_marc_raises_type_error Examples.SUBFIELD_INDICATOR
              Examples.END_OF_FIELD (Some "utf-8") Examples.raw_control_field [])
    as (_ & _ & Hctl & _).
  split; [|split].
  - exact (Hdata eq_refl "0" "1" [x30] [x31] [x1f] [[x61]; [x58]]
             eq_refl eq_refl eq_refl eq_refl eq_refl eq_refl eq_refl).
  - exact (proj2 (Hlog "utf-8" eq_refl)).
  - exact (Hctl eq_refl [x66; x6f; x6c] eq_refl).
Defined.

(** ** map_marc8_field *)

Section Marc8Facts.
Context {V : Type} `{PyValue V}.
Variable marc8_to_unicode : V -> V.

Lemma pairs_map (l : list V) :
  pairs (map marc8_to_unicode l)
  = map (fun p => (marc8_to_unicode (fst p), marc8_to_unicode (snd p))) (pairs l).
Proof.
  induction l as [| x | c v t IH] using pair_induction; try reflexivity.
  simpl. rewrite IH. reflexivity.
Qed.

Lemma codes_of_map (l : list V) :
  codes_of (map marc8_to_unicode l) = map marc8_to_unicode (codes_of l).
Proof.
  unfold codes_of. rewrite pairs_map, !map_map. reflexivity.
Qed.

Lemma map_marc8_control (f : Field V) (d : V) :
  is_control_field f = true -> data f = Some d ->
  map_marc8_field marc8_to_unicode f
  = Ok (mkMapped (tag f) (Some (marc8_to_unicode d)) (indicators f) (indicator1 f)
                 (indicator2 f) (option_map SubfieldList (subfields f)) (__pos f)).
Proof.
  intros Hc Hd. unfold map_marc8_field. rewrite Hc, Hd. reflexivity.
Qed.

Lemma map_marc8_data (f : Field V) (l : list V) :
  is_control_field f = false -> subfields f = Some l ->
  map_marc8_field marc8_to_unicode f
  = Ok (mkMapped (tag f) (data f) (indicators f) (indicator1 f) (indicator2 f)
                 (Some (SubfieldMap (mkMap marc8_to_unicode l))) (__pos f)).
Proof.
  intros Hc Hs. unfold map_marc8_field. rewrite Hc, Hs. reflexivity.
Qed.

End Marc8Facts.

(** C4: the code does not keep the list.  On a data field [map_marc8_field]
    assigns to [subfields] what [map] returns, which in Python 3 is a [map]
    object: the field that comes back has no subfield list any more, and
    [len] of its [subfields], which [__next__] evaluates, raises
    [TypeError].  The elements that the [map] object yields are the decoded
    elements of the old flat list, the codes as well as the values.  The
    tag, the data, the indicators and the cursor are those of the field
    given.  On a control field the data is replaced by the decoded data and
    nothing else changes. *)
Theorem map_marc8_field_leaves_map_object {V : Type} `{PyValue V}
    (marc8_to_unicode : V -> V) (f : Field V) :
  (is_control_field f = false ->
   forall l, subfields f = Some l ->
     exists g,
       map_marc8_field marc8_to_unicode f = Ok g
       /\ m_subfields g = Some (SubfieldMap (mkMap marc8_to_unicode l))
       /\ (forall l', m_subfields g <> Some (SubfieldList l'))
       /\ len_subfields (SubfieldMap (mkMap marc8_to_unicode l)) = Raise TypeError
       /\ list_subfields (SubfieldMap (mkMap marc8_to_unicode l))
          = map marc8_to_unicode l
       /\ codes_of (list_subfields (SubfieldMap (mkMap marc8_to_unicode l)))
          = map marc8_to_unicode (codes_of l)
       /\ m_tag g = tag f /\ m_data g = data f
       /\ m_indicators g = indicators f
       /\ m_indicator1 g = indicator1 f /\ m_indicator2 g = indicator2 f
       /\ m_pos g = __pos f)
  /\ (is_control_field f = true ->
      forall d, data f = Some d ->
        map_marc8_field marc8_to_unicode f
        = Ok (mkMapped (tag f) (Some (marc8_to_unicode d)) (indicators f)
                       (indicator1 f) (indicator2 f)
                       (option_map SubfieldList (subfields f)) (__pos f))).
Proof.
  split.
  - intros Hc l Hs. eexists. split; [apply (map_marc8_data marc8_to_unicode f l Hc Hs)|].
    cbn [m_subfields m_tag m_data m_indicators m_indicator1 m_indicator2 m_pos].
    split; [reflexivity|]. split; [intros l'; discriminate|].
    split; [reflexivity|]. split; [reflexivity|].
    split; [apply codes_of_map|]. repeat split.
  - intros Hc d Hd. apply (map_marc8_control marc8_to_unicode f d Hc Hd).
Qed.

Lemma map_marc8_field_leaves_map_object_witness :
  exists g,
    map_marc8_field (fun s : text => s) Examples.f_title = Ok g
    /\ m_subfields g
       = Some (SubfieldMap (mkMap (fun s : text => s) ["a"; "Foo"; "b"; "Bar"]))
    /\ len_subfields (SubfieldMap (mkMap (fun s : text => s) ["a"; "Foo"; "b"; "Bar"]))
       = Raise TypeError.
Proof.
  destruct (map_marc8_field_leaves_map_object (fun s : text => s) Examples.f_title)
    as (Hdata & _).
  destruct (Hdata eq_refl ["a"; "Foo"; "b"; "Bar"] eq_refl)
    as (g & Hg & Hsub & _ & Hlen & _).
  exists g. split; [exact Hg|]. split; [exact Hsub|exact Hlen].
Defined.

(** ** sort *)

Section SortClaims.

Lemma pairs_flatten {A} (ps : list (A * A)) : pairs (flatten ps) = ps.
Proof.
  induction ps as [|[c v] ps IH]; [reflexivity|].
  change (flatten ((c, v) :: ps)) with (c :: v :: flatten ps).
  simpl. rewrite IH. reflexivity.
Qed.

(** What [sort] does with the key it is given: the key is applied to the
    (code, value) tuples; the subfields are permuted, neighbours are in the
    order of their keys, and the subfields whose keys are equal keep their
    order. *)
Lemma sort_by_tuple_key {V K : Type} `{PyValue V} `{PyOrd K} (key : V * V -> K)
    (self : Field V) (l : list V) :
  (forall a b : K, py_lt a b = true -> py_lt b a = false) ->
  subfields self = Some l ->
  exists l',
    sort key self = (Ok tt, set_subfields l' self)
    /\ Permutation (pairs l') (pairs l)
    /\ Sorted (key_le key) (pairs l')
    /\ forall same : K -> bool,
         (forall a b, same a = true -> same b = true -> py_lt a b = false) ->
         filter (fun p => same (key p)) (pairs l')
         = filter (fun p => same (key p)) (pairs l).
Proof.
  intros Hasym Hs. exists (flatten (sorted key (pairs l))).
  split; [apply sort_spec; exact Hs|].
  rewrite pairs_flatten.
  split; [apply sorted_Permutation|].
  split; [apply sorted_Sorted; exact Hasym|].
  intros same Hsame. apply sorted_stable. exact Hsame.
Qed.

Lemma compare_refl (s : string) : String.compare s s = Eq.
Proof.
  pose proof (String.compare_antisym s s) as Ha.
  destruct (String.compare s s); simpl in Ha; congruence.
Qed.

Lemma ltb_irrefl (s : string) : String.ltb s s = false.
Proof. unfold String.ltb. rewrite compare_refl. reflexivity. Qed.

Lemma ltb_asym (a b : string) : String.ltb a b = true -> String.ltb b a = false.
Proof.
  unfold String.ltb. rewrite (String.compare_antisym a b).
  destruct (String.compare b a); simpl; congruence.
Qed.

Lemma tuple_lt_asym (p q : text * text) : py_lt p q = true -> py_lt q p = false.
Proof.
  destruct p as [c1 v1], q as [c2 v2]. simpl.
  rewrite (String.eqb_sym c2 c1).
  destruct (String.eqb c1 c2); apply ltb_asym.
Qed.

Lemma compare_lt_trans (a b c : string) :
  String.compare a b = Lt -> String.compare b c = Lt -> String.compare a c = Lt.
Proof.
  intros Hab Hbc. apply String_as_OT.cmp_lt.
  apply (String_as_OT.lt_trans a b c); apply String_as_OT.cmp_lt; assumption.
Qed.

Lemma ltb_total (a b : string) :
  String.ltb a b = false -> String.ltb b a = false -> a = b.
Proof.
  unfold String.ltb. rewrite (String.compare_antisym b a).
  destruct (String.compare a b) eqn:Hab; simpl; try discriminate.
  intros _ _. apply String.compare_eq_iff, Hab.
Qed.

Lemma ltb_neg_trans (a b c : string) :
  String.ltb a b = false -> String.ltb b c = false -> String.ltb a c = false.
Proof.
  intros Hab Hbc. destruct (String.ltb a c) eqn:Hac; [|reflexivity].
  unfold String.ltb in *.
  destruct (String.compare a c) eqn:Cac; try discriminate Hac.
  destruct (String.compare a b) eqn:Cab; try discriminate Hab.
  - apply String.compare_eq_iff in Cab. subst b. rewrite Cac in Hbc. discriminate Hbc.
  - assert (Cba : String.compare b a = Lt)
      by (rewrite String.compare_antisym, Cab; reflexivity).
    rewrite (compare_lt_trans b a c Cba Cac) in Hbc. discriminate Hbc.
Qed.

(** The order of texts and the order of tuples of texts are strict weak
    orders. *)
Lemma text_strict_weak_order : strict_weak_order text.
Proof. split; [exact ltb_asym|exact ltb_neg_trans]. Qed.

Lemma tuple_strict_weak_order : strict_weak_order (text * text).
Proof.
  split; [exact tuple_lt_asym|].
  intros [c1 v1] [c2 v2] [c3 v3]. cbn [py_lt PyOrd_pair PyOrd_text PyValue_text py_eqb
                                        fst snd].
  destruct (String.eqb_spec c1 c2) as [->|H12];
    destruct (String.eqb_spec c2 c3) as [->|H23].
  - apply ltb_neg_trans.
  - intros _ Hc. exact Hc.
  - intros Hc _. destruct (String.eqb_spec c1 c3); [contradiction|exact Hc].
  - intros Hc1 Hc2. destruct (String.eqb_spec c1 c3) as [->|H13].
    + elim H12. apply ltb_total; assumption.
    + exact (ltb_neg_trans c1 c2 c3 Hc1 Hc2).
Qed.

(** With the default key the tuples are compared whole, so that the codes
    come out in order. *)
Lemma default_key_codes (ps : list (text * text)) :
  Sorted (key_le Examples.default_key) ps ->
  Sorted (fun c1 c2 : text => String.ltb c2 c1 = false) (map fst ps).
Proof.
  assert (Hle : forall p q : text * text,
             key_le Examples.default_key p q -> String.ltb (fst q) (fst p) = false).
  { intros [c1 v1] [c2 v2]. unfold key_le, Examples.default_key. simpl.
    destruct (String.eqb c2 c1) eqn:Heq; [|tauto].
    apply String.eqb_eq in Heq. subst c2. intros _. apply ltb_irrefl. }
  induction ps as [|p ps IH]; intros Hs; simpl; [constructor|].
  inversion Hs as [|? ? Hps Hhd]; subst.
  constructor; [apply IH; exact Hps|].
  destruct ps as [|q ps]; simpl; constructor.
  inversion Hhd; subst. apply Hle. assumption.
Qed.

Lemma sort_default_codes (self : Field text) (l : list text) :
  subfields self = Some l ->
  exists l',
    sort Examples.default_key self = (Ok tt, set_subfields l' self)
    /\ Permutation (pairs l') (pairs l)
    /\ Sorted (fun c1 c2 : text => String.ltb c2 c1 = false) (codes_of l').
Proof.
  intros Hs.
  destruct (sort_by_tuple_key Examples.default_key self l tuple_lt_asym Hs)
    as (l' & Hsort & Hperm & Hsorted & _).
  exists l'. split; [exact Hsort|]. split; [exact Hperm|].
  apply default_key_codes. exact Hsorted.
Qed.

End SortClaims.

(** C2, where the code departs from the claim.  [sort] hands the (code,
    value) tuples, not the codes, to the key, and its default key returns the
    tuple as it is.  On the field with the subfields a="2" and a="1", which
    share their code, [sort()] compares the whole tuples and returns with
    a="1" in front of a="2": the two subfields have changed places, and the
    values that [get_subfields("a")] returns, "2" then "1" before the call,
    are "1" then "2" after it. *)
Theorem sort_reorders_equal_codes :
  sort Examples.default_key Examples.f_same_code
  = (Ok tt, Examples.data_field ["a"; "1"; "a"; "2"])
  /\ fst (get_subfields ["a"] Examples.f_same_code) = Ok ["2"; "1"]
  /\ fst (get_subfields ["a"] (Examples.data_field ["a"; "1"; "a"; "2"]))
     = Ok ["1"; "2"].
Proof. repeat split. Qed.

(** * Further properties of the module *)

(** ** Queries on a data field *)

Section MoreQueryFacts.
Context {V : Type} `{PyValue V}.

Lemma requested_none (p : V * V) : requested [] p = true.
Proof. reflexivity. Qed.

Lemma filter_all {A} (l : list A) : filter (fun _ => true) l = l.
Proof. induction l as [|x l IH]; simpl; congruence. Qed.

Lemma get_subfields_single (code : V) (self : Field V) (l : list V) :
  subfields self = Some l -> even_length l ->
  get_subfields [code] self = (Ok (values_of code l), set_pos (length l) self).
Proof.
  intros Hs E. rewrite (get_subfields_spec [code] self l Hs E).
  unfold values_of. do 3 f_equal. apply filter_ext. intros p. apply requested_single.
Qed.

Lemma getitem_spec (code : V) (self : Field V) (l : list V) :
  subfields self = Some l -> even_length l ->
  __getitem__ code self = (Ok (hd_error (values_of code l)), set_pos (length l) self).
Proof.
  intros Hs E. unfold __getitem__, bind at 1.
  rewrite (get_subfields_single code self l Hs E).
  destruct (values_of code l) as [|x vs]; reflexivity.
Qed.

Lemma length_values_of (code : V) (l : list V) :
  length (values_of code l) = count_code code l.
Proof. unfold values_of, count_code. apply length_map. Qed.

Lemma values_of_app (code : V) (l1 l2 : list V) :
  even_length l1 ->
  values_of code (l1 ++ l2) = values_of code l1 ++ values_of code l2.
Proof.
  intros E. unfold values_of. rewrite pairs_app, filter_app, map_app by exact E.
  reflexivity.
Qed.

Lemma values_of_cons (code c v : V) (t : list V) :
  values_of code (c :: v :: t)
  = (if py_eqb c code then [v] else []) ++ values_of code t.
Proof.
  unfold values_of. simpl. unfold has_code at 1. simpl.
  destruct (py_eqb c code); reflexivity.
Qed.

End MoreQueryFacts.

(** X1.  On a data field whose list has even length, [get_subfields] without
    a code returns the values of all subfields in the order of the field, and
    with codes it returns the values of exactly the subfields whose code is one
    of them, in the order of the field and not of the codes given. *)
Theorem get_subfields_in_field_order {V : Type} `{PyValue V} (self : Field V)
    (l : list V) :
  subfields self = Some l -> even_length l ->
  fst (get_subfields [] self) = Ok (map snd (pairs l))
  /\ (forall codes,
        codes <> [] ->
        fst (get_subfields codes self)
        = Ok (map snd (filter (fun p => existsb (py_eqb (fst p)) codes) (pairs l))))
  /\ (forall c1 c2,
        fst (get_subfields [c1; c2] self) = fst (get_subfields [c2; c1] self)).
Proof.
  intros Hs E. split; [|split].
  - rewrite (get_subfields_spec [] self l Hs E). simpl fst.
    rewrite (filter_ext (requested []) (fun _ => true) requested_none), filter_all.
    reflexivity.
  - intros codes Hne. rewrite (get_subfields_spec codes self l Hs E). simpl fst.
    do 2 f_equal. apply filter_ext. intros p. unfold requested.
    destruct codes; [congruence|]. apply orb_false_r.
  - intros c1 c2.
    rewrite (get_subfields_spec [c1; c2] self l Hs E),
            (get_subfields_spec [c2; c1] self l Hs E).
    simpl fst. do 2 f_equal. apply filter_ext. intros p. unfold requested. simpl.
    rewrite !orb_false_r. apply orb_comm.
Qed.

Lemma get_subfields_in_field_order_witness :
  fst (get_subfields [] Examples.f_three) = Ok ["1"; "2"; "3"]
  /\ fst (get_subfields ["b"; "a"] Examples.f_three) = Ok ["1"; "2"; "3"].
Proof.
  destruct (get_subfields_in_field_order Examples.f_three
              ["a"; "1"; "b"; "2"; "a"; "3"] eq_refl eq_refl) as (Hall & _ & Hswap).
  split; [exact Hall|]. exact (eq_trans (Hswap "b" "a") eq_refl).
Defined.

(** X2.  On a data field whose list has even length the queries by one code
    agree: [get_subfields(code)] has as many values as [count(code)] says,
    [code in field] is true exactly when that number is not 0, the item-style
    read returns the first of those values, and it returns [None] exactly
    when no subfield has the code. *)
Theorem queries_by_code_agree {V : Type} `{PyValue V} (code : V) (self : Field V)
    (l : list V) :
  subfields self = Some l -> even_length l ->
  exists vals n,
    fst (get_subfields [code] self) = Ok vals
    /\ fst (count code self) = Ok n
    /\ length vals = n
    /\ fst (__contains__ code self) = Ok (negb (n =? 0))
    /\ fst (__getitem__ code self) = Ok (hd_error vals)
    /\ (fst (__getitem__ code self) = Ok None <-> n = 0).
Proof.
  intros Hs E. exists (values_of code l), (count_code code l).
  rewrite (get_subfields_single code self l Hs E), (count_spec code self l Hs E),
          (contains_spec code self l Hs E), (getitem_spec code self l Hs E).
  simpl fst. rewrite <- length_values_of.
  split; [reflexivity|]. split; [reflexivity|]. split; [reflexivity|].
  split; [destruct (values_of code l); reflexivity|]. split; [reflexivity|].
  destruct (values_of code l); simpl; split; congruence.
Qed.

Lemma queries_by_code_agree_witness :
  exists vals n,
    fst (get_subfields ["a"] Examples.f_three) = Ok vals
    /\ fst (count "a" Examples.f_three) = Ok n
    /\ length vals = n
    /\ fst (__contains__ "a" Examples.f_three) = Ok (negb (n =? 0))
    /\ fst (__getitem__ "a" Examples.f_three) = Ok (hd_error vals)
    /\ (fst (__getitem__ "a" Examples.f_three) = Ok None <-> n = 0).
Proof.
  exact (queries_by_code_agree "a" Examples.f_three
           ["a"; "1"; "b"; "2"; "a"; "3"] eq_refl eq_refl).
Defined.

(** ** Adding, writing and deleting, seen through the queries *)

Section MoreMutationFacts.
Context {V : Type} `{PyValue V}.

Lemma values_of_none (code : V) (l : list V) :
  count_code code l = 0 -> values_of code l = [].
Proof.
  rewrite <- length_values_of. destruct (values_of code l); [reflexivity|discriminate].
Qed.

Lemma values_of_other (code c v0 value : V) (pre post : list V) :
  even_length pre -> py_eqb c code = false ->
  values_of c (pre ++ code :: value :: post) = values_of c (pre ++ code :: v0 :: post).
Proof.
  intros Ep Hc. rewrite !values_of_app, !values_of_cons by exact Ep.
  rewrite (py_eqb_sym code c), Hc. reflexivity.
Qed.

Lemma remove_first_app (test : V * V -> bool) (l1 l2 : list V) :
  even_length l1 ->
  remove_first test (l1 ++ l2)
  = match remove_first test l1 with
    | Some (x, l1') => Some (x, l1' ++ l2)
    | None => match remove_first test l2 with
              | Some (x, l2') => Some (x, l1 ++ l2')
              | None => None
              end
    end.
Proof.
  induction l1 as [| x | c v t IH] using pair_induction; intros E.
  - simpl. destruct (remove_first test l2) as [[x l2']|]; reflexivity.
  - destruct (even_length_single _ E).
  - apply even_length_cons2 in E. simpl. destruct (test (c, v)); [reflexivity|].
    rewrite (IH E).
    destruct (remove_first test t) as [[x t']|]; [reflexivity|].
    destruct (remove_first test l2) as [[x l2']|]; reflexivity.
Qed.

Lemma remove_first_none_iff (test : V * V -> bool) (l : list V) :
  (forall p, In p (pairs l) -> test p = false) -> remove_first test l = None.
Proof.
  induction l as [| x | c v t IH] using pair_induction; intros Hall; try reflexivity.
  simpl. rewrite (Hall (c, v)) by (left; reflexivity).
  rewrite IH; [reflexivity|]. intros p Hin. apply Hall. right. exact Hin.
Qed.

End MoreMutationFacts.

(** X3.  After [add_subfield(code, value)] on a data field whose list has
    even length, the values under [code] are the old ones followed by
    [value], the values under every other code are as before, and if no
    subfield had the code the item-style read returns [value]. *)
Theorem add_subfield_then_query {V : Type} `{PyValue V} (code value : V)
    (self : Field V) (l : list V) :
  subfields self = Some l -> even_length l ->
  fst (add_subfield code value self) = Ok tt
  /\ (forall c,
        fst (get_subfields [c] (snd (add_subfield code value self)))
        = Ok (values_of c l ++ (if py_eqb code c then [value] else [])))
  /\ (count_code code l = 0 ->
      fst (__getitem__ code (snd (add_subfield code value self))) = Ok (Some value)).
Proof.
  intros Hs E. rewrite (add_subfield_spec code value self l Hs). simpl fst. simpl snd.
  assert (E' : even_length (l ++ [code; value]))
    by (apply even_length_app; [exact E|reflexivity]).
  split; [reflexivity|]. split.
  - intros c.
    erewrite (get_subfields_single c); [|reflexivity|exact E'].
    simpl fst. rewrite values_of_app, values_of_cons by exact E.
    rewrite app_nil_r. reflexivity.
  - intros Hz. erewrite (getitem_spec code); [|reflexivity|exact E'].
    simpl fst. rewrite values_of_app, values_of_cons by exact E.
    rewrite (values_of_none code l Hz), py_eqb_refl. reflexivity.
Qed.

Lemma add_subfield_then_query_witness :
  fst (get_subfields ["a"] (snd (add_subfield "a" "4" Examples.f_three)))
  = Ok ["1"; "3"; "4"]
  /\ fst (__getitem__ "u" (snd (add_subfield "u" "http://www.loc.gov" Examples.f_three)))
     = Ok (Some "http://www.loc.gov").
Proof.
  destruct (add_subfield_then_query "a" "4" Examples.f_three
              ["a"; "1"; "b"; "2"; "a"; "3"] eq_refl eq_refl) as (_ & Hq & _).
  destruct (add_subfield_then_query "u" "http://www.loc.gov" Examples.f_three
              ["a"; "1"; "b"; "2"; "a"; "3"] eq_refl eq_refl) as (_ & _ & Hg).
  split; [exact (Hq "a")|]. apply Hg. reflexivity.
Defined.

(** X4.  On a data field whose list has even length and holds at most one
    subfield with [code], the write [field[code] = value] returns; afterwards
    the read [field[code]] returns [value], exactly one subfield has the code,
    and the values under every other code are as before. *)
Theorem setitem_then_getitem {V : Type} `{PyValue V} (show : V -> string)
    (code value : V) (self : Field V) (l : list V) :
  subfields self = Some l -> even_length l -> count_code code l <= 1 ->
  fst (__setitem__ show code value self) = Ok tt
  /\ fst (__getitem__ code (snd (__setitem__ show code value self))) = Ok (Some value)
  /\ fst (count code (snd (__setitem__ show code value self))) = Ok 1
  /\ (forall c, py_eqb c code = false ->
        fst (get_subfields [c] (snd (__setitem__ show code value self)))
        = Ok (values_of c l)).
Proof.
  intros Hs E Hle.
  destruct (count_code code l) as [|[|n]] eqn:Hn; [| |lia].
  - rewrite (setitem_spec show code value self l Hs E), Hn. simpl fst. simpl snd.
    assert (E' : even_length (l ++ [code; value]))
      by (apply even_length_app; [exact E|reflexivity]).
    split; [reflexivity|].
    erewrite (getitem_spec code); [|reflexivity|exact E'].
    erewrite (count_spec code); [|reflexivity|exact E'].
    simpl fst. rewrite values_of_app, values_of_cons, count_code_app, count_code_cons
      by exact E.
    rewrite (values_of_none code l Hn), Hn, py_eqb_refl.
    split; [reflexivity|]. split; [reflexivity|].
    intros c Hc. erewrite (get_subfields_single c); [|reflexivity|exact E'].
    simpl fst. rewrite values_of_app, values_of_cons by exact E.
    rewrite (py_eqb_sym code c), Hc, !app_nil_r. reflexivity.
  - destruct (count_one_split code l E Hn)
      as (pre & v0 & post & Hl & Ep & Eq & Hp & Hq). subst l.
    rewrite (setitem_one show code value v0 pre post self Hs Ep Eq Hp Hq).
    simpl fst. simpl snd.
    assert (E' : even_length (pre ++ code :: value :: post)).
    { apply even_length_app; [exact Ep|]. apply even_length_cons2. exact Eq. }
    split; [reflexivity|].
    erewrite (getitem_spec code); [|reflexivity|exact E'].
    erewrite (count_spec code); [|reflexivity|exact E'].
    simpl fst. rewrite values_of_app, values_of_cons, count_code_app, count_code_cons
      by exact Ep.
    rewrite (values_of_none code pre Hp), (values_of_none code post Hq), Hp, Hq,
            py_eqb_refl.
    split; [reflexivity|]. split; [reflexivity|].
    intros c Hc.
    erewrite (get_subfields_single c); [|reflexivity|exact E'].
    simpl fst. apply f_equal. apply values_of_other; assumption.
Qed.

Lemma setitem_then_getitem_witness :
  fst (__getitem__ "b"
         (snd (__setitem__ (fun c : text => c) "b" "new" Examples.f_three)))
  = Ok (Some "new")
  /\ fst (get_subfields ["a"]
            (snd (__setitem__ (fun c : text => c) "b" "new" Examples.f_three)))
     = Ok ["1"; "3"].
Proof.
  assert (Hle : count_code "b" ["a"; "1"; "b"; "2"; "a"; "3"] <= 1)
    by (vm_compute; lia).
  destruct (setitem_then_getitem (fun c : text => c) "b" "new" Examples.f_three
              ["a"; "1"; "b"; "2"; "a"; "3"] eq_refl eq_refl Hle)
    as (_ & Hget & _ & Hother).
  split; [exact Hget|]. exact (Hother "a" eq_refl).
Defined.

(** X5.  On a data field whose list has even length, [delete_subfield]
    returns [None] and leaves the field as it is when no subfield has the
    code (and the value asked for); otherwise it removes the first such
    subfield and nothing else, and returns the value of that subfield. *)
Theorem delete_subfield_first_match {V : Type} `{PyValue V} (code : V)
    (match_value : option V) (self : Field V) (l : list V) :
  subfields self = Some l -> even_length l ->
  ((forall p, In p (pairs l) -> delete_test code match_value p = false) ->
   delete_subfield code match_value self = (Ok None, self))
  /\ (forall pre v post,
        l = pre ++ code :: v :: post -> even_length pre ->
        (forall p, In p (pairs pre) -> delete_test code match_value p = false) ->
        delete_test code match_value (code, v) = true ->
        delete_subfield code match_value self
        = (Ok (Some v), set_subfields (pre ++ post) self)).
Proof.
  intros Hs E. rewrite (delete_subfield_spec code match_value self l Hs E).
  split.
  - intros Hall. rewrite (remove_first_none_iff _ l Hall). reflexivity.
  - intros pre v post -> Ep Hpre Hv.
    rewrite (remove_first_app _ pre (code :: v :: post) Ep).
    rewrite (remove_first_none_iff _ pre Hpre).
    simpl. rewrite Hv. reflexivity.
Qed.

Lemma delete_subfield_first_match_witness :
  delete_subfield "a" (Some "3") Examples.f_three
  = (Ok (Some "3"), Examples.data_field ["a"; "1"; "b"; "2"])
  /\ delete_subfield "z" None Examples.f_three = (Ok None, Examples.f_three).
Proof.
  destruct (delete_subfield_first_match "a" (Some "3") Examples.f_three
              ["a"; "1"; "b"; "2"; "a"; "3"] eq_refl eq_refl) as (_ & Hhit).
  destruct (delete_subfield_first_match "z" None Examples.f_three
              ["a"; "1"; "b"; "2"; "a"; "3"] eq_refl eq_refl) as (Hmiss & _).
  split.
  - apply (Hhit ["a"; "1"; "b"; "2"] "3" [] eq_refl eq_refl); [|reflexivity].
    intros p [<-|[<-|[]]]; reflexivity.
  - apply Hmiss. intros p [<-|[<-|[<-|[]]]]; reflexivity.
Defined.

(** X6.  [add_subfield(code, value)] followed by
    [delete_subfield(code, value)] on a data field whose list has even length
    returns [value] and leaves as many subfields under every code as there
    were; the list is exactly the one before the two calls when it held no
    subfield with that code and that value. *)
Theorem add_then_delete_subfield {V : Type} `{PyValue V} (code value : V)
    (self : Field V) (l : list V) :
  subfields self = Some l -> even_length l ->
  exists l',
    (add_subfield code value;;; delete_subfield code (Some value)) self
    = (Ok (Some value), set_subfields l' self)
    /\ length l' = length l
    /\ (forall c, count_code c l' = count_code c l)
    /\ ((forall p, In p (pairs l) -> delete_test code (Some value) p = false) ->
        l' = l).
Proof.
  intros Hs E. unfold bind at 1. rewrite (add_subfield_spec code value self l Hs).
  assert (E' : even_length (l ++ [code; value]))
    by (apply even_length_app; [exact E|reflexivity]).
  erewrite (delete_subfield_spec code (Some value)); [|reflexivity|exact E'].
  rewrite (remove_first_app _ l [code; value] E).
  assert (Hlast : delete_test code (Some value) (code, value) = true).
  { unfold delete_test. simpl. rewrite !py_eqb_refl. reflexivity. }
  destruct (remove_first (delete_test code (Some value)) l) as [[x l1]|] eqn:Hr.
  - destruct (remove_first_split _ l x l1 Hr)
      as (pre & c0 & post & Hl & Hl1 & Ep & Hc0 & Hpre).
    unfold delete_test in Hc0. simpl in Hc0. apply andb_true_iff in Hc0.
    destruct Hc0 as [Hc Hx]. apply py_eqb_eq in Hc, Hx. subst c0 x l l1.
    exists ((pre ++ post) ++ [code; value]).
    split; [reflexivity|]. split; [rewrite !length_app; simpl; lia|]. split.
    + assert (Eq : even_length post).
      { unfold even_length in *. rewrite length_app in E. simpl in E.
        rewrite Nat.even_add, Ep in E. simpl in E.
        destruct (Nat.even (length post)); [reflexivity|discriminate]. }
      intros c.
      rewrite (count_code_app c (pre ++ post) [code; value])
        by (apply even_length_app; assumption).
      rewrite !(count_code_app c pre) by exact Ep.
      rewrite !count_code_cons. unfold count_code at 3. simpl. lia.
    + intros Hall. rewrite (remove_first_none_iff _ _ Hall) in Hr. discriminate.
  - simpl. rewrite Hlast. exists l. rewrite app_nil_r.
    split; [reflexivity|]. repeat split.
Qed.

Lemma add_then_delete_subfield_witness :
  exists l',
    (add_subfield "c" "9";;; delete_subfield "c" (Some "9")) Examples.f_three
    = (Ok (Some "9"), set_subfields l' Examples.f_three)
    /\ length l' = 6.
Proof.
  destruct (add_then_delete_subfield "c" "9" Examples.f_three
              ["a"; "1"; "b"; "2"; "a"; "3"] eq_refl eq_refl)
    as (l' & Hrun & Hlen & _).
  exists l'. split; [exact Hrun|exact Hlen].
Defined.

(** X7.  On a control field, which has no subfield list, every operation
    that changes subfields raises [AttributeError] for [subfields] and the
    field still has no subfield list: [add_subfield], [delete_subfield],
    [delete_all_subfields], [change_code], [sort], and the item-style write,
    which finds no subfield with the code and so tries to add one. *)
Theorem control_field_mutations_raise {V : Type} `{PyValue V} (self : Field V) :
  subfields self = None ->
  (forall code value,
     add_subfield code value self = (Raise (AttributeError "subfields"), self))
  /\ (forall code match_value,
        delete_subfield code match_value self
        = (Raise (AttributeError "subfields"), self))
  /\ (forall code,
        delete_all_subfields code self = (Raise (AttributeError "subfields"), self))
  /\ (forall from_code to_code,
        change_code from_code to_code self
        = (Raise (AttributeError "subfields"), self))
  /\ (forall (K : Type) (ord : PyOrd K) (key : V * V -> K),
        sort key self = (Raise (AttributeError "subfields"), self))
  /\ (forall show code value,
        __setitem__ show code value self
        = (Raise (AttributeError "subfields"), set_pos 0 self)).
Proof.
  intros Hs.
  assert (Hadd : forall (code value : V) (s : Field V), subfields s = None ->
            add_subfield code value s = (Raise (AttributeError "subfields"), s)).
  { intros code value s Hn. unfold add_subfield, bind, attr. rewrite Hn. reflexivity. }
  assert (Hdel : forall (code : V) (mv : option V),
            delete_subfield code mv self = (Raise (AttributeError "subfields"), self)).
  { intros code mv. unfold delete_subfield, bind, attr. rewrite Hs. reflexivity. }
  split; [intros code value; apply Hadd; exact Hs|].
  split; [exact Hdel|].
  split.
  { intros code. unfold delete_all_subfields, bind at 1, get, iter_fuel.
    rewrite Hs. simpl delete_all_loop. unfold bind. rewrite Hdel. reflexivity. }
  split.
  { intros from_code to_code. unfold change_code, bind, attr. rewrite Hs. reflexivity. }
  split.
  { intros K ord key. unfold sort, bind, attr. rewrite Hs. reflexivity. }
  intros show code value. unfold __setitem__, bind at 1.
  rewrite (get_subfields_control [code] self Hs). simpl.
  apply Hadd. destruct self; exact Hs.
Qed.

Lemma control_field_mutations_raise_witness :
  add_subfield "a" "x" Examples.f_control
  = (Raise (AttributeError "subfields"), Examples.f_control)
  /\ fst (__setitem__ (fun c : text => c) "a" "x" Examples.f_control)
     = Raise (AttributeError "subfields").
Proof.
  destruct (control_field_mutations_raise Examples.f_control eq_refl)
    as (Hadd & _ & _ & _ & _ & Hset).
  split; [apply Hadd|]. rewrite Hset. reflexivity.
Defined.

(** ** change_code and sort, seen through the queries *)

Section RecodeFacts.
Context {V : Type} `{PyValue V}.
Variables from_code to_code : V.

Abbreviation R := (recode_pair from_code to_code).

Lemma py_eqb_neq (a b : V) : a <> b -> py_eqb a b = false.
Proof.
  intros Hne. destruct (py_eqb a b) eqn:Hab; [|reflexivity].
  apply py_eqb_eq in Hab. contradiction.
Qed.

Lemma recode_values (ps : list (V * V)) : map snd (map R ps) = map snd ps.
Proof. rewrite map_map. reflexivity. Qed.

Lemma has_code_recode (c : V) (p : V * V) :
  has_code c (R p)
  = if has_code from_code p then py_eqb to_code c else has_code c p.
Proof.
  unfold has_code, recode_pair. simpl.
  destruct (py_eqb (fst p) from_code); reflexivity.
Qed.

Lemma has_code_other (c : V) (p : V * V) :
  has_code from_code p = true -> c <> from_code -> has_code c p = false.
Proof.
  unfold has_code. intros Hp Hne. apply py_eqb_eq in Hp. rewrite Hp.
  apply py_eqb_neq. congruence.
Qed.

Lemma recode_count_from (ps : list (V * V)) :
  from_code <> to_code -> length (filter (has_code from_code) (map R ps)) = 0.
Proof.
  intros Hne. induction ps as [|p ps IH]; [reflexivity|].
  simpl. rewrite has_code_recode.
  destruct (has_code from_code p) eqn:Hp.
  - rewrite (py_eqb_neq to_code from_code) by congruence. exact IH.
  - exact IH.
Qed.

Lemma recode_count_to (ps : list (V * V)) :
  from_code <> to_code ->
  length (filter (has_code to_code) (map R ps))
  = length (filter (has_code from_code) ps) + length (filter (has_code to_code) ps).
Proof.
  intros Hne. induction ps as [|p ps IH]; [reflexivity|].
  simpl. rewrite has_code_recode.
  destruct (has_code from_code p) eqn:Hp.
  - rewrite py_eqb_refl, (has_code_other to_code p Hp) by congruence.
    simpl. rewrite IH. reflexivity.
  - destruct (has_code to_code p); simpl; rewrite IH; lia.
Qed.

Lemma recode_other (c : V) (ps : list (V * V)) :
  c <> from_code -> c <> to_code ->
  map snd (filter (has_code c) (map R ps)) = map snd (filter (has_code c) ps).
Proof.
  intros Hf Ht. induction ps as [|p ps IH]; [reflexivity|].
  simpl. rewrite has_code_recode.
  destruct (has_code from_code p) eqn:Hp.
  - rewrite (py_eqb_neq to_code c), (has_code_other c p Hp) by congruence.
    exact IH.
  - destruct (has_code c p); simpl; rewrite IH; reflexivity.
Qed.

Lemma recode_same (ps : list (V * V)) : from_code = to_code -> map R ps = ps.
Proof.
  intros Heq. induction ps as [|[c v] ps IH]; [reflexivity|]. simpl. rewrite IH.
  unfold recode_pair. simpl. destruct (py_eqb c from_code) eqn:Hc; [|reflexivity].
  apply py_eqb_eq in Hc. congruence.
Qed.

End RecodeFacts.

(** X8.  [change_code(from_code, to_code)] on a data field whose list has
    even length returns; every subfield keeps its place and its value, a code
    equal to [from_code] becomes [to_code] and every other code stays.  If
    the two codes differ, no subfield has [from_code] afterwards and [to_code]
    has the subfields of both; if they are the same code the list is
    unchanged. *)
Theorem change_code_effect {V : Type} `{PyValue V} (from_code to_code : V)
    (self : Field V) (l : list V) :
  subfields self = Some l -> even_length l ->
  exists l',
    change_code from_code to_code self = (Ok tt, set_subfields l' self)
    /\ even_length l'
    /\ pairs l' = recode from_code to_code l
    /\ map snd (pairs l') = map snd (pairs l)
    /\ (from_code <> to_code ->
        count_code from_code l' = 0
        /\ count_code to_code l' = count_code from_code l + count_code to_code l)
    /\ (forall c, c <> from_code -> c <> to_code -> values_of c l' = values_of c l)
    /\ (from_code = to_code -> l' = l).
Proof.
  intros Hs E. rewrite (change_code_spec from_code to_code self l Hs).
  eexists. split; [reflexivity|].
  match goal with |- even_length ?x /\ _ => set (l' := x) end.
  assert (E' : even_length l').
  { unfold even_length, l'. rewrite length_enumerate_map. exact E. }
  assert (Hp : pairs l' = recode from_code to_code l).
  { apply (change_code_pairs from_code to_code l 0). reflexivity. }
  split; [exact E'|]. split; [exact Hp|].
  unfold count_code, values_of. rewrite Hp. unfold recode.
  split; [apply recode_values|]. split; [|split].
  - intros Hne. split; [apply recode_count_from|apply recode_count_to]; exact Hne.
  - intros c Hf Ht. apply recode_other; assumption.
  - intros Heq. rewrite <- (flatten_pairs l' E'), <- (flatten_pairs l E), Hp.
    unfold recode. rewrite recode_same by exact Heq. reflexivity.
Qed.

Lemma change_code_effect_witness :
  exists l',
    change_code "a" "z" Examples.f_three
    = (Ok tt, set_subfields l' Examples.f_three)
    /\ pairs l' = [("z", "1"); ("b", "2"); ("z", "3")].
Proof.
  destruct (change_code_effect "a" "z" Examples.f_three
              ["a"; "1"; "b"; "2"; "a"; "3"] eq_refl eq_refl)
    as (l' & Hrun & _ & Hp & _).
  exists l'. split; [exact Hrun|exact Hp].
Defined.

Section MoreSortFacts.
Context {A K : Type} `{PyOrd K}.
Variable key : A -> K.

Lemma sorted_fixpoint (l : list A) :
  Sorted (key_le key) l -> sorted key l = l.
Proof.
  induction l as [|x t IH]; intros Hs; [reflexivity|].
  inversion Hs as [|? ? Ht Hhd]; subst. simpl. rewrite (IH Ht).
  destruct t as [|y t]; [reflexivity|]. simpl.
  inversion Hhd as [|? ? Hxy]; subst. unfold key_le in Hxy. rewrite Hxy. reflexivity.
Qed.

(** The elements that pass a test keep their order when no two of them
    have keys that [<] tells apart. *)
Lemma insert_filter (P : A -> bool) (x : A) (l : list A) :
  (forall a b, P a = true -> P b = true -> py_lt (key a) (key b) = false) ->
  filter P (insert key x l) = filter P (x :: l).
Proof.
  intros HP. induction l as [|y t IH]; [reflexivity|].
  simpl insert. destruct (py_lt (key y) (key x)) eqn:Hyx; [|reflexivity].
  simpl filter in *. rewrite IH.
  destruct (P x) eqn:Hx, (P y) eqn:Hy; try reflexivity.
  rewrite (HP y x Hy Hx) in Hyx. discriminate.
Qed.

Lemma sorted_filter (P : A -> bool) (l : list A) :
  (forall a b, P a = true -> P b = true -> py_lt (key a) (key b) = false) ->
  filter P (sorted key l) = filter P l.
Proof.
  intros HP. induction l as [|x t IH]; [reflexivity|].
  simpl sorted. rewrite insert_filter by exact HP. simpl. rewrite IH. reflexivity.
Qed.

Lemma Permutation_filter_length (P : A -> bool) (l l' : list A) :
  Permutation l l' -> length (filter P l) = length (filter P l').
Proof.
  induction 1 as [| x l l' _ IH | x y l | l l' l'' _ IH1 _ IH2]; simpl.
  - reflexivity.
  - destruct (P x); simpl; congruence.
  - destruct (P x), (P y); reflexivity.
  - congruence.
Qed.

End MoreSortFacts.

(** X9.  [sort] returns on a data field with any subfield list and leaves a
    list of even length: the subfields are those of the list before, in
    another order, so that every code has as many subfields as before, and an
    unpaired last element of a list of odd length is dropped. *)
Theorem sort_keeps_subfields {V K : Type} `{PyValue V} `{PyOrd K}
    (key : V * V -> K) (self : Field V) (l : list V) :
  subfields self = Some l ->
  exists l',
    sort key self = (Ok tt, set_subfields l' self)
    /\ even_length l'
    /\ length l' = 2 * length (pairs l)
    /\ Permutation (pairs l') (pairs l)
    /\ (forall c, count_code c l' = count_code c l)
    /\ (even_length l -> Permutation l' l).
Proof.
  intros Hs. rewrite (sort_spec key self l Hs).
  exists (flatten (sorted key (pairs l))).
  split; [reflexivity|]. split; [apply even_length_flatten|].
  split; [rewrite length_flatten, length_sorted; reflexivity|].
  rewrite pairs_flatten.
  split; [apply sorted_Permutation|]. split.
  - intros c. unfold count_code. rewrite pairs_flatten.
    apply Permutation_filter_length, sorted_Permutation.
  - intros E. rewrite <- (flatten_pairs l E) at 2. unfold flatten.
    apply Permutation_flat_map, sorted_Permutation.
Qed.

Lemma sort_keeps_subfields_witness :
  exists l',
    sort Examples.default_key (Examples.data_field ["b"; "1"; "a"; "2"; "c"])
    = (Ok tt, set_subfields l' (Examples.data_field ["b"; "1"; "a"; "2"; "c"]))
    /\ length l' = 4.
Proof.
  destruct (sort_keeps_subfields Examples.default_key
              (Examples.data_field ["b"; "1"; "a"; "2"; "c"])
              ["b"; "1"; "a"; "2"; "c"] eq_refl) as (l' & Hrun & _ & Hlen & _).
  exists l'. split; [exact Hrun|exact Hlen].
Defined.

(** X10.  Sorting twice is sorting once: when [<] is a strict weak order on
    the keys, so that the result of Python's stable sort is the one ordered
    and stable arrangement of the list, a second [sort] with the same key
    leaves the list that the first one produced. *)
Theorem sort_idempotent {V K : Type} `{PyValue V} `{PyOrd K} (key : V * V -> K)
    (self : Field V) (l : list V) :
  strict_weak_order K ->
  subfields self = Some l ->
  (sort key;;; sort key) self = sort key self.
Proof.
  intros Hswo Hs. unfold bind at 1. rewrite (sort_spec key self l Hs).
  erewrite (sort_spec key); [|reflexivity].
  rewrite pairs_flatten,
    (sorted_fixpoint key _ (sorted_Sorted key (proj1 Hswo) (pairs l))).
  reflexivity.
Qed.

Lemma sort_idempotent_witness :
  (sort Examples.default_key;;; sort Examples.default_key) Examples.f_three
  = sort Examples.default_key Examples.f_three.
Proof.
  exact (sort_idempotent Examples.default_key Examples.f_three
           ["a"; "1"; "b"; "2"; "a"; "3"] tuple_strict_weak_order eq_refl).
Defined.

(** X11.  When the key handed to [sort] looks at the code of the tuple only,
    and [<] is a strict weak order on the keys, so that the result of
    Python's stable sort is the one ordered and stable arrangement of the
    list, the subfields that share a code keep their order:
    [get_subfields(code)] returns after the sort what it returned before,
    for every code. *)
Theorem sort_by_code_is_stable {V K : Type} `{PyValue V} `{PyOrd K} (k : V -> K)
    (self : Field V) (l : list V) :
  strict_weak_order K ->
  subfields self = Some l -> even_length l ->
  forall code,
    fst (get_subfields [code] (snd (sort (fun p => k (fst p)) self)))
    = fst (get_subfields [code] self).
Proof.
  intros Hswo Hs E code.
  assert (Hirr : forall a : K, py_lt a a = false) by (apply swo_irrefl; exact Hswo).
  rewrite (sort_spec _ self l Hs). simpl snd.
  erewrite (get_subfields_single code); [|reflexivity|apply even_length_flatten].
  rewrite (get_subfields_single code self l Hs E). simpl fst.
  unfold values_of. rewrite pairs_flatten, sorted_filter; [reflexivity|].
  intros a b Ha Hb. unfold has_code in Ha, Hb.
  apply py_eqb_eq in Ha, Hb. rewrite Ha, Hb. apply Hirr.
Qed.

Lemma sort_by_code_is_stable_witness :
  fst (get_subfields ["a"]
         (snd (sort (fun p : text * text => fst p) Examples.f_same_code)))
  = Ok ["2"; "1"].
Proof.
  exact (sort_by_code_is_stable (fun c : text => c) Examples.f_same_code
           ["a"; "2"; "a"; "1"] text_strict_weak_order eq_refl eq_refl "a").
Defined.

(** ** value and format_field *)

Section TextQueryFacts.

Lemma value_control (self : Field text) (d : text) :
  is_control_field self = true -> data self = Some d ->
  value self = (Ok d, self).
Proof.
  intros Hc Hd. unfold value, bind, get, attr. rewrite Hc, Hd. reflexivity.
Qed.

Lemma value_data (self : Field text) (l : list text) :
  is_control_field self = false -> subfields self = Some l -> even_length l ->
  value self
  = (Ok (String.concat " " (map strip (map snd (pairs l)))), set_pos (length l) self).
Proof.
  intros Hc Hs E. unfold value, bind at 1, get. rewrite Hc. unfold bind.
  rewrite (for_self_pure
             (fun (vl : list text) (sf : text * text) => vl ++ [strip (snd sf)])
             (fun (value_list : list text) (subfield : text * text) =>
                ret (value_list ++ [strip (snd subfield)]))
             (fun _ _ _ => eq_refl) l [] self Hs E).
  unfold ret. do 2 f_equal.
  rewrite (fold_left_select (fun _ => true) (fun sf : text * text => strip (snd sf))).
  rewrite filter_all, map_map. reflexivity.
Qed.

(** The loop of [format_field]: what one subfield adds to the text. *)
Lemma format_field_body (subject : bool) (fielddata : text) (subfield : text * text)
    (s : Field text) :
  is_subject_field s = subject ->
  (if String.eqb (fst subfield) "6" then ret fielddata
   else
     self' <- get;;
     if negb (is_subject_field self') then
       ret (fielddata ++ " " ++ snd subfield)%string
     else if negb (existsb (String.eqb (fst subfield)) ["v"; "x"; "y"; "z"]) then
       ret (fielddata ++ " " ++ snd subfield)%string
     else ret (fielddata ++ " -- " ++ snd subfield)%string) s
  = (Ok (format_step subject fielddata subfield), s).
Proof.
  intros <-. unfold format_step. destruct (String.eqb (fst subfield) "6"); [reflexivity|].
  unfold bind, get. destruct (is_subject_field s); [|reflexivity].
  simpl negb. cbv iota.
  destruct (existsb (String.eqb (fst subfield)) ["v"; "x"; "y"; "z"]); reflexivity.
Qed.

End TextQueryFacts.

(** ** Loops whose body reads the field *)

Section InvariantBody.
Context {V : Type} `{PyValue V} {A : Type}.
Variable Inv : Field V -> Prop.
Variable g : A -> V * V -> A.
Variable body : A -> V * V -> M (Field V) A.
Hypothesis Inv_set_pos : forall s p, Inv s -> Inv (set_pos p s).
Hypothesis body_inv : forall acc p s, Inv s -> body acc p s = (Ok (g acc p), s).

Lemma for_next_inv (rest : list V) :
  forall (pre : list V) (acc : A) (fuel : nat) (self : Field V),
    Inv self -> even_length rest -> length rest < fuel ->
    subfields self = Some (pre ++ rest) ->
    __pos self = Some (length pre) ->
    for_next fuel body acc self
    = (Ok (fold_left g (pairs rest) acc), set_pos (length (pre ++ rest)) self).
Proof.
  induction rest as [| x | c v t IH] using pair_induction;
    intros pre acc fuel self HI E Hfuel Hs Hp.
  - rewrite app_nil_r in *. destruct fuel as [|fuel]; [simpl in Hfuel; lia|].
    simpl. rewrite (next_end _ _ Hs Hp), (set_pos_same _ _ Hp). reflexivity.
  - destruct (even_length_single _ E).
  - apply even_length_cons2 in E.
    destruct fuel as [|fuel]; [simpl in Hfuel; lia|].
    simpl for_next. rewrite (next_pair _ _ _ _ _ Hs Hp).
    unfold bind. rewrite body_inv by (apply Inv_set_pos; exact HI).
    assert (Happ : pre ++ c :: v :: t = (pre ++ [c; v]) ++ t)
      by (rewrite <- app_assoc; reflexivity).
    rewrite (IH (pre ++ [c; v]) (g acc (c, v)) fuel (set_pos (length pre + 2) self)).
    + simpl. rewrite <- Happ. destruct self; reflexivity.
    + apply Inv_set_pos. exact HI.
    + exact E.
    + simpl in Hfuel. lia.
    + rewrite <- Happ. destruct self; exact Hs.
    + rewrite length_app. destruct self; reflexivity.
Qed.

Lemma for_self_inv (l : list V) (acc : A) (self : Field V) :
  Inv self -> subfields self = Some l -> even_length l ->
  for_self body acc self
  = (Ok (fold_left g (pairs l) acc), set_pos (length l) self).
Proof.
  intros HI Hs E. unfold for_self, bind, __iter__, get.
  rewrite (for_next_inv l [] acc (iter_fuel (set_pos 0 self)) (set_pos 0 self)).
  - destruct self; reflexivity.
  - apply Inv_set_pos. exact HI.
  - exact E.
  - unfold iter_fuel. destruct self; simpl in *; rewrite Hs. lia.
  - destruct self; exact Hs.
  - destruct self; reflexivity.
Qed.

End InvariantBody.

Section FormatFacts.

Lemma format_field_control (self : Field text) (d : text) :
  is_control_field self = true -> data self = Some d ->
  format_field self = (Ok d, self).
Proof.
  intros Hc Hd. unfold format_field, bind, get, attr. rewrite Hc, Hd. reflexivity.
Qed.

Lemma format_field_data (self : Field text) (l : list text) :
  is_control_field self = false -> subfields self = Some l -> even_length l ->
  format_field self
  = (Ok (strip (fold_left (format_step (is_subject_field self)) (pairs l) "")),
     set_pos (length l) self).
Proof.
  intros Hc Hs E. unfold format_field. unfold bind at 1. unfold get at 1.
  rewrite Hc. unfold bind at 1.
  rewrite (for_self_inv
             (fun s : Field text => is_subject_field s = is_subject_field self)
             (format_step (is_subject_field self))
             (fun (fielddata : text) (subfield : text * text) =>
                if String.eqb (fst subfield) "6" then ret fielddata
                else
                  self' <- get;;
                  if negb (is_subject_field self') then
                    ret (fielddata ++ " " ++ snd subfield)%string
                  else if negb (existsb (String.eqb (fst subfield))
                                        ["v"; "x"; "y"; "z"]) then
                    ret (fielddata ++ " " ++ snd subfield)%string
                  else ret (fielddata ++ " -- " ++ snd subfield)%string)
             (fun s p HI => ltac:(destruct s; exact HI))
             (fun acc p s HI => format_field_body (is_subject_field self) acc p s HI)
             l "" self eq_refl Hs E).
  reflexivity.
Qed.

Lemma format_step_skip (subject : bool) (ps : list (text * text)) :
  forall acc,
    fold_left (format_step subject) ps acc
    = fold_left (format_step subject)
                (filter (fun p => negb (has_code ("6" : text) p)) ps) acc.
Proof.
  induction ps as [|p ps IH]; intros acc; [reflexivity|].
  cbn [fold_left filter].
  assert (Hh : has_code ("6" : text) p = String.eqb (fst p) "6") by reflexivity.
  rewrite Hh. destruct (String.eqb (fst p) "6") eqn:H6; cbn [negb fold_left].
  - replace (format_step subject acc p) with acc
      by (unfold format_step; rewrite H6; reflexivity).
    apply IH.
  - apply IH.
Qed.

Lemma format_step_plain (ps : list (text * text)) :
  forall acc,
    fold_left (format_step false) ps acc
    = (acc ++ MarcMaker.concat
                (map (fun p : text * text => (" " ++ snd p)%string)
                     (filter (fun p => negb (has_code ("6" : text) p)) ps)))%string.
Proof.
  induction ps as [|p ps IH]; intros acc.
  - simpl. rewrite append_empty_r. reflexivity.
  - cbn [fold_left filter].
    assert (Hh : has_code ("6" : text) p = String.eqb (fst p) "6") by reflexivity.
    rewrite Hh. rewrite IH. unfold format_step.
    destruct (String.eqb (fst p) "6"); cbn [negb andb map MarcMaker.concat].
    + reflexivity.
    + rewrite !append_assoc. reflexivity.
Qed.

Lemma concat_sep_snoc (xs : list string) (y : string) :
  String.concat " " (xs ++ [y])
  = match xs with
    | [] => y
    | _ => (String.concat " " xs ++ " " ++ y)%string
    end.
Proof.
  induction xs as [|x xs IH]; [reflexivity|].
  simpl app. destruct xs as [|x' xs].
  - reflexivity.
  - change (String.concat " " (x :: (x' :: xs) ++ [y]))
      with (x ++ " " ++ String.concat " " ((x' :: xs) ++ [y]))%string.
    rewrite IH.
    change (String.concat " " (x :: x' :: xs))
      with (x ++ " " ++ String.concat " " (x' :: xs))%string.
    rewrite !append_assoc. reflexivity.
Qed.

End FormatFacts.

(** X12.  [value()] returns the data of a control field as it is.  On a data
    field whose list has even length it returns the stripped values joined
    by single spaces, whatever the codes are: [change_code] does not change
    it, and after [add_subfield(code, v)] it is the stripped [v] alone when
    the field had no subfield, and otherwise the old text, a space and the
    stripped [v]. *)
Theorem value_ignores_codes (self : Field text) :
  (is_control_field self = true ->
   forall d, data self = Some d -> value self = (Ok d, self))
  /\ (is_control_field self = false ->
      forall l, subfields self = Some l -> even_length l ->
        fst (value self) = Ok (String.concat " " (map strip (map snd (pairs l))))
        /\ (forall from_code to_code,
              fst (value (snd (change_code from_code to_code self)))
              = fst (value self))
        /\ (forall code v,
              fst (value (snd (add_subfield code v self)))
              = Ok (match pairs l with
                    | [] => strip v
                    | _ => (String.concat " " (map strip (map snd (pairs l)))
                            ++ " " ++ strip v)%string
                    end))).
Proof.
  split; [intros Hc d Hd; apply value_control; assumption|].
  intros Hc l Hs E. rewrite (value_data self l Hc Hs E). simpl fst.
  split; [reflexivity|]. split.
  - intros from_code to_code. rewrite (change_code_spec from_code to_code self l Hs).
    match goal with |- context [set_subfields ?x self] => set (l' := x) end.
    assert (E' : even_length l')
      by (unfold even_length, l'; rewrite length_enumerate_map; exact E).
    assert (Hp : pairs l' = recode from_code to_code l)
      by (apply (change_code_pairs from_code to_code l 0); reflexivity).
    cbn [snd].
    erewrite value_data; [|destruct self; exact Hc|reflexivity|exact E'].
    cbn [fst]. rewrite Hp. unfold recode. rewrite !map_map. reflexivity.
  - intros code v. rewrite (add_subfield_spec code v self l Hs). simpl snd.
    erewrite value_data;
      [|destruct self; exact Hc|reflexivity
       |apply even_length_app; [exact E|reflexivity]].
    simpl fst. rewrite (pairs_app l [code; v] E), !map_app. simpl map at 2.
    simpl map at 3. rewrite concat_sep_snoc.
    destruct (pairs l); reflexivity.
Qed.

Lemma value_ignores_codes_witness :
  fst (value Examples.f_control) = Ok "fol 05731351"
  /\ fst (value (Examples.data_field ["a"; " Foo  "; "b"; "Bar "])) = Ok "Foo Bar"
  /\ fst (value (snd (change_code "a" "z" Examples.f_title))) = Ok "Foo Bar".
Proof.
  destruct (value_ignores_codes Examples.f_control) as (Hctl & _).
  destruct (value_ignores_codes (Examples.data_field ["a"; " Foo  "; "b"; "Bar "]))
    as (_ & Hd1).
  destruct (value_ignores_codes Examples.f_title) as (_ & Hd2).
  destruct (Hd1 eq_refl ["a"; " Foo  "; "b"; "Bar "] eq_refl eq_refl) as (Hv & _).
  destruct (Hd2 eq_refl ["a"; "Foo"; "b"; "Bar"] eq_refl eq_refl) as (Hv2 & Hcc & _).
  split; [rewrite (Hctl eq_refl "fol 05731351" eq_refl); reflexivity|].
  split; [exact Hv|]. exact (eq_trans (Hcc "a" "z") Hv2).
Defined.

(** X13.  [format_field()] returns the data of a control field as it is.  On
    a data field whose list has even length the subfields with code "6" add
    nothing: the result is the one of the field without them.  When the tag
    does not start with "6" the result is the values of the other subfields,
    each after a space, with the white space around the whole stripped. *)
Theorem format_field_skips_linkage (self : Field text) :
  (is_control_field self = true ->
   forall d, data self = Some d -> format_field self = (Ok d, self))
  /\ (is_control_field self = false ->
      forall l, subfields self = Some l -> even_length l ->
        fst (format_field self)
        = fst (format_field (set_subfields (flatten (without_code "6" l)) self))
        /\ (is_subject_field self = false ->
            fst (format_field self)
            = Ok (strip (MarcMaker.concat
                           (map (fun p : text * text => (" " ++ snd p)%string)
                                (without_code "6" l)))))).
Proof.
  split; [intros Hc d Hd; apply format_field_control; assumption|].
  intros Hc l Hs E. rewrite (format_field_data self l Hc Hs E). simpl fst. split.
  - erewrite format_field_data;
      [|destruct self; exact Hc|reflexivity|apply even_length_flatten].
    simpl fst. rewrite pairs_flatten, format_step_skip.
    replace (is_subject_field (set_subfields (flatten (without_code "6" l)) self))
      with (is_subject_field self) by (destruct self; reflexivity).
    reflexivity.
  - intros Hsub. rewrite Hsub, format_step_plain. reflexivity.
Qed.

Lemma format_field_skips_linkage_witness :
  fst (format_field (Examples.data_field ["6"; "880-01"; "a"; "Foo"; "b"; "Bar"]))
  = Ok "Foo Bar"
  /\ fst (format_field (mkField "650" None (Some [" "; "0"]) (Some " ") (Some "0")
                                (Some ["a"; "Cats"; "x"; "History"; "6"; "880"]) None))
     = Ok "Cats -- History".
Proof.
  destruct (format_field_skips_linkage
              (Examples.data_field ["6"; "880-01"; "a"; "Foo"; "b"; "Bar"]))
    as (_ & Hd).
  destruct (Hd eq_refl ["6"; "880-01"; "a"; "Foo"; "b"; "Bar"] eq_refl eq_refl)
    as (_ & Hplain).
  split; [exact (Hplain eq_refl)|]. reflexivity.
Defined.

(** ** subfields_as_dict *)

Section DictFacts.
Context {V : Type} `{PyValue V}.

Lemma dict_get_set {A} (d : list (V * A)) (k k' : V) (a : A) :
  PyDict.get py_eqb (PyDict.set py_eqb d k a) k'
  = if py_eqb k k' then Some a else PyDict.get py_eqb d k'.
Proof.
  induction d as [|[k0 a0] d IH]; simpl.
  - destruct (py_eqb k k'); reflexivity.
  - destruct (py_eqb k0 k) eqn:H0; simpl.
    + apply py_eqb_eq in H0. subst k0. destruct (py_eqb k k'); reflexivity.
    + rewrite IH. destruct (py_eqb k0 k') eqn:H1; [|reflexivity].
      apply py_eqb_eq in H1. subst k0. rewrite (py_eqb_sym k k'), H0. reflexivity.
Qed.

Lemma dict_set_set {A} (d : list (V * A)) (k : V) (a b : A) :
  PyDict.set py_eqb (PyDict.set py_eqb d k a) k b = PyDict.set py_eqb d k b.
Proof.
  induction d as [|[k0 a0] d IH]; simpl.
  - rewrite py_eqb_refl. reflexivity.
  - destruct (py_eqb k0 k) eqn:H0; simpl; rewrite H0; [reflexivity|].
    rewrite IH. reflexivity.
Qed.

Lemma as_dict_body_pure (d : list (V * list V)) (cv : V * V) (s : Field V) :
  (let (code, val) return M (Field V) (list (V * list V)) := cv in
   let d1 := if negb (PyDict.contains py_eqb d code)
             then PyDict.set py_eqb d code []
             else d in
   match PyDict.get py_eqb d1 code with
   | Some vals => ret (PyDict.set py_eqb d1 code (vals ++ [val]))
   | None => raise (KeyError "code")
   end) s
  = (Ok (group_add d cv), s).
Proof.
  destruct cv as [code val]. cbv beta iota. unfold group_add, PyDict.contains. simpl fst. simpl snd.
  destruct (PyDict.get py_eqb d code) as [vals|] eqn:Hg; cbn [negb]; cbv iota.
  - rewrite Hg. reflexivity.
  - rewrite dict_get_set, py_eqb_refl, dict_set_set. reflexivity.
Qed.

Lemma group_add_lookup (ps : list (V * V)) (c : V) :
  forall d : list (V * list V),
    PyDict.get py_eqb (fold_left group_add ps d) c
    = match PyDict.get py_eqb d c, map snd (filter (has_code c) ps) with
      | Some v0, vs => Some (v0 ++ vs)
      | None, [] => None
      | None, vs => Some vs
      end.
Proof.
  induction ps as [|[k v] ps IH]; intros d.
  - simpl. destruct (PyDict.get py_eqb d c); [rewrite app_nil_r|]; reflexivity.
  - cbn [fold_left filter]. rewrite IH. unfold group_add at 1. cbn [fst snd].
    rewrite dict_get_set.
    assert (Hh : has_code c (k, v) = py_eqb k c) by reflexivity. rewrite Hh.
    destruct (py_eqb k c) eqn:Hk.
    + apply py_eqb_eq in Hk. subst k. cbn [map snd].
      destruct (PyDict.get py_eqb d c) as [v0|].
      * rewrite <- app_assoc. reflexivity.
      * reflexivity.
    + reflexivity.
Qed.

Lemma subfields_as_dict_spec (self : Field V) (l : list V) :
  subfields self = Some l -> even_length l ->
  subfields_as_dict self
  = (Ok (fold_left group_add (pairs l) []), set_pos (length l) self).
Proof.
  intros Hs E. unfold subfields_as_dict.
  apply (for_self_pure group_add
           (fun (subfields_dict : list (V * list V)) (cv : V * V) =>
              let (code, val) := cv in
              let d1 := if negb (PyDict.contains py_eqb subfields_dict code)
                        then PyDict.set py_eqb subfields_dict code []
                        else subfields_dict in
              match PyDict.get py_eqb d1 code with
              | Some vals => ret (PyDict.set py_eqb d1 code (vals ++ [val]))
              | None => raise (KeyError "code")
              end)
           as_dict_body_pure l [] self Hs E).
Qed.

End DictFacts.

(** X14.  On a data field whose list has even length [subfields_as_dict]
    returns a dictionary in which a code is a key exactly when some subfield
    has it, and the list stored under a code is what [get_subfields(code)]
    returns: the values under that code in the order of the field. *)
Theorem subfields_as_dict_lookup {V : Type} `{PyValue V} (self : Field V)
    (l : list V) :
  subfields self = Some l -> even_length l ->
  exists d,
    fst (subfields_as_dict self) = Ok d
    /\ forall c,
         match PyDict.get py_eqb d c with
         | Some vals => fst (get_subfields [c] self) = Ok vals /\ vals <> []
         | None => fst (get_subfields [c] self) = Ok []
         end.
Proof.
  intros Hs E. rewrite (subfields_as_dict_spec self l Hs E).
  exists (fold_left group_add (pairs l) []). split; [reflexivity|].
  intros c. rewrite (get_subfields_single c self l Hs E), group_add_lookup.
  simpl PyDict.get. unfold values_of.
  destruct (map snd (filter (has_code c) (pairs l))); simpl fst.
  - reflexivity.
  - split; [reflexivity|discriminate].
Qed.

Lemma subfields_as_dict_lookup_witness :
  fst (subfields_as_dict Examples.f_three)
  = Ok [("a", ["1"; "3"]); ("b", ["2"])]
  /\ exists d,
       fst (subfields_as_dict Examples.f_three) = Ok d
       /\ forall c : text,
            match PyDict.get py_eqb d c with
            | Some vals => fst (get_subfields [c] Examples.f_three) = Ok vals
                           /\ vals <> []
            | None => fst (get_subfields [c] Examples.f_three) = Ok []
            end.
Proof.
  split; [reflexivity|].
  exact (subfields_as_dict_lookup Examples.f_three
           ["a"; "1"; "b"; "2"; "a"; "3"] eq_refl eq_refl).
Defined.

(** ** Equality *)

Section EqFacts.
Context {V : Type} `{PyValue V}.

Lemma list_eqb_eq {A} (eqb : A -> A -> bool) :
  (forall x y, eqb x y = true <-> x = y) ->
  forall a b, list_eqb eqb a b = true <-> a = b.
Proof.
  intros Heq. induction a as [|x a IH]; intros [|y b]; simpl;
    try (split; [discriminate|congruence]); [tauto|].
  rewrite andb_true_iff, Heq, IH. split.
  - intros [-> ->]. reflexivity.
  - intros Hxy. inversion Hxy. tauto.
Qed.

Lemma bool_eq_iff (a b : bool) : (a = true <-> b = true) -> a = b.
Proof. destruct a, b; intros [H1 H2]; auto; symmetry; auto. Qed.

Lemma eq_other (self : Field V) : __eq__ ObjOther self = (Ok false, self).
Proof. reflexivity. Qed.

Lemma eq_tags_differ (self o : Field V) :
  tag o <> tag self -> __eq__ (ObjField o) self = (Ok false, self).
Proof.
  intros Hne. unfold __eq__, bind, get.
  destruct (String.eqb (tag o) (tag self)) eqn:Ht; [|reflexivity].
  apply String.eqb_eq in Ht. contradiction.
Qed.

Lemma eq_control (self o : Field V) (d d' : V) :
  is_control_field self = true -> data self = Some d -> data o = Some d' ->
  __eq__ (ObjField o) self
  = (Ok (String.eqb (tag o) (tag self) && py_eqb d' d), self).
Proof.
  intros Hc Hd Hd'. unfold __eq__, bind, get, attr, lift, attr_of, ret.
  destruct (String.eqb (tag o) (tag self)); [|reflexivity].
  cbn [negb]. read_attrs. reflexivity.
Qed.

Lemma eq_data (self o : Field V) (i i' : list text) (l l' : list V) :
  is_control_field self = false ->
  indicators self = Some i -> indicators o = Some i' ->
  subfields self = Some l -> subfields o = Some l' ->
  __eq__ (ObjField o) self
  = (Ok (String.eqb (tag o) (tag self)
         && (list_eqb String.eqb i' i && list_eqb py_eqb l' l)), self).
Proof.
  intros Hc Hi Hi' Hl Hl'. unfold __eq__, bind, get, attr, lift, attr_of, ret.
  destruct (String.eqb (tag o) (tag self)); [|reflexivity].
  cbn [negb]. read_attrs.
  destruct (list_eqb String.eqb i' i); [|reflexivity].
  read_attrs. reflexivity.
Qed.

End EqFacts.

(** X15.  [==] returns without an exception on fields that have the
    attributes of their kind, and never changes the field.  An object that is
    not a field, and a field with another tag, is unequal.  Two control
    fields are equal exactly when tag and data are equal; two data fields
    exactly when the tag, the list of indicators and the whole subfield list,
    order included, are equal.  Neither the iteration cursor nor
    [indicator1] and [indicator2] are looked at. *)
Theorem eq_compares_content {V : Type} `{PyValue V} (self o : Field V) :
  __eq__ ObjOther self = (Ok false, self)
  /\ (tag o <> tag self -> __eq__ (ObjField o) self = (Ok false, self))
  /\ (is_control_field self = true ->
      forall d d', data self = Some d -> data o = Some d' ->
        exists b,
          __eq__ (ObjField o) self = (Ok b, self)
          /\ (b = true <-> tag o = tag self /\ d' = d))
  /\ (is_control_field self = false ->
      forall i i' l l',
        indicators self = Some i -> indicators o = Some i' ->
        subfields self = Some l -> subfields o = Some l' ->
        exists b,
          __eq__ (ObjField o) self = (Ok b, self)
          /\ (b = true <-> tag o = tag self /\ i' = i /\ l' = l)).
Proof.
  split; [apply eq_other|]. split; [apply eq_tags_differ|]. split.
  - intros Hc d d' Hd Hd'. rewrite (eq_control self o d d' Hc Hd Hd').
    eexists. split; [reflexivity|].
    rewrite andb_true_iff, String.eqb_eq, py_eqb_eq. reflexivity.
  - intros Hc i i' l l' Hi Hi' Hl Hl'.
    rewrite (eq_data self o i i' l l' Hc Hi Hi' Hl Hl').
    eexists. split; [reflexivity|].
    rewrite !andb_true_iff, String.eqb_eq.
    rewrite (list_eqb_eq String.eqb String.eqb_eq), (list_eqb_eq py_eqb py_eqb_eq).
    reflexivity.
Qed.

Lemma eq_compares_content_witness :
  fst (__eq__ (ObjField (Examples.data_field ["b"; "Bar"; "a"; "Foo"]))
              Examples.f_title) = Ok false
  /\ fst (__eq__ (ObjField (set_pos 2 Examples.f_title)) Examples.f_title) = Ok true.
Proof.
  destruct (eq_compares_content Examples.f_title
              (Examples.data_field ["b"; "Bar"; "a"; "Foo"])) as (_ & _ & _ & Hd).
  destruct (Hd eq_refl ["0"; "1"] ["0"; "1"] ["a"; "Foo"; "b"; "Bar"]
              ["b"; "Bar"; "a"; "Foo"] eq_refl eq_refl eq_refl eq_refl)
    as (b & Hrun & Hiff).
  split; [|reflexivity].
  rewrite Hrun. simpl. destruct b; [|reflexivity].
  destruct Hiff as [Hyes _]. destruct (Hyes eq_refl) as (_ & _ & Hl). discriminate.
Defined.

(** X16.  On fields that have the attributes of their kind, [==] is
    reflexive and symmetric: a control field with data, or a data field with
    indicators and subfields, is equal to itself, and [a == b] returns what
    [b == a] returns. *)
Theorem eq_reflexive_symmetric {V : Type} `{PyValue V} (f g : Field V) :
  (control_field_ok f \/ data_field_ok f) ->
  (control_field_ok g \/ data_field_ok g) ->
  fst (__eq__ (ObjField f) f) = Ok true
  /\ fst (__eq__ (ObjField g) f) = fst (__eq__ (ObjField f) g).
Proof.
  intros Hf Hg. split.
  - destruct Hf as [(Hc & d & Hd)|(Hc & (i & Hi) & (l & Hl & _))].
    + rewrite (eq_control f f d d Hc Hd Hd), String.eqb_refl, py_eqb_refl.
      reflexivity.
    + rewrite (eq_data f f i i l l Hc Hi Hi Hl Hl), String.eqb_refl. simpl fst.
      assert (Hii : list_eqb String.eqb i i = true)
        by (apply (list_eqb_eq String.eqb String.eqb_eq); reflexivity).
      assert (Hll : list_eqb py_eqb l l = true)
        by (apply (list_eqb_eq py_eqb py_eqb_eq); reflexivity).
      rewrite Hii, Hll. reflexivity.
  - destruct (String.eqb (tag g) (tag f)) eqn:Ht.
    + apply String.eqb_eq in Ht.
      assert (Hkind : is_control_field g = is_control_field f)
        by (unfold is_control_field; rewrite Ht; reflexivity).
      destruct Hf as [(Hc & d & Hd)|(Hc & (i & Hi) & (l & Hl & _))];
        destruct Hg as [(Hc' & d' & Hd')|(Hc' & (i' & Hi') & (l' & Hl' & _))];
        try congruence.
      * rewrite (eq_control f g d d' Hc Hd Hd'), (eq_control g f d' d Hc' Hd' Hd).
        simpl fst. rewrite (String.eqb_sym (tag f) (tag g)), (py_eqb_sym d d').
        reflexivity.
      * rewrite (eq_data f g i i' l l' Hc Hi Hi' Hl Hl'),
                (eq_data g f i' i l' l Hc' Hi' Hi Hl' Hl).
        simpl fst. rewrite (String.eqb_sym (tag f) (tag g)). do 3 f_equal.
        -- apply bool_eq_iff.
           rewrite !(list_eqb_eq String.eqb String.eqb_eq). split; congruence.
        -- apply bool_eq_iff.
           rewrite !(list_eqb_eq py_eqb py_eqb_eq). split; congruence.
    + assert (Hne : tag g <> tag f)
        by (intros Heq; apply String.eqb_eq in Heq; congruence).
      rewrite (eq_tags_differ f g Hne), (eq_tags_differ g f (not_eq_sym Hne)).
      reflexivity.
Qed.

Lemma eq_reflexive_symmetric_witness :
  fst (__eq__ (ObjField Examples.f_title) Examples.f_title) = Ok true
  /\ fst (__eq__ (ObjField Examples.f_control) Examples.f_title)
     = fst (__eq__ (ObjField Examples.f_title) Examples.f_control).
Proof.
  apply (eq_reflexive_symmetric Examples.f_title Examples.f_control).
  - right. split; [reflexivity|].
    split; [exists ["0"; "1"]; reflexivity|].
    exists ["a"; "Foo"; "b"; "Bar"]. split; reflexivity.
  - left. split; [reflexivity|]. exists "fol 05731351". reflexivity.
Defined.

(** ** The iteration cursor, and lists of odd length *)

Section CursorFacts.
Context {V : Type} `{PyValue V}.

Lemma next_keeps_subfields (s : Field V) :
  subfields (snd (__next__ s)) = subfields s.
Proof.
  unfold __next__, attr, bind, lift, ret, raise.
  destruct (subfields s) as [l|] eqn:Hs; [|exact Hs].
  destruct (__pos s) as [pos|]; [|exact Hs].
  cbv beta iota. rewrite Hs. cbv beta iota.
  destruct (pos <? length l); [|exact Hs].
  destruct (getitem l (Z.of_nat pos)); [|exact Hs].
  destruct (getitem l (Z.of_nat pos + 1)); [|exact Hs].
  destruct s; exact Hs.
Qed.

Lemma next_at_end (s : Field V) (l : list V) :
  subfields s = Some l ->
  __next__ (set_pos (length l) s) = (Raise StopIteration, set_pos (length l) s).
Proof.
  intros Hs. apply (next_end (set_pos (length l) s) l); destruct s; [exact Hs|reflexivity].
Qed.

Lemma getitem_past_end {A} (l : list A) :
  getitem l (Z.of_nat (length l)) = Raise IndexError.
Proof.
  unfold getitem, norm_index.
  destruct (Z.ltb_spec (Z.of_nat (length l)) 0); [lia|].
  destruct (Z.leb_spec 0 (Z.of_nat (length l))); [|lia].
  rewrite Z.ltb_irrefl. reflexivity.
Qed.

Lemma pop_past_end {A} (l : list A) :
  pop l (Z.of_nat (length l)) = Raise IndexError.
Proof.
  unfold pop, norm_index.
  destruct (Z.ltb_spec (Z.of_nat (length l)) 0); [lia|].
  destruct (Z.leb_spec 0 (Z.of_nat (length l))); [|lia].
  rewrite Z.ltb_irrefl. reflexivity.
Qed.

Section OddBody.
Context {A : Type}.
Variable g : A -> V * V -> A.
Variable body : A -> V * V -> M (Field V) A.
Hypothesis body_pure : forall acc p s, body acc p s = (Ok (g acc p), s).

Lemma for_next_pure_odd (x : V) (t : list V) :
  forall (pre : list V) (acc : A) (fuel : nat) (self : Field V),
    even_length t -> length t < fuel ->
    subfields self = Some (pre ++ t ++ [x]) ->
    __pos self = Some (length pre) ->
    for_next fuel body acc self
    = (Raise IndexError, set_pos (length (pre ++ t)) self).
Proof.
  induction t as [| y | c v t IH] using pair_induction;
    intros pre acc fuel self E Hfuel Hs Hp.
  - destruct fuel as [|fuel]; [simpl in Hfuel; lia|].
    rewrite app_nil_r. rewrite (for_next_odd body x pre acc fuel self Hs Hp).
    rewrite (set_pos_same _ _ Hp). reflexivity.
  - destruct (even_length_single _ E).
  - apply even_length_cons2 in E.
    destruct fuel as [|fuel]; [simpl in Hfuel; lia|].
    simpl for_next. simpl app in Hs. rewrite (next_pair _ _ _ _ _ Hs Hp).
    unfold bind. rewrite body_pure.
    assert (Happ : forall r, pre ++ c :: v :: r = (pre ++ [c; v]) ++ r)
      by (intros r; rewrite <- app_assoc; reflexivity).
    rewrite (IH (pre ++ [c; v]) (g acc (c, v)) fuel (set_pos (length pre + 2) self)).
    + rewrite <- Happ. destruct self; reflexivity.
    + exact E.
    + simpl in Hfuel. lia.
    + rewrite <- Happ. destruct self; exact Hs.
    + rewrite length_app. destruct self; reflexivity.
Qed.

Lemma for_self_pure_odd (x : V) (l0 : list V) (acc : A) (self : Field V) :
  subfields self = Some (l0 ++ [x]) -> even_length l0 ->
  for_self body acc self = (Raise IndexError, set_pos (length l0) self).
Proof.
  intros Hs E. unfold for_self, bind, __iter__, get.
  rewrite (for_next_pure_odd x l0 [] acc (iter_fuel (set_pos 0 self)) (set_pos 0 self)).
  - destruct self; reflexivity.
  - exact E.
  - unfold iter_fuel. destruct self; simpl in *; rewrite Hs.
    rewrite length_app. simpl. lia.
  - destruct self; exact Hs.
  - destruct self; reflexivity.
Qed.

End OddBody.

Lemma get_subfields_odd (codes : list V) (x : V) (l0 : list V) (self : Field V) :
  subfields self = Some (l0 ++ [x]) -> even_length l0 ->
  get_subfields codes self = (Raise IndexError, set_pos (length l0) self).
Proof.
  intros Hs E. unfold get_subfields.
  apply (for_self_pure_odd
           (fun values sf => if requested codes sf then values ++ [snd sf] else values)
           (fun values subfield =>
              if existsb (py_eqb (fst subfield)) codes
                 || match codes with [] => true | _ => false end
              then ret (values ++ [snd subfield])
              else ret values)
           (get_subfields_body_pure codes) x l0 [] self Hs E).
Qed.

End CursorFacts.

(** X17.  There is one cursor for each field, not for each loop.  A loop
    over a data field whose list has even length can be run again and yields
    the same pairs; but a query made between two steps of a loop leaves the
    cursor at the end, so that the next step of the loop raises
    [StopIteration], however many subfields were still to come. *)
Theorem cursor_is_shared {V : Type} `{PyValue V} (self : Field V) (l : list V) :
  subfields self = Some l -> even_length l ->
  fst ((iterate;;; iterate) self) = Ok (pairs l)
  /\ fst (iterate self) = Ok (pairs l)
  /\ (forall code,
        fst (__next__ (snd (count code (snd (__next__ (snd (__iter__ self)))))))
        = Raise StopIteration)
  /\ (forall codes,
        fst (__next__ (snd (get_subfields codes
                              (snd (__next__ (snd (__iter__ self)))))))
        = Raise StopIteration).
Proof.
  intros Hs E.
  assert (Hs1 : subfields (snd (__next__ (snd (__iter__ self)))) = Some l).
  { rewrite next_keeps_subfields. destruct self; exact Hs. }
  split; [|split; [|split]].
  - unfold bind. rewrite (iterate_spec self l Hs E).
    erewrite iterate_spec; [reflexivity|destruct self; exact Hs|exact E].
  - rewrite (iterate_spec self l Hs E). reflexivity.
  - intros code. rewrite (count_spec code _ l Hs1 E). cbn [snd].
    rewrite (next_at_end _ l Hs1). reflexivity.
  - intros codes. rewrite (get_subfields_spec codes _ l Hs1 E). cbn [snd].
    rewrite (next_at_end _ l Hs1). reflexivity.
Qed.

Lemma cursor_is_shared_witness :
  fst (__next__ (snd (__iter__ Examples.f_three))) = Ok ("a", "1")
  /\ fst (__next__ (snd (count "b" (snd (__next__ (snd (__iter__ Examples.f_three)))))))
     = Raise StopIteration.
Proof.
  destruct (cursor_is_shared Examples.f_three ["a"; "1"; "b"; "2"; "a"; "3"]
              eq_refl eq_refl) as (_ & _ & Hcount & _).
  split; [reflexivity|apply Hcount].
Defined.

(** X18.  On a data field whose subfield list has odd length every query
    raises [IndexError] when the loop reaches the element without a partner,
    even when the subfields before it would answer the query: iterating,
    [get_subfields], [count], the membership test and the item-style read all
    raise, and so does the item-style write, which leaves the list as it
    is. *)
Theorem odd_list_queries_raise {V : Type} `{PyValue V} (self : Field V)
    (l0 : list V) (x : V) :
  subfields self = Some (l0 ++ [x]) -> even_length l0 ->
  fst (iterate self) = Raise IndexError
  /\ (forall codes, fst (get_subfields codes self) = Raise IndexError)
  /\ (forall code, fst (count code self) = Raise IndexError)
  /\ (forall code, fst (__contains__ code self) = Raise IndexError)
  /\ (forall code, fst (__getitem__ code self) = Raise IndexError)
  /\ (forall show code value,
        fst (__setitem__ show code value self) = Raise IndexError
        /\ subfields (snd (__setitem__ show code value self)) = Some (l0 ++ [x])).
Proof.
  intros Hs E.
  split.
  { unfold iterate.
    rewrite (for_self_pure_odd (fun acc p => acc ++ [p])
               (fun acc p => ret (acc ++ [p])) (fun _ _ _ => eq_refl)
               x l0 [] self Hs E).
    reflexivity. }
  split; [intros codes; rewrite (get_subfields_odd codes x l0 self Hs E); reflexivity|].
  split.
  { intros code. unfold count, bind.
    rewrite (for_self_pure_odd
               (fun acc sf => if has_code code sf then acc ++ [sf] else acc)
               (fun acc subf =>
                  if py_eqb (fst subf) code then ret (acc ++ [subf]) else ret acc)
               (count_body_pure code) x l0 [] self Hs E).
    reflexivity. }
  split.
  { intros code. unfold __contains__, bind.
    rewrite (get_subfields_odd [code] x l0 self Hs E). reflexivity. }
  split.
  { intros code. unfold __getitem__, bind.
    rewrite (get_subfields_odd [code] x l0 self Hs E). reflexivity. }
  intros show code value. unfold __setitem__, bind.
  rewrite (get_subfields_odd [code] x l0 self Hs E).
  split; [reflexivity|]. destruct self; exact Hs.
Qed.

Lemma odd_list_queries_raise_witness :
  fst (get_subfields ["a"] (Examples.data_field ["a"; "1"; "b"])) = Raise IndexError
  /\ fst (__getitem__ "a" (Examples.data_field ["a"; "1"; "b"])) = Raise IndexError.
Proof.
  destruct (odd_list_queries_raise (Examples.data_field ["a"; "1"; "b"])
              ["a"; "1"] "b" eq_refl eq_refl) as (_ & Hget & _ & _ & Hitem & _).
  split; [apply Hget|apply Hitem].
Defined.

Section OddDeleteFacts.
Context {V : Type} `{PyValue V}.

Lemma delete_scan_last_plain (code : V) (pre : list V) (self : Field V) :
  even_length pre -> subfields self = Some (pre ++ [code]) ->
  delete_scan code None (length pre) [code] self
  = (Raise IndexError, set_subfields pre self).
Proof.
  intros E Hs. rewrite delete_scan_cons, (even_index_mod (length pre) E), py_eqb_refl.
  cbn [andb]. unfold bind at 1. unfold ret at 1. cbv beta iota.
  unfold pop_subfield, bind, attr, lift, ret. read_attrs.
  rewrite pop_mid. cbv beta iota. cbn [fst snd].
  replace (subfields (set_subfields (pre ++ []) self)) with (Some (pre ++ []))
    by reflexivity.
  cbv beta iota. rewrite app_nil_r, pop_past_end. reflexivity.
Qed.

Lemma delete_scan_last_match (code mv : V) (pre : list V) (self : Field V) :
  even_length pre -> subfields self = Some (pre ++ [code]) ->
  delete_scan code (Some mv) (length pre) [code] self = (Raise IndexError, self).
Proof.
  intros E Hs. rewrite delete_scan_cons, (even_index_mod (length pre) E), py_eqb_refl.
  cbn [andb]. unfold bind, attr, lift. read_attrs.
  replace (Z.of_nat (length pre) + 1)%Z with (Z.of_nat (length (pre ++ [code])))
    by (rewrite length_app; simpl; lia).
  rewrite getitem_past_end. reflexivity.
Qed.

Lemma delete_scan_to_last (code : V) (mv : option V) (t : list V) :
  forall (pre : list V) (self : Field V),
    even_length pre -> even_length t ->
    (forall p, In p (pairs t) -> py_eqb code (fst p) = false) ->
    subfields self = Some (pre ++ t ++ [code]) ->
    delete_scan code mv (length pre) (t ++ [code]) self
    = delete_scan code mv (length (pre ++ t)) [code] self.
Proof.
  induction t as [| y | c v t IH] using pair_induction; intros pre self Ep Et Hno Hs.
  - rewrite app_nil_r. reflexivity.
  - destruct (even_length_single _ Et).
  - apply even_length_cons2 in Et. simpl app in *.
    rewrite delete_scan_skip; [|exact Ep|exact Hs|].
    + replace (S (S (length pre))) with (length (pre ++ [c; v]))
        by (rewrite length_app; simpl; lia).
      rewrite IH.
      * rewrite <- app_assoc. reflexivity.
      * apply even_length_app; [exact Ep|reflexivity].
      * exact Et.
      * intros p Hin. apply Hno. right. exact Hin.
      * rewrite <- app_assoc. exact Hs.
    + unfold delete_test. rewrite (Hno (c, v)) by (left; reflexivity). reflexivity.
Qed.

End OddDeleteFacts.

(** X19.  A failing [delete_subfield] can leave the list changed.  When the
    subfield list has odd length and its last element, which has no value
    after it, is the first code that matches, [delete_subfield(code)] removes
    that element and then raises [IndexError] for the missing value; with a
    [match_value] it raises [IndexError] before it removes anything. *)
Theorem delete_subfield_not_atomic {V : Type} `{PyValue V} (code : V)
    (self : Field V) (l0 : list V) :
  subfields self = Some (l0 ++ [code]) -> even_length l0 ->
  (forall p, In p (pairs l0) -> py_eqb code (fst p) = false) ->
  delete_subfield code None self = (Raise IndexError, set_subfields l0 self)
  /\ (forall mv, delete_subfield code (Some mv) self = (Raise IndexError, self)).
Proof.
  intros Hs E Hno. unfold delete_subfield, bind, attr. rewrite Hs. split.
  - rewrite (delete_scan_to_last code None l0 [] self eq_refl E Hno Hs
             : delete_scan code None 0 (l0 ++ [code]) self
               = delete_scan code None (length l0) [code] self).
    apply delete_scan_last_plain; assumption.
  - intros mv.
    rewrite (delete_scan_to_last code (Some mv) l0 [] self eq_refl E Hno Hs
             : delete_scan code (Some mv) 0 (l0 ++ [code]) self
               = delete_scan code (Some mv) (length l0) [code] self).
    apply delete_scan_last_match; assumption.
Qed.

Lemma delete_subfield_not_atomic_witness :
  delete_subfield "b" None (Examples.data_field ["a"; "1"; "b"])
  = (Raise IndexError, Examples.data_field ["a"; "1"]).
Proof.
  destruct (delete_subfield_not_atomic "b" (Examples.data_field ["a"; "1"; "b"])
              ["a"; "1"] eq_refl eq_refl) as (Hplain & _).
  - intros p [<-|[]]. reflexivity.
  - exact Hplain.
Defined.

(** ** Construction *)

Section InitFacts.

Lemma length_append (a b : string) :
  String.length (a ++ b) = String.length a + String.length b.
Proof. induction a as [|c a IH]; simpl; [reflexivity|]. rewrite IH. reflexivity. Qed.

Lemma length_repeat_char (c : ascii) (n : nat) : String.length (repeat_char c n) = n.
Proof. induction n as [|n IH]; simpl; [reflexivity|]. rewrite IH. reflexivity. Qed.

Lemma length_lpad (c : ascii) (w : nat) (s : string) : w <= String.length (lpad c w s).
Proof. unfold lpad. rewrite length_append, length_repeat_char. lia. Qed.

Lemma length_format_03i (z : Z) : 3 <= String.length (format_03i z).
Proof.
  unfold format_03i. destruct (z <? 0)%Z.
  - change (String.length ("-" ++ lpad "0" 2 (decimal (Z.abs_nat z))))
      with (S (String.length (lpad "0" 2 (decimal (Z.abs_nat z))))).
    pose proof (length_lpad "0" 2 (decimal (Z.abs_nat z))). lia.
  - apply length_lpad.
Qed.

(** An integer tag is formatted, unless it has too many digits for the
    conversion, and then the handler raises as well. *)
Lemma normalize_tag_int (z : Z) :
  normalize_tag (TagInt z)
  = if digits_of z <=? int_max_str_digits then Ok (format_03i z)
    else Raise ValueError.
Proof.
  unfold normalize_tag, int_of_tag, percent_03i, percent_03s, str_of_int.
  cbn [bind_result].
  destruct (digits_of z <=? int_max_str_digits); reflexivity.
Qed.

(** A text tag always normalises. *)
Lemma normalize_tag_str (s : text) :
  normalize_tag (TagStr s)
  = Ok (match int_of_str s with
        | Some z => if digits_of z <=? int_max_str_digits then format_03i z
                    else format_03s s
        | None => format_03s s
        end).
Proof.
  unfold normalize_tag, int_of_tag, percent_03i, percent_03s.
  destruct (int_of_str s) as [z|]; cbn [bind_result]; [|reflexivity].
  destruct (digits_of z <=? int_max_str_digits); reflexivity.
Qed.

Lemma length_normalize_tag (t : tag_arg) (tg : text) :
  normalize_tag t = Ok tg -> 3 <= String.length tg.
Proof.
  destruct t as [z|s].
  - rewrite normalize_tag_int.
    destruct (digits_of z <=? int_max_str_digits); [|discriminate].
    intros Ht. inversion Ht. apply length_format_03i.
  - rewrite normalize_tag_str. intros Ht. inversion Ht.
    destruct (int_of_str s) as [z|]; [|apply length_lpad].
    destruct (digits_of z <=? int_max_str_digits);
      [apply length_format_03i|apply length_lpad].
Qed.

End InitFacts.

(** X20.  A field that [__init__] returns has the tag that the normalisation
    gave, of three characters or more, and no cursor yet.  It is either a
    control field, which has the data given and no indicators and no subfield
    list, or a data field, which has no data, the two indicators given, and
    the subfields given (none if none were given).  When the normalisation of
    the tag raises, [__init__] raises the same exception. *)
Theorem init_shape {V : Type} `{PyValue V} (t : tag_arg) (inds : option (list text))
    (subs : option (list V)) (d : V) :
  (forall f, __init__ t inds subs d = Ok f ->
     normalize_tag t = Ok (tag f)
     /\ 3 <= String.length (tag f)
     /\ __pos f = None
     /\ ((is_control_field f = true
          /\ data f = Some d /\ indicators f = None /\ indicator1 f = None
          /\ indicator2 f = None /\ subfields f = None)
         \/ (is_control_field f = false
             /\ data f = None
             /\ exists i1 i2,
                  inds = Some [i1; i2]
                  /\ indicators f = Some [i1; i2]
                  /\ indicator1 f = Some i1 /\ indicator2 f = Some i2
                  /\ subfields f
                     = Some (match subs with Some l => l | None => [] end))))
  /\ (forall e, normalize_tag t = Raise e -> __init__ t inds subs d = Raise e).
Proof.
  split.
  - unfold __init__. intros f Hinit.
    destruct (normalize_tag t) as [tg|e] eqn:Htag; [|discriminate Hinit].
    cbn [bind_result] in Hinit.
    pose proof (length_normalize_tag t tg Htag) as Hlen.
    destruct (is_control_field (mkField tg None None None None None None))
      eqn:Hctl.
    + inversion Hinit; subst f. cbn [tag __pos data indicators indicator1 indicator2
                                        subfields].
      split; [reflexivity|]. split; [exact Hlen|].
      split; [reflexivity|]. left. repeat split. exact Hctl.
    + destruct inds as [[|i1 [|i2 [|i3 r]]]|]; try discriminate.
      inversion Hinit; subst f. cbn [tag __pos data indicators indicator1 indicator2
                                         subfields].
      split; [reflexivity|]. split; [exact Hlen|].
      split; [reflexivity|]. right.
      split; [exact Hctl|]. split; [reflexivity|].
      exists i1, i2. repeat split.
  - intros e Htag. unfold __init__. rewrite Htag. reflexivity.
Qed.

Lemma init_shape_witness :
  3 <= String.length (tag Examples.f_control)
  /\ normalize_tag (TagInt 1) = Ok (tag Examples.f_control).
Proof.
  destruct (init_shape (TagInt 1) None None "fol 05731351") as (Hok & _).
  assert (Hinit : __init__ (TagInt 1) None None "fol 05731351" = Ok Examples.f_control)
    by (vm_compute; reflexivity).
  destruct (Hok Examples.f_control Hinit) as (Htag & Hlen & _).
  split; [exact Hlen|exact Htag].
Defined.

(** ** Tag normalisation *)

Section TagFacts.

Lemma digit_char_facts (d : nat) :
  d < 10 ->
  char_isdecimal (digit_char d) = true
  /\ code_point (digit_char d) - 48 = d
  /\ char_isspace_int (digit_char d) = false.
Proof.
  intros Hd.
  do 10 (destruct d as [|d]; [repeat split|]).
  lia.
Qed.

Lemma all_chars_append (P : ascii -> bool) (a b : string) :
  all_chars P (a ++ b) = all_chars P a && all_chars P b.
Proof.
  induction a as [|c a IH]; simpl; [reflexivity|].
  rewrite IH, andb_assoc. reflexivity.
Qed.

Lemma all_chars_repeat (P : ascii -> bool) (c : ascii) (n : nat) :
  P c = true -> all_chars P (repeat_char c n) = true.
Proof. intros Hc. induction n as [|n IH]; simpl; [reflexivity|]. rewrite Hc, IH. reflexivity. Qed.

Lemma decimal_aux_step (fuel n : nat) (acc : string) :
  decimal_aux (S fuel) n acc
  = if n / 10 =? 0 then String (digit_char (n mod 10)) acc
    else decimal_aux fuel (n / 10) (String (digit_char (n mod 10)) acc).
Proof. reflexivity. Qed.

Lemma parse_digit_step (d : nat) (s : string) (prev : bool) (a : nat) :
  d < 10 ->
  parse_digits (String (digit_char d) s) prev a = parse_digits s true (10 * a + d).
Proof.
  intros Hd. destruct (digit_char_facts d Hd) as (Hdec & Hval & _).
  cbn [parse_digits]. rewrite Hdec, Hval. reflexivity.
Qed.

Lemma all_chars_decimal_aux (P : ascii -> bool) :
  (forall d, d < 10 -> P (digit_char d) = true) ->
  forall fuel n acc,
    all_chars P acc = true -> all_chars P (decimal_aux fuel n acc) = true.
Proof.
  intros HP. induction fuel as [|fuel IH]; intros n acc Hacc; [exact Hacc|].
  rewrite decimal_aux_step.
  assert (Hd : all_chars P (String (digit_char (n mod 10)) acc) = true).
  { cbn [all_chars]. rewrite HP, Hacc by (apply Nat.mod_upper_bound; discriminate).
    reflexivity. }
  destruct (n / 10 =? 0); [exact Hd|]. apply IH. exact Hd.
Qed.

Lemma parse_decimal_aux (fuel : nat) :
  forall n acc prev,
    n < fuel ->
    parse_digits (decimal_aux fuel n acc) prev 0 = parse_digits acc true n.
Proof.
  induction fuel as [|fuel IH]; intros n acc prev Hn; [lia|].
  assert (Hd : n mod 10 < 10) by (apply Nat.mod_upper_bound; discriminate).
  pose proof (Nat.div_mod_eq n 10) as Hdm.
  rewrite decimal_aux_step. destruct (Nat.eqb_spec (n / 10) 0) as [Hz|Hnz].
  - rewrite (parse_digit_step _ _ _ _ Hd). f_equal. lia.
  - rewrite IH.
    + rewrite (parse_digit_step _ _ _ _ Hd). f_equal. lia.
    + assert (n / 10 < n) by (apply Nat.div_lt; lia). lia.
Qed.

Lemma parse_decimal (n : nat) (prev : bool) :
  parse_digits (decimal n) prev 0 = Some n.
Proof. unfold decimal. rewrite parse_decimal_aux by lia. reflexivity. Qed.

Lemma parse_leading_zeros (k : nat) (s : string) (r : option nat) :
  (forall prev, parse_digits s prev 0 = r) ->
  forall prev, parse_digits (repeat_char "0" k ++ s) prev 0 = r.
Proof.
  intros Hs. induction k as [|k IH]; intros prev; [apply Hs|].
  simpl. apply IH.
Qed.

Lemma parse_lpad (w n : nat) (prev : bool) :
  parse_digits (lpad "0" w (decimal n)) prev 0 = Some n.
Proof. unfold lpad. apply parse_leading_zeros. intros p. apply parse_decimal. Qed.

Lemma count_chars_length (p : ascii -> bool) (s : string) :
  count_chars p s <= String.length s.
Proof.
  induction s as [|c s IH]; [apply Nat.le_refl|].
  cbn [count_chars String.length]. destruct (p c); lia.
Qed.

Lemma length_lpad_eq (c : ascii) (w : nat) (s : string) :
  String.length (lpad c w s) = (w - String.length s) + String.length s.
Proof. unfold lpad. rewrite length_append, length_repeat_char. reflexivity. Qed.

Lemma three_digits_allowed : 3 <= int_max_str_digits.
Proof. apply Nat.leb_le. vm_compute. reflexivity. Qed.

(** The digits that [%03i] prints are within the limit when the number is. *)
Lemma int_of_digits_lpad (w n : nat) :
  w <= 3 -> String.length (decimal n) <= int_max_str_digits ->
  int_of_digits (lpad "0" w (decimal n)) = Some n.
Proof.
  intros Hw Hn. unfold int_of_digits.
  assert (Hcount : (count_chars char_isdecimal (lpad "0" w (decimal n))
                    <=? int_max_str_digits) = true).
  { apply Nat.leb_le.
    pose proof (count_chars_length char_isdecimal (lpad "0" w (decimal n))) as Hc.
    rewrite length_lpad_eq in Hc. pose proof three_digits_allowed. lia. }
  rewrite Hcount. apply parse_lpad.
Qed.

Lemma lstrip_id (s : string) : all_chars not_space s = true -> lstrip_int s = s.
Proof.
  destruct s as [|c s]; [reflexivity|]. simpl. unfold not_space at 1.
  destruct (char_isspace_int c); [discriminate|reflexivity].
Qed.

Lemma rstrip_id (s : string) : all_chars not_space s = true -> rstrip_int s = s.
Proof.
  induction s as [|c s IH]; [reflexivity|]. simpl. unfold not_space at 1.
  intros Hall. apply andb_true_iff in Hall. destruct Hall as [Hc Hs].
  rewrite (IH Hs). destruct s; [|reflexivity].
  destruct (char_isspace_int c); [discriminate|reflexivity].
Qed.

Lemma strip_id (s : string) : all_chars not_space s = true -> strip_int s = s.
Proof. intros Hall. unfold strip_int. rewrite (lstrip_id s Hall). apply rstrip_id, Hall. Qed.

Lemma lstrip_spaces (k : nat) (s : string) :
  lstrip_int (repeat_char " " k ++ s) = lstrip_int s.
Proof. induction k as [|k IH]; [reflexivity|]. simpl. exact IH. Qed.

Lemma digits_not_space (w n : nat) :
  all_chars not_space (lpad "0" w (decimal n)) = true.
Proof.
  unfold lpad. rewrite all_chars_append, all_chars_repeat by reflexivity.
  unfold decimal. apply all_chars_decimal_aux; [|reflexivity].
  intros d Hd. unfold not_space.
  destruct (digit_char_facts d Hd) as (_ & _ & ->). reflexivity.
Qed.

Lemma digits_decimal (w n : nat) :
  all_chars char_isdecimal (lpad "0" w (decimal n)) = true.
Proof.
  unfold lpad. rewrite all_chars_append, all_chars_repeat by reflexivity.
  unfold decimal. apply all_chars_decimal_aux; [|reflexivity].
  intros d Hd. apply (digit_char_facts d Hd).
Qed.

(** A text that starts with a decimal digit has no sign to take off. *)
Lemma unsigned_literal (c : ascii) (s : string) :
  char_isdecimal c = true ->
  match String c s with
  | String "-" d => option_map (fun n => (- Z.of_nat n)%Z) (int_of_digits d)
  | String "+" d => option_map Z.of_nat (int_of_digits d)
  | d => option_map Z.of_nat (int_of_digits d)
  end
  = option_map Z.of_nat (int_of_digits (String c s)).
Proof.
  intros Hc.
  destruct c as [b0 b1 b2 b3 b4 b5 b6 b7].
  destruct b0, b1, b2, b3, b4, b5, b6, b7; try reflexivity; discriminate Hc.
Qed.

(** [int()] reads back the number that [%03i] printed. *)
Lemma int_of_format (z : Z) :
  digits_of z <= int_max_str_digits -> int_of_str (format_03i z) = Some z.
Proof.
  unfold digits_of. intros Hd.
  unfold int_of_str, format_03i. destruct (Z.ltb_spec z 0) as [Hneg|Hpos].
  - rewrite strip_id.
    + change ("-" ++ lpad "0" 2 (decimal (Z.abs_nat z)))%string
        with (String "-" (lpad "0" 2 (decimal (Z.abs_nat z)))).
      cbv beta iota. rewrite (int_of_digits_lpad 2 (Z.abs_nat z)) by (lia || exact Hd).
      cbn [option_map]. f_equal. lia.
    + change ("-" ++ lpad "0" 2 (decimal (Z.abs_nat z)))%string
        with (String "-" (lpad "0" 2 (decimal (Z.abs_nat z)))).
      cbn [all_chars]. rewrite digits_not_space. reflexivity.
  - rewrite strip_id by apply digits_not_space.
    pose proof (digits_decimal 3 (Z.abs_nat z)) as Hdec.
    pose proof (length_lpad "0" 3 (decimal (Z.abs_nat z))) as Hlen.
    pose proof (int_of_digits_lpad 3 (Z.abs_nat z) (Nat.le_refl 3) Hd) as Hparse.
    destruct (lpad "0" 3 (decimal (Z.abs_nat z))) as [|c s]; [simpl in Hlen; lia|].
    cbn [all_chars] in Hdec. apply andb_true_iff in Hdec. destruct Hdec as [Hc _].
    rewrite (unsigned_literal c s Hc), Hparse. cbn [option_map]. f_equal. lia.
Qed.

Lemma int_of_padded (s : string) : int_of_str (format_03s s) = int_of_str s.
Proof.
  unfold int_of_str, format_03s, lpad, strip_int. rewrite lstrip_spaces. reflexivity.
Qed.

Lemma format_03s_idempotent (s : string) : format_03s (format_03s s) = format_03s s.
Proof.
  unfold format_03s at 1. unfold lpad.
  pose proof (length_lpad " " 3 s) as Hlen. fold (format_03s s) in Hlen.
  replace (3 - String.length (format_03s s)) with 0 by lia. reflexivity.
Qed.

Lemma normalize_tag_idempotent (t : tag_arg) (tg : text) :
  normalize_tag t = Ok tg -> normalize_tag (TagStr tg) = Ok tg.
Proof.
  assert (Hi : forall z, (digits_of z <=? int_max_str_digits) = true ->
                 normalize_tag (TagStr (format_03i z)) = Ok (format_03i z)).
  { intros z Hz. rewrite normalize_tag_str.
    rewrite (int_of_format z) by (apply Nat.leb_le; exact Hz).
    rewrite Hz. reflexivity. }
  destruct t as [z|s].
  - rewrite normalize_tag_int.
    destruct (digits_of z <=? int_max_str_digits) eqn:Hz; [|discriminate].
    intros Ht. injection Ht as <-. apply Hi, Hz.
  - rewrite (normalize_tag_str s). intros Ht. injection Ht as <-.
    destruct (int_of_str s) as [z|] eqn:Hint.
    + destruct (digits_of z <=? int_max_str_digits) eqn:Hz.
      * apply Hi, Hz.
      * rewrite normalize_tag_str, int_of_padded, Hint, Hz, format_03s_idempotent.
        reflexivity.
    + rewrite normalize_tag_str, int_of_padded, Hint, format_03s_idempotent.
      reflexivity.
Qed.

End TagFacts.

(** X21.  Tag normalisation is stable.  [int()] reads back the number that
    [%03i] printed; a text tag always normalises, and an integer tag does
    unless it has more digits than the conversion allows, in which case the
    construction fails with [ValueError]; normalising a tag that is already
    normalised changes nothing; and so a field can be built again from its
    own tag: [__init__] called with the tag of a field it returned, and the
    other arguments as before, returns the same field. *)
Theorem tag_normalisation_round_trip {V : Type} `{PyValue V} :
  (forall z s, percent_03i z = Ok s -> int_of_str s = Some z)
  /\ (forall s, exists tg, normalize_tag (TagStr s) = Ok tg)
  /\ (forall z, normalize_tag (TagInt z)
                = if digits_of z <=? int_max_str_digits then Ok (format_03i z)
                  else Raise ValueError)
  /\ (forall t tg, normalize_tag t = Ok tg -> normalize_tag (TagStr tg) = Ok tg)
  /\ (forall t inds subs (d : V) f,
        __init__ t inds subs d = Ok f ->
        __init__ (TagStr (tag f)) inds subs d = Ok f).
Proof.
  split; [|split; [|split; [|split]]].
  - intros z s. unfold percent_03i.
    destruct (digits_of z <=? int_max_str_digits) eqn:Hz; [|discriminate].
    intros Hs. inversion Hs. apply int_of_format, Nat.leb_le, Hz.
  - intros s. rewrite normalize_tag_str. eexists. reflexivity.
  - exact normalize_tag_int.
  - exact normalize_tag_idempotent.
  - intros t inds subs d f Hinit.
    assert (Htag : normalize_tag t = Ok (tag f)).
    { unfold __init__ in Hinit.
      destruct (normalize_tag t) as [tg|e]; [|discriminate Hinit].
      cbn [bind_result] in Hinit.
      destruct (is_control_field (mkField tg None None None None None None)).
      - inversion Hinit. reflexivity.
      - destruct (match inds with Some l => l | None => [] end) as [|i1 [|i2 [|i3 r]]];
          try discriminate.
        inversion Hinit. reflexivity. }
    rewrite <- Hinit. unfold __init__.
    rewrite (normalize_tag_idempotent t (tag f) Htag), Htag. reflexivity.
Qed.

Lemma tag_normalisation_round_trip_witness :
  int_of_str (format_03i (-5)) = Some (-5)%Z
  /\ normalize_tag (TagStr " ab") = Ok " ab"
  /\ __init__ (TagStr (tag Examples.f_control)) None None "fol 05731351"
     = Ok Examples.f_control.
Proof.
  destruct (tag_normalisation_round_trip (V := text))
    as (Hint & _ & _ & Hnorm & Hinit).
  split; [apply Hint; vm_compute; reflexivity|].
  split; [apply (Hnorm (TagStr "ab")); vm_compute; reflexivity|].
  apply (Hinit (TagInt 1)). vm_compute. reflexivity.
Defined.

(** ** What no method changes *)

Section FrameFacts.
Context {V : Type} `{PyValue V}.

Lemma same_frame_refl (s : Field V) : same_frame s s.
Proof. repeat split. Qed.

Lemma same_frame_trans (s1 s2 s3 : Field V) :
  same_frame s1 s2 -> same_frame s2 s3 -> same_frame s1 s3.
Proof.
  unfold same_frame. intros (A1 & A2 & A3 & A4 & A5) (B1 & B2 & B3 & B4 & B5).
  repeat split; congruence.
Qed.

Lemma keeps_ret {A} (a : A) : keeps_frame (ret a : M (Field V) A).
Proof. intros s. apply same_frame_refl. Qed.

Lemma keeps_raise {A} (e : exn) : keeps_frame (raise e : M (Field V) A).
Proof. intros s. apply same_frame_refl. Qed.

Lemma keeps_lift {A} (r : result A) : keeps_frame (lift r : M (Field V) A).
Proof. intros s. apply same_frame_refl. Qed.

Lemma keeps_get : keeps_frame (get : M (Field V) (Field V)).
Proof. intros s. apply same_frame_refl. Qed.

Lemma keeps_attr {A} (name : string) (proj : Field V -> option A) :
  keeps_frame (attr name proj).
Proof. intros s. unfold attr. destruct (proj s); apply same_frame_refl. Qed.

Lemma keeps_bind {A B} (m : M (Field V) A) (k : A -> M (Field V) B) :
  keeps_frame m -> (forall a, keeps_frame (k a)) -> keeps_frame (bind m k).
Proof.
  intros Hm Hk s. unfold bind. specialize (Hm s).
  destruct (m s) as [[a|e] s']; simpl in Hm; [|exact Hm].
  apply (same_frame_trans s s' _ Hm). apply Hk.
Qed.

Lemma keeps_set_subfields (l : list V) :
  keeps_frame (fun self : Field V => (Ok tt, set_subfields l self)).
Proof. intros s. repeat split. Qed.

Lemma keeps_set_pos (p : nat) :
  keeps_frame (fun self : Field V => (Ok tt, set_pos p self)).
Proof. intros s. repeat split. Qed.

Lemma keeps_if {A} (b : bool) (m1 m2 : M (Field V) A) :
  keeps_frame m1 -> keeps_frame m2 -> keeps_frame (if b then m1 else m2).
Proof. destruct b; auto. Qed.

Lemma keeps_next : keeps_frame (@__next__ V).
Proof.
  intros s. unfold __next__. destruct (subfields s); [|apply same_frame_refl].
  revert s. apply keeps_bind; [apply keeps_attr|]. intros pos.
  apply keeps_bind; [apply keeps_attr|]. intros sf.
  apply keeps_if; [|apply keeps_raise].
  apply keeps_bind; [apply keeps_lift|]. intros c.
  apply keeps_bind; [apply keeps_lift|]. intros v.
  apply keeps_bind; [apply keeps_set_pos|]. intros _. apply keeps_ret.
Qed.

Lemma keeps_for_next {A} (body : A -> V * V -> M (Field V) A) :
  (forall acc p, keeps_frame (body acc p)) ->
  forall fuel acc, keeps_frame (for_next fuel body acc).
Proof.
  intros Hbody. induction fuel as [|fuel IH]; intros acc s; [apply same_frame_refl|].
  simpl. pose proof (keeps_next s) as Hn.
  destruct (__next__ s) as [[p|e] s'] eqn:Hnext; simpl in Hn.
  - apply (same_frame_trans s s' _ Hn).
    apply keeps_bind; [apply Hbody|]. intros a. apply IH.
  - destruct e; exact Hn.
Qed.

Lemma keeps_for_self {A} (body : A -> V * V -> M (Field V) A) (acc : A) :
  (forall acc p, keeps_frame (body acc p)) -> keeps_frame (for_self body acc).
Proof.
  intros Hbody. unfold for_self.
  apply keeps_bind; [intros s; repeat split|]. intros _.
  apply keeps_bind; [apply keeps_get|]. intros self.
  apply keeps_for_next. exact Hbody.
Qed.

Lemma keeps_get_subfields (codes : list V) : keeps_frame (get_subfields codes).
Proof.
  apply keeps_for_self. intros acc p. apply keeps_if; apply keeps_ret.
Qed.

Lemma keeps_add_subfield (code value : V) : keeps_frame (add_subfield code value).
Proof.
  unfold add_subfield.
  apply keeps_bind; [apply keeps_attr|]. intros sf.
  apply keeps_bind; [apply keeps_set_subfields|]. intros _.
  apply keeps_bind; [apply keeps_attr|]. intros sf'. apply keeps_set_subfields.
Qed.

Lemma keeps_pop_subfield (i : Z) : keeps_frame (pop_subfield i : M (Field V) V).
Proof.
  unfold pop_subfield.
  apply keeps_bind; [apply keeps_attr|]. intros sf.
  apply keeps_bind; [apply keeps_lift|]. intros r.
  apply keeps_bind; [apply keeps_set_subfields|]. intros _. apply keeps_ret.
Qed.

Lemma keeps_delete_scan (code : V) (mv : option V) (rest : list V) :
  forall i, keeps_frame (delete_scan code mv i rest).
Proof.
  induction rest as [|c rest IH]; intros i; [apply keeps_ret|].
  rewrite delete_scan_cons. apply keeps_if; [|apply IH].
  apply keeps_bind.
  - destruct mv as [mv|]; [|apply keeps_ret].
    apply keeps_bind; [apply keeps_attr|]. intros sf.
    apply keeps_bind; [apply keeps_lift|]. intros x. apply keeps_ret.
  - intros hit. apply keeps_if; [|apply IH].
    apply keeps_bind; [apply keeps_pop_subfield|]. intros _.
    apply keeps_bind; [apply keeps_pop_subfield|]. intros v. apply keeps_ret.
Qed.

Lemma keeps_delete_subfield (code : V) (mv : option V) :
  keeps_frame (delete_subfield code mv).
Proof.
  unfold delete_subfield. apply keeps_bind; [apply keeps_attr|]. intros sf.
  apply keeps_delete_scan.
Qed.

Lemma keeps_delete_all_loop (code : V) (fuel : nat) :
  keeps_frame (delete_all_loop fuel code).
Proof.
  induction fuel as [|fuel IH]; [apply keeps_raise|].
  simpl. apply keeps_bind; [apply keeps_delete_subfield|]. intros r.
  apply keeps_if; [exact IH|apply keeps_ret].
Qed.

Lemma keeps_setitem_loop (code value : V) (k : nat) :
  keeps_frame (setitem_loop k code value).
Proof.
  induction k as [|k IH]; rewrite setitem_loop_unfold;
    (apply keeps_bind; [apply keeps_attr|]; intros sf;
     apply keeps_bind; [apply keeps_lift|]; intros c;
     apply keeps_if;
     [apply keeps_bind; [apply keeps_attr|]; intros sf';
      apply keeps_bind; [apply keeps_lift|]; intros l;
      apply keeps_set_subfields|]).
  - apply keeps_ret.
  - exact IH.
Qed.

End FrameFacts.

(** X22.  No operation on the subfields touches the rest of the field: in
    any state, and whether they return or raise, [add_subfield],
    [delete_subfield], [delete_all_subfields], [change_code], [sort], the
    item-style write and the queries leave the tag, the data and the
    indicators as they are, so that a field stays the control field or the
    data field that it was. *)
Theorem subfield_operations_keep_frame {V : Type} `{PyValue V} (s : Field V) :
  (forall code value, same_frame s (snd (add_subfield code value s)))
  /\ (forall code mv, same_frame s (snd (delete_subfield code mv s)))
  /\ (forall code, same_frame s (snd (delete_all_subfields code s)))
  /\ (forall from_code to_code, same_frame s (snd (change_code from_code to_code s)))
  /\ (forall (K : Type) (ord : PyOrd K) (key : V * V -> K),
        same_frame s (snd (sort key s)))
  /\ (forall show code value, same_frame s (snd (__setitem__ show code value s)))
  /\ (forall codes, same_frame s (snd (get_subfields codes s)))
  /\ (forall code value,
        is_control_field (snd (add_subfield code value s)) = is_control_field s).
Proof.
  split; [intros code value; apply keeps_add_subfield|].
  split; [intros code mv; apply keeps_delete_subfield|].
  split.
  { intros code. revert s. unfold delete_all_subfields.
    apply keeps_bind; [apply keeps_get|]. intros self. apply keeps_delete_all_loop. }
  split.
  { intros from_code to_code. revert s. unfold change_code.
    apply keeps_bind; [apply keeps_attr|]. intros sf. apply keeps_set_subfields. }
  split.
  { intros K ord key. revert s. unfold sort.
    apply keeps_bind; [apply keeps_attr|]. intros sf.
    apply keeps_bind; [apply keeps_attr|]. intros sf2. apply keeps_set_subfields. }
  split.
  { intros show code value. revert s. unfold __setitem__.
    apply keeps_bind; [apply keeps_get_subfields|]. intros sfs.
    apply keeps_if; [apply keeps_raise|].
    apply keeps_if; [apply keeps_add_subfield|].
    apply keeps_bind; [apply keeps_attr|]. intros sf. apply keeps_setitem_loop. }
  split; [intros codes; apply keeps_get_subfields|].
  intros code value. unfold is_control_field.
  destruct (keeps_add_subfield code value s) as (-> & _). reflexivity.
Qed.

(** X23.  Where every value stored under [code] is non-empty (true in a
    boolean context), [delete_all_subfields(code)] on a data field whose list
    has even length returns, no subfield with the code remains, and the other
    subfields are all there in their order. *)
Theorem delete_all_subfields_nonempty_values {V : Type} `{PyValue V} (code : V)
    (self : Field V) (l : list V) :
  subfields self = Some l -> even_length l -> code_values_truthy code l ->
  exists l',
    delete_all_subfields code self = (Ok tt, set_subfields l' self)
    /\ fst (count code (set_subfields l' self)) = Ok 0
    /\ pairs l' = without_code code l
    /\ (forall c, py_eqb c code = false ->
          fst (get_subfields [c] (set_subfields l' self)) = Ok (values_of c l)).
Proof.
  intros Hs E Ht.
  destruct (delete_all_subfields_truthy code self l Hs E Ht)
    as (l' & Hrun & E' & Hcount & Hpairs).
  exists l'. split; [exact Hrun|].
  split; [erewrite count_spec; [|reflexivity|exact E']; rewrite Hcount; reflexivity|].
  split; [exact Hpairs|].
  intros c Hc. erewrite get_subfields_single; [|reflexivity|exact E'].
  simpl fst. f_equal. unfold values_of. rewrite Hpairs. unfold without_code.
  f_equal. clear -Hc. induction (pairs l) as [|p ps IH]; [reflexivity|]. simpl.
  destruct (has_code code p) eqn:Hp; simpl.
  - unfold has_code in *. apply py_eqb_eq in Hp.
    assert (Hcp : py_eqb (fst p) c = false).
    { rewrite Hp, py_eqb_sym. exact Hc. }
    rewrite Hcp. exact IH.
  - destruct (has_code c p); rewrite IH; reflexivity.
Qed.

Lemma delete_all_subfields_nonempty_values_witness :
  exists l',
    delete_all_subfields "a" Examples.f_three
    = (Ok tt, set_subfields l' Examples.f_three)
    /\ fst (count "a" (set_subfields l' Examples.f_three)) = Ok 0
    /\ pairs l' = [("b", "2")].
Proof.
  destruct (delete_all_subfields_nonempty_values "a" Examples.f_three
              ["a"; "1"; "b"; "2"; "a"; "3"] eq_refl eq_refl)
    as (l' & Hrun & Hcount & Hpairs & _).
  - intros p [<-|[<-|[<-|[]]]] Hp; try reflexivity; discriminate Hp.
  - exists l'. split; [exact Hrun|]. split; [exact Hcount|exact Hpairs].
Defined.

(** X24.  A raw field whose first indicator does not encode as ASCII makes
    [RawField.as_marc] raise [UnicodeEncodeError], with an encoding argument
    (the warning is logged first) and without. *)
Theorem raw_as_marc_non_ascii_indicator (SUBFIELD_INDICATOR : text)
    (END_OF_FIELD : text) (encoding : option text) (self : RawField)
    (log : list log_record) (i1 : text) :
  is_control_field self = false -> indicator1 self = Some i1 ->
  encode_ascii i1 = Raise UnicodeEncodeError ->
  fst (RawField_as_marc SUBFIELD_INDICATOR END_OF_FIELD encoding (self, log))
  = Raise UnicodeEncodeError
  /\ fst (snd (RawField_as_marc SUBFIELD_INDICATOR END_OF_FIELD encoding (self, log)))
     = self.
Proof.
  intros Hc H1 He. unfold RawField_as_marc.
  match goal with |- context [on_self ?m] => set (body := m) end.
  assert (Hbody : body self = (Raise UnicodeEncodeError, self)).
  { unfold body, bind, get, attr, lift. rewrite Hc. read_attrs. reflexivity. }
  destruct encoding as [e|]; unfold bind, logging_warn, ret; cbn [fst snd];
    rewrite on_self_run, Hbody; split; reflexivity.
Qed.

Lemma raw_as_marc_non_ascii_indicator_witness :
  fst (RawField_as_marc Examples.SUBFIELD_INDICATOR Examples.END_OF_FIELD None
         (mkField "245" None (Some [String (ascii_of_nat 233) ""; "1"])
                  (Some (String (ascii_of_nat 233) "")) (Some "1")
                  (Some [[x61]; [x58]]) None, []))
  = Raise UnicodeEncodeError.
Proof.
  apply (raw_as_marc_non_ascii_indicator Examples.SUBFIELD_INDICATOR
           Examples.END_OF_FIELD None _ [] (String (ascii_of_nat 233) ""));
    reflexivity.
Defined.

(** X25.  [sort()] with its default key returns on a data field with any
    subfield list; afterwards the codes are in non-decreasing order, and the
    subfields are those of the list before, ordered as whole (code, value)
    tuples. *)
Theorem sort_default_orders_codes (self : Field text) (l : list text) :
  subfields self = Some l ->
  exists l',
    sort Examples.default_key self = (Ok tt, set_subfields l' self)
    /\ Permutation (pairs l') (pairs l)
    /\ Sorted (fun c1 c2 : text => String.ltb c2 c1 = false) (codes_of l')
    /\ Sorted (key_le Examples.default_key) (pairs l').
Proof.
  intros Hs.
  destruct (sort_by_tuple_key Examples.default_key self l tuple_lt_asym Hs)
    as (l' & Hsort & Hperm & Hsorted & _).
  exists l'. split; [exact Hsort|]. split; [exact Hperm|].
  split; [apply default_key_codes; exact Hsorted|exact Hsorted].
Qed.

Lemma sort_default_orders_codes_witness :
  exists l',
    sort Examples.default_key (Examples.data_field ["b"; "2"; "a"; "3"; "a"; "1"])
    = (Ok tt, set_subfields l' (Examples.data_field ["b"; "2"; "a"; "3"; "a"; "1"]))
    /\ Sorted (fun c1 c2 : text => String.ltb c2 c1 = false) (codes_of l').
Proof.
  destruct (sort_default_orders_codes
              (Examples.data_field ["b"; "2"; "a"; "3"; "a"; "1"])
              ["b"; "2"; "a"; "3"; "a"; "1"] eq_refl)
    as (l' & Hrun & _ & Hcodes & _).
  exists l'. split; [exact Hrun|exact Hcodes].
Defined.

Section WithCodesFacts.
Context {V : Type} `{PyValue V}.

Lemma get_subfields_with_codes_body_pure (codes : list V) (acc : list (V * V))
    (p : V * V) (s : Field V) :
  (if existsb (py_eqb (fst p)) codes || match codes with [] => true | _ => false end
   then ret (acc ++ [p]) else ret acc) s
  = (Ok (if requested codes p then acc ++ [p] else acc), s).
Proof. unfold requested. destruct (_ || _); reflexivity. Qed.

End WithCodesFacts.

(** X26.  With [with_codes=True], [get_subfields] on a data field whose list
    has even length returns the (code, value) tuples of the subfields asked
    for, in the order of the field: the list returned is the list of the
    subfields of the field, in their order, with the ones not asked for left
    out.  The values of the tuples are what the call without [with_codes]
    returns, and with no code given the tuples are all the subfields, which
    is what iterating over the field yields. *)
Theorem get_subfields_with_codes_pairs {V : Type} `{PyValue V} (codes : list V)
    (self : Field V) (l : list V) :
  subfields self = Some l -> even_length l ->
  exists ps,
    fst (get_subfields_with_codes codes self) = Ok ps
    /\ ps = filter (requested codes) (pairs l)
    /\ fst (get_subfields codes self) = Ok (map snd ps)
    /\ (forall p, In p ps <-> In p (pairs l) /\ requested codes p = true)
    /\ (codes = [] -> ps = pairs l /\ fst (iterate self) = Ok ps).
Proof.
  intros Hs E. exists (filter (requested codes) (pairs l)).
  split; [|split; [reflexivity|]].
  - unfold get_subfields_with_codes.
    rewrite (for_self_pure
               (fun acc p => if requested codes p then acc ++ [p] else acc)
               (fun values subfield =>
                  if existsb (py_eqb (fst subfield)) codes
                     || match codes with [] => true | _ => false end
                  then ret (values ++ [subfield])
                  else ret values)
               (get_subfields_with_codes_body_pure codes) l [] self Hs E).
    simpl fst. rewrite (fold_left_select (requested codes) (fun p => p)).
    rewrite map_id. reflexivity.
  - split; [rewrite (get_subfields_spec codes self l Hs E); reflexivity|].
    split; [intros p; apply filter_In|].
    intros ->. rewrite (iterate_spec self l Hs E). simpl fst.
    rewrite (filter_ext (requested []) (fun _ => true) requested_none), filter_all.
    split; reflexivity.
Qed.

Lemma get_subfields_with_codes_pairs_witness :
  fst (get_subfields_with_codes ["a"] Examples.f_three) = Ok [("a", "1"); ("a", "3")]
  /\ exists ps,
       fst (get_subfields_with_codes ["a"] Examples.f_three) = Ok ps
       /\ fst (get_subfields ["a"] Examples.f_three) = Ok (map snd ps).
Proof.
  split; [reflexivity|].
  destruct (get_subfields_with_codes_pairs ["a"] Examples.f_three
              ["a"; "1"; "b"; "2"; "a"; "3"] eq_refl eq_refl)
    as (ps & Hrun & _ & Hvals & _).
  exists ps. split; [exact Hrun|exact Hvals].
Defined.
